(** * Bridge Temporary Evaluation: a shallow embedding of bridge_app_equalized.py

    The program is a Tk form: four hand panels ([HandFrame]) inside one
    application window ([BridgeApp]).  Widget variables and entry contents are
    modelled as fields of records, event callbacks as computations in a small
    state-and-exception monad, pop-ups and console output as an event log.

    Python [str] values are modelled as lists of 8-bit characters, i.e. text
    over the code points below 256; the library functions used by the program
    ([str.strip], [str.upper], [str.split], [str.replace], [str.isdigit],
    [int], [str], [sorted], [Counter]) are given by executable definitions
    that follow their documented behaviour on that range. *)

From Stdlib Require Import ZArith NArith List Ascii String Lia Bool.
From Stdlib Require Import Sorting.Sorted Sorting.Permutation.
From Stdlib Require Import DecimalString DecimalPos DecimalFacts.
From stdpp Require Import base decidable option list sorting gmap strings.

Local Open Scope Z_scope.

(** ** Python strings *)

Abbreviation str := (list ascii) (only parsing).

(** A string literal of the source. *)
Definition lit (s : string) : str := list_ascii_of_string s.

Definition chr (n : N) : ascii := ascii_of_N n.
Definition ord (c : ascii) : N := N_of_ascii c.

Definition ch_eqb (a b : ascii) : bool := Ascii.eqb a b.

(** ** Exceptions and results *)

Inductive exn : Type :=
| ValueError (msg : string)
| AttributeError (msg : string)
| StopIteration.

Inductive res (A : Type) : Type :=
| Ok (a : A)
| Raise (e : exn).
Arguments Ok {A} a.
Arguments Raise {A} e.

#[global] Instance res_ret : MRet res := fun A a => Ok a.
#[global] Instance res_bind : MBind res := fun A B f m =>
  match m with Ok a => f a | Raise e => Raise e end.

(** [try: body except Exception: dflt] for a body that only computes a value. *)
Definition try_or {A : Type} (body : res A) (dflt : A) : A :=
  match body with Ok a => a | Raise _ => dflt end.

Fixpoint res_mapM {A B : Type} (f : A -> res B) (l : list A) : res (list B) :=
  match l with
  | [] => Ok []
  | x :: r => y ← f x; ys ← res_mapM f r; Ok (y :: ys)
  end.

Module Py.

(** [str.isspace] on one character: TAB..CR, FS..US, space, NEL, NBSP. *)
Definition isspace (c : ascii) : bool :=
  let n := ord c in
  (((9 <=? n) && (n <=? 13)) || ((28 <=? n) && (n <=? 32))
   || (n =? 133) || (n =? 160))%N.

(** [str.upper] on one character.  ASCII and Latin-1 lower-case letters move
    down by 32.  The three characters whose upper-case form leaves the range
    (U+00B5, U+00DF, U+00FF) are kept: their images contain no rank
    character, digit, separator or whitespace, like the characters
    themselves. *)
Definition upper_char (c : ascii) : ascii :=
  let n := ord c in
  if (((97 <=? n) && (n <=? 122))
      || ((224 <=? n) && (n <=? 254) && negb (n =? 247)))%N
  then chr (n - 32) else c.

Definition upper (s : str) : str := map upper_char s.

(** Removal of leading and trailing characters that satisfy [sp]. *)
Fixpoint lstrip_with (sp : ascii -> bool) (s : str) : str :=
  match s with
  | [] => []
  | c :: r => if sp c then lstrip_with sp r else s
  end.

Definition rstrip_with (sp : ascii -> bool) (s : str) : str :=
  rev (lstrip_with sp (rev s)).

Definition strip_with (sp : ascii -> bool) (s : str) : str :=
  rstrip_with sp (lstrip_with sp s).

(** [s.strip()]. *)
Definition strip (s : str) : str := strip_with isspace s.

(** The blanks [int] skips around a literal: the ASCII blanks TAB..CR and
    space, and the spaces outside ASCII; the separators FS..US are not
    skipped. *)
Definition isspace_int (c : ascii) : bool :=
  let n := ord c in
  (((9 <=? n) && (n <=? 13)) || (n =? 32) || (n =? 133) || (n =? 160))%N.

Fixpoint startswith (p s : str) : bool :=
  match p, s with
  | [], _ => true
  | a :: p', b :: s' => ch_eqb a b && startswith p' s'
  | _ :: _, [] => false
  end.

(** [s.replace(old, new)] for a non-empty [old]: a left-to-right scan over
    non-overlapping occurrences.  [skip] counts the characters of a matched
    occurrence that are still to be passed over. *)
Fixpoint replace_from (old new : str) (skip : nat) (s : str) : str :=
  match s with
  | [] => []
  | c :: r =>
      match skip with
      | S k => replace_from old new k r
      | O =>
          if startswith old s
          then new ++ replace_from old new (length old - 1) r
          else c :: replace_from old new 0 r
      end
  end.

Definition replace (old new s : str) : str := replace_from old new 0 s.

(** [s.split()]: maximal runs of non-whitespace characters. *)
Fixpoint split_from (cur : str) (s : str) : list str :=
  match s with
  | [] => match cur with [] => [] | _ => [cur] end
  | c :: r =>
      if isspace c
      then match cur with [] => split_from [] r | _ => cur :: split_from [] r end
      else split_from (cur ++ [c]) r
  end.

Definition split (s : str) : list str := split_from [] s.

(** [str.isdigit] on one character: the decimal digits and the superscript
    digits U+00B2, U+00B3, U+00B9. *)
Definition isdigit_char (c : ascii) : bool :=
  let n := ord c in
  (((48 <=? n) && (n <=? 57)) || (n =? 178) || (n =? 179) || (n =? 185))%N.

Definition isdigit (s : str) : bool :=
  match s with [] => false | _ => forallb isdigit_char s end.

(** The value of a decimal digit, for the characters [int] accepts. *)
Definition digit_value (c : ascii) : option Z :=
  let n := ord c in
  if ((48 <=? n) && (n <=? 57))%N then Some (Z.of_N n - 48) else None.

(** The digits of an [int] literal: a digit first, then digits with single
    underscores between them. *)
Fixpoint int_digits (acc : Z) (after_us : bool) (s : str) : option Z :=
  match s with
  | [] => if after_us then None else Some acc
  | c :: r =>
      match digit_value c with
      | Some d => int_digits (10 * acc + d) false r
      | None =>
          if ch_eqb c "_"%char && negb after_us
          then int_digits acc true r else None
      end
  end.

Definition int_body (s : str) : option Z :=
  match s with
  | [] => None
  | c :: r =>
      match digit_value c with
      | Some d => int_digits d false r
      | None => None
      end
  end.

(** [int(s)] in base ten: surrounding blanks, an optional sign, the
    digits. *)
Definition int (s : str) : res Z :=
  let signed :=
    match strip_with isspace_int s with
    | c :: r =>
        if ch_eqb c "-"%char then Z.opp <$> int_body r
        else if ch_eqb c "+"%char then int_body r
        else int_body (c :: r)
    | [] => None
    end in
  match signed with
  | Some n => Ok n
  | None => Raise (ValueError "invalid literal for int() with base 10")
  end.

(** [str(n)] for an integer. *)
Definition str_of_int (n : Z) : str :=
  lit (NilZero.string_of_int (Z.to_int n)).

(** [sep.join(parts)]. *)
Fixpoint join (sep : str) (parts : list str) : str :=
  match parts with
  | [] => []
  | [p] => p
  | p :: rest => p ++ sep ++ join sep rest
  end.

(** [x in l] for a list of characters. *)
Definition contains (l : list ascii) (x : ascii) : bool := existsb (ch_eqb x) l.

(** [l.index(x)]: [None] stands for ValueError. *)
Fixpoint index (l : list ascii) (x : ascii) : option nat :=
  match l with
  | [] => None
  | y :: r => if ch_eqb x y then Some O else S <$> index r x
  end.

End Py.

(** ** [sorted(l, key=f)]

  The keys are computed first, one call per element and in order; the sort
  is stable. *)

Section Sorted.
Context {A : Type}.

Fixpoint insert_keyed (kx : nat * A) (l : list (nat * A)) : list (nat * A) :=
  match l with
  | [] => [kx]
  | ky :: r => if (kx.1 <=? ky.1)%nat then kx :: l else ky :: insert_keyed kx r
  end.

Fixpoint sort_keyed (l : list (nat * A)) : list (nat * A) :=
  match l with
  | [] => []
  | kx :: r => insert_keyed kx (sort_keyed r)
  end.

Definition sorted (key : A -> res nat) (l : list A) : res (list A) :=
  keys ← res_mapM key l;
  Ok (map snd (sort_keyed (combine keys l))).
End Sorted.

(** ** Module-level constants and helpers of the program *)

Definition RANKS_ORDER : list ascii :=
  lit "AKQJT98765432X".

Definition RANK_VALUES : list (ascii * Z) :=
  [("A"%char, 4); ("K"%char, 3); ("Q"%char, 2); ("J"%char, 1)].

(** [d.get(k, dflt)] on a dict literal. *)
Fixpoint dict_get {V : Type} (d : list (ascii * V)) (k : ascii) (dflt : V) : V :=
  match d with
  | [] => dflt
  | (k', v) :: r => if ch_eqb k k' then v else dict_get r k dflt
  end.

Definition rank_key (t : ascii) : res nat :=
  match Py.index RANKS_ORDER t with
  | Some i => Ok i
  | None => Raise (ValueError "is not in list")
  end.

(** [normalize_cards(text)]; [None] is Python's [None]. *)
Definition normalize_cards (text : option str) : res str :=
  match text with
  | None => Ok []
  | Some text =>
      let raw := Py.replace (lit ".") (lit " ")
                   (Py.replace (lit "-") (lit " ")
                      (Py.replace (lit ",") (lit " ")
                         (Py.upper (Py.strip text)))) in
      let raw := Py.replace (lit "10") (lit "T") raw in
      let parts := List.filter (fun p => negb (Nat.eqb (length p) 0)) (Py.split raw) in
      let tokens :=
        match parts with
        | [p] => p
        | _ => concat parts
        end in
      let tokens := map (fun t => if ch_eqb t "0"%char then "T"%char else t) tokens in
      let tokens := List.filter (Py.contains RANKS_ORDER) tokens in
      tokens_sorted ← sorted rank_key tokens;
      Ok tokens_sorted
  end.

Definition hcp_from_cards (cards : str) : Z :=
  fold_left Z.add (map (fun ch => dict_get RANK_VALUES ch 0) cards) 0.

(** ** The form state *)

Inductive suit : Type := Spades | Hearts | Diamonds | Clubs.
Inductive player : Type := North | East | South | West.

#[global] Instance suit_eq_dec : EqDecision suit.
Proof. solve_decision. Defined.
#[global] Instance player_eq_dec : EqDecision player.
Proof. solve_decision. Defined.

(** The suit codes of [SUITS], in order; the suit symbols only label widgets. *)
Definition SUITS : list suit := [Spades; Hearts; Diamonds; Clubs].

Definition suit_code (sc : suit) : str :=
  match sc with
  | Spades => lit "S" | Hearts => lit "H" | Diamonds => lit "D" | Clubs => lit "C"
  end.

Definition player_code (pl : player) : str :=
  match pl with
  | North => lit "N" | East => lit "E" | South => lit "S" | West => lit "W"
  end.

(** A dict whose key set is fixed at construction, indexed by its keys. *)
Definition upd {K V : Type} `{EqDecision K} (f : K -> V) (k : K) (v : V) : K -> V :=
  fun k' => if decide (k' = k) then v else f k'.

Definition GREEN : str := lit "#6fff6f".
Definition RED : str := lit "#ff6f6f".
Definition WHITE : str := lit "#ffffff".

(** One rank label of a suit strip. *)
Record tile : Type := {
  tile_text : ascii;
  tile_played : bool;
  tile_bg : str
}.

Record HandFrame : Type := {
  player_label : option str;   (* instance attribute; [__init__] never assigns it *)
  last_cards : suit -> str;
  played_counts : suit -> gmap ascii Z;   (* defaultdict(int) per suit *)
  card_strips : suit -> list tile;
  points_min : str;
  points_max : str;
  hcp_var : str;
  cards_total_var : str;
  suit_count_vars : suit -> str;
  suit_card_vars : suit -> str;
  entry_background : suit -> str;
  accepts_background : bool   (* whether the theme lets [entry.config] set it *)
}.

Definition with_last_cards (v : suit -> str) (hf : HandFrame) : HandFrame :=
  Build_HandFrame (player_label hf) v (played_counts hf) (card_strips hf)
    (points_min hf) (points_max hf) (hcp_var hf) (cards_total_var hf)
    (suit_count_vars hf) (suit_card_vars hf) (entry_background hf)
    (accepts_background hf).

Definition with_played_counts (v : suit -> gmap ascii Z) (hf : HandFrame) : HandFrame :=
  Build_HandFrame (player_label hf) (last_cards hf) v (card_strips hf)
    (points_min hf) (points_max hf) (hcp_var hf) (cards_total_var hf)
    (suit_count_vars hf) (suit_card_vars hf) (entry_background hf)
    (accepts_background hf).

Definition with_card_strips (v : suit -> list tile) (hf : HandFrame) : HandFrame :=
  Build_HandFrame (player_label hf) (last_cards hf) (played_counts hf) v
    (points_min hf) (points_max hf) (hcp_var hf) (cards_total_var hf)
    (suit_count_vars hf) (suit_card_vars hf) (entry_background hf)
    (accepts_background hf).

Definition with_points (lo hi : str) (hf : HandFrame) : HandFrame :=
  Build_HandFrame (player_label hf) (last_cards hf) (played_counts hf)
    (card_strips hf) lo hi (hcp_var hf) (cards_total_var hf)
    (suit_count_vars hf) (suit_card_vars hf) (entry_background hf)
    (accepts_background hf).

Definition with_hcp_var (v : str) (hf : HandFrame) : HandFrame :=
  Build_HandFrame (player_label hf) (last_cards hf) (played_counts hf)
    (card_strips hf) (points_min hf) (points_max hf) v (cards_total_var hf)
    (suit_count_vars hf) (suit_card_vars hf) (entry_background hf)
    (accepts_background hf).

Definition with_cards_total_var (v : str) (hf : HandFrame) : HandFrame :=
  Build_HandFrame (player_label hf) (last_cards hf) (played_counts hf)
    (card_strips hf) (points_min hf) (points_max hf) (hcp_var hf) v
    (suit_count_vars hf) (suit_card_vars hf) (entry_background hf)
    (accepts_background hf).

Definition with_suit_count_vars (v : suit -> str) (hf : HandFrame) : HandFrame :=
  Build_HandFrame (player_label hf) (last_cards hf) (played_counts hf)
    (card_strips hf) (points_min hf) (points_max hf) (hcp_var hf)
    (cards_total_var hf) v (suit_card_vars hf) (entry_background hf)
    (accepts_background hf).

Definition with_suit_card_vars (v : suit -> str) (hf : HandFrame) : HandFrame :=
  Build_HandFrame (player_label hf) (last_cards hf) (played_counts hf)
    (card_strips hf) (points_min hf) (points_max hf) (hcp_var hf)
    (cards_total_var hf) (suit_count_vars hf) v (entry_background hf)
    (accepts_background hf).

Definition with_entry_background (v : suit -> str) (hf : HandFrame) : HandFrame :=
  Build_HandFrame (player_label hf) (last_cards hf) (played_counts hf)
    (card_strips hf) (points_min hf) (points_max hf) (hcp_var hf)
    (cards_total_var hf) (suit_count_vars hf) (suit_card_vars hf) v
    (accepts_background hf).

(** The numbers shown by the summary line
    "Total cards: .. | (four suit totals) | Min pts: .. | Max pts: ..". *)
Record summary : Type := {
  total_cards : Z;
  suit_totals : suit -> Z;
  min_points_sum : Z;
  max_points_sum : Z
}.

Record BridgeApp : Type := {
  frames : player -> HandFrame;
  summary_var : summary;
  table_colors : player -> str;
  table_fill : player -> str;       (* fill of each tile's canvas rectangle *)
  focus : option (player * suit)    (* the cards entry holding the focus *)
}.

Definition with_frames (v : player -> HandFrame) (a : BridgeApp) : BridgeApp :=
  Build_BridgeApp v (summary_var a) (table_colors a) (table_fill a) (focus a).

Definition with_summary_var (v : summary) (a : BridgeApp) : BridgeApp :=
  Build_BridgeApp (frames a) v (table_colors a) (table_fill a) (focus a).

Definition with_table_colors (v : player -> str) (a : BridgeApp) : BridgeApp :=
  Build_BridgeApp (frames a) (summary_var a) v (table_fill a) (focus a).

Definition with_table_fill (v : player -> str) (a : BridgeApp) : BridgeApp :=
  Build_BridgeApp (frames a) (summary_var a) (table_colors a) v (focus a).

Definition with_focus (v : option (player * suit)) (a : BridgeApp) : BridgeApp :=
  Build_BridgeApp (frames a) (summary_var a) (table_colors a) (table_fill a) v.

(** ** Events the program sends outside the form *)

(** What [get_state] returns for one hand. *)
Record suit_state : Type := {
  st_count : str;
  st_cards : str;
  st_played : gmap ascii Z
}.

Record hand_state : Type := {
  st_player : str;
  st_points_range : str * str;
  st_hcp : str;
  st_cards_total : str;
  st_suits : list (suit * suit_state)
}.

Inductive event : Type :=
| showwarning (title message : str)
| showinfo (title message : str)
| print_json (state : list (player * hand_state)).

(** ** Callbacks: state, exceptions, emitted events *)

Record outcome (A : Type) : Type := {
  result : res A;
  state : BridgeApp;
  emitted : list event
}.
Arguments Build_outcome {A} _ _ _.
Arguments result {A} _.
Arguments state {A} _.
Arguments emitted {A} _.

Definition M (A : Type) : Type := BridgeApp -> outcome A.

#[global] Instance M_ret : MRet M := fun A x a => Build_outcome (Ok x) a [].
#[global] Instance M_bind : MBind M := fun A B f m a =>
  let o := m a in
  match result o with
  | Ok x =>
      let o' := f x (state o) in
      Build_outcome (result o') (state o') (emitted o ++ emitted o')
  | Raise e => Build_outcome (Raise e) (state o) (emitted o)
  end.

Definition get : M BridgeApp := fun a => Build_outcome (Ok a) a [].
Definition modify (f : BridgeApp -> BridgeApp) : M unit :=
  fun a => Build_outcome (Ok tt) (f a) [].
Definition emit (e : event) : M unit := fun a => Build_outcome (Ok tt) a [e].
Definition lift {A : Type} (r : res A) : M A := fun a => Build_outcome r a [].

(** [for x in l: body(x)]. *)
Fixpoint for_each {X : Type} (l : list X) (body : X -> M unit) : M unit :=
  match l with
  | [] => mret tt
  | x :: r => body x ;; for_each r body
  end.

Fixpoint M_mapM {X Y : Type} (f : X -> M Y) (l : list X) : M (list Y) :=
  match l with
  | [] => mret []
  | x :: r => y ← f x; ys ← M_mapM f r; mret (y :: ys)
  end.

(** [self] of a [HandFrame] method is the frame of player [pl]. *)
Definition self (pl : player) : M HandFrame := a ← get; mret (frames a pl).

Definition self_update (pl : player) (f : HandFrame -> HandFrame) : M unit :=
  modify (fun a => with_frames (upd (frames a) pl (f (frames a pl))) a).

Definition len {X : Type} (l : list X) : Z := Z.of_nat (length l).

Definition str_eqb (a b : str) : bool := bool_decide (a = b).

(** ** [collections.Counter] over the characters of a string

    A dict keeps its keys in insertion order, so a counter is an association
    list in order of first occurrence. *)

Fixpoint counter_add (c : ascii) (d : list (ascii * Z)) : list (ascii * Z) :=
  match d with
  | [] => [(c, 1)]
  | (k, v) :: r => if ch_eqb c k then (k, v + 1) :: r else (k, v) :: counter_add c r
  end.

Definition Counter (s : str) : list (ascii * Z) :=
  fold_left (fun d c => counter_add c d) s [].

(** [d.get(k, 0)] and [d[k]] on a [defaultdict(int)] held in the form state;
    reading with [get] never inserts. *)
Definition dd_get (d : gmap ascii Z) (k : ascii) : Z := default 0 (d !! k).

(** ** [HandFrame] methods and the callbacks bound in [__init__] *)

Definition _to_int (entry : str) : Z :=
  try_or (let v := Py.strip entry in
          match v with [] => Ok 0 | _ => Py.int v end) 0.

(** One round of the loop over the players in [update_global_stats].  Every
    player has a frame once [__init__] has run, so the guard on a missing
    frame never fires. *)
Definition global_stats_step (a : BridgeApp) (acc : summary) (pl : player) : summary :=
  let hf := frames a pl in
  let hcp := try_or (Py.int (hcp_var hf)) 0 in
  let pts_min := _to_int (points_min hf) in
  let pts_max := _to_int (points_max hf) in
  let '(totals, hand_cards) :=
    fold_left (fun '(st, hc) sc =>
                 let n := len (suit_card_vars hf sc) in
                 (upd st sc (st sc + n), hc + n))
              SUITS (suit_totals acc, 0) in
  {| total_cards := total_cards acc + hand_cards;
     suit_totals := totals;
     min_points_sum := min_points_sum acc + Z.max hcp pts_min;
     max_points_sum := max_points_sum acc + Z.max hcp pts_max |}.

Definition update_global_stats : M unit :=
  a ← get;
  let zero := {| total_cards := 0; suit_totals := fun _ => 0;
                 min_points_sum := 0; max_points_sum := 0 |} in
  modify (with_summary_var
            (fold_left (global_stats_step a) [North; East; South; West] zero)).

Definition update_stats (pl : player) : M unit :=
  hf ← self pl;
  let '(total_hcp, total_cards) :=
    fold_left (fun '(h, n) sc =>
                 let cards := suit_card_vars hf sc in
                 (h + hcp_from_cards cards, n + len cards))
              SUITS (0, 0) in
  self_update pl (with_hcp_var (Py.str_of_int total_hcp));;
  self_update pl (with_cards_total_var (Py.str_of_int total_cards));;
  update_global_stats.

(** The strip of one suit: a label per character of the cards variable, the
    first [played_counts[rank]] labels of a rank marked as played. *)
Fixpoint build_strip (played used : gmap ascii Z) (cards : str) : list tile :=
  match cards with
  | [] => []
  | rank :: r =>
      if negb (ch_eqb rank "X"%char) && (dd_get used rank <? dd_get played rank)
      then {| tile_text := rank; tile_played := true; tile_bg := GREEN |}
             :: build_strip played (<[rank := dd_get used rank + 1]> used) r
      else {| tile_text := rank; tile_played := false; tile_bg := WHITE |}
             :: build_strip played used r
  end.

Definition rebuild_card_strip (pl : player) (sc : suit) : M unit :=
  hf ← self pl;
  let cards := suit_card_vars hf sc in
  self_update pl (fun hf =>
    with_card_strips (upd (card_strips hf) sc (build_strip (played_counts hf sc) ∅ cards)) hf).

(** Click on label [i] of the strip of suit [sc]. *)
Definition on_toggle (pl : player) (sc : suit) (i : nat) : M unit :=
  hf ← self pl;
  match card_strips hf sc !! i with
  | None => mret tt
  | Some l =>
      let r := tile_text l in
      if ch_eqb r "X"%char then mret tt
      else
        let now_played := negb (tile_played l) in
        let pc := played_counts hf sc in
        let l' := {| tile_text := r; tile_played := now_played;
                     tile_bg := if now_played then GREEN else WHITE |} in
        let pc' :=
          if now_played then <[r := dd_get pc r + 1]> pc
          else if 0 <? dd_get pc r then <[r := dd_get pc r - 1]> pc else pc in
        self_update pl (fun hf =>
          with_played_counts (upd (played_counts hf) sc pc')
            (with_card_strips (upd (card_strips hf) sc (<[i := l']> (card_strips hf sc))) hf))
  end.

(** The write trace of a count variable. *)
Definition on_count_change (pl : player) (sc : suit) : M unit :=
  hf ← self pl;
  match Py.int (suit_count_vars hf sc) with
  | Raise _ => mret tt
  | Ok desired =>
      let cards := suit_card_vars hf sc in
      if accepts_background hf
      then self_update pl (fun hf =>
             with_entry_background
               (upd (entry_background hf) sc
                    (if bool_decide (len cards = desired) then lit "white" else lit "#fff4f4"))
               hf)
      else mret tt
  end.

(** [cnt_var.set(v)]: the write, then its trace. *)
Definition count_var_set (pl : player) (sc : suit) (v : str) : M unit :=
  self_update pl (fun hf => with_suit_count_vars (upd (suit_count_vars hf) sc v) hf);;
  on_count_change pl sc.

Definition card_var_set (pl : player) (sc : suit) (v : str) : M unit :=
  self_update pl (fun hf => with_suit_card_vars (upd (suit_card_vars hf) sc v) hf).

Definition next_suit (sc : suit) : suit :=
  match sc with
  | Spades => Hearts | Hearts => Diamonds | Diamonds => Clubs | Clubs => Spades
  end.

Definition focus_next_suit (pl : player) (sc : suit) : M unit :=
  modify (with_focus (Some (pl, next_suit sc))).

(** The first key of a dict: [next(iter(d.keys()))]. *)
Definition first_key (d : list (ascii * Z)) : res ascii :=
  match d with
  | (k, _) :: _ => Ok k
  | [] => Raise StopIteration
  end.

(** The rank the diff of two normalized strings marks as played, if any:
    the body of the [if old_norm:] block. *)
Definition auto_mark (old_norm new_norm : str) : res (option ascii) :=
  let old_counter := Counter old_norm in
  let new_counter := Counter new_norm in
  let delta_x := dict_get old_counter "X"%char 0 - dict_get new_counter "X"%char 0 in
  let added :=
    map (fun r => (r, dict_get new_counter r 0 - dict_get old_counter r 0))
        (List.filter (fun r => negb (ch_eqb r "X"%char)) (map fst new_counter)) in
  let added := List.filter (fun rc => 0 <? rc.2) added in
  if (delta_x =? 1) && (fold_left Z.add (map snd added) 0 =? 1)
  then added_rank ← first_key added; Ok (Some added_rank)
  else Ok None.

(** The handler bound to FocusOut, Return and Tab of a cards entry; [evt] is
    the key symbol of the event. *)
Definition on_cards_change (pl : player) (sc : suit) (evt : option str) : M (option str) :=
  hf ← self pl;
  let old := last_cards hf sc in
  let shown := suit_card_vars hf sc in
  new_norm ← lift (normalize_cards (Some shown));
  (if str_eqb new_norm (Py.upper shown) then mret tt
   else card_var_set pl sc new_norm);;
  count_var_set pl sc (Py.str_of_int (len new_norm));;
  update_stats pl;;
  old_norm ← lift (normalize_cards (Some old));
  match old_norm with
  | [] => mret tt
  | _ =>
      mark ← lift (auto_mark old_norm new_norm);
      match mark with
      | Some added_rank =>
          self_update pl (fun hf =>
            with_played_counts
              (upd (played_counts hf) sc
                   (<[added_rank := dd_get (played_counts hf sc) added_rank + 1]>
                      (played_counts hf sc)))
              hf)
      | None => mret tt
      end
  end;;
  self_update pl (fun hf => with_last_cards (upd (last_cards hf) sc new_norm) hf);;
  rebuild_card_strip pl sc;;
  match evt with
  | Some keysym =>
      if str_eqb keysym (lit "Return") || str_eqb keysym (lit "Tab")
      then focus_next_suit pl sc;; mret (Some (lit "break"))
      else mret None
  | None => mret None
  end.

Definition sort_all (pl : player) : M unit :=
  for_each SUITS (fun sc =>
    hf ← self pl;
    norm ← lift (normalize_cards (Some (suit_card_vars hf sc)));
    card_var_set pl sc norm;;
    count_var_set pl sc (Py.str_of_int (len norm));;
    self_update pl (fun hf => with_last_cards (upd (last_cards hf) sc norm) hf);;
    rebuild_card_strip pl sc);;
  update_stats pl.

Definition clear_all (pl : player) : M unit :=
  self_update pl (with_points [] []);;
  for_each SUITS (fun sc =>
    card_var_set pl sc [];;
    count_var_set pl sc [];;
    self_update pl (fun hf => with_last_cards (upd (last_cards hf) sc []) hf);;
    self_update pl (fun hf => with_played_counts (upd (played_counts hf) sc ∅) hf);;
    rebuild_card_strip pl sc);;
  update_stats pl.

(** [getattr(self, "player_label")]. *)
Definition get_player_label (hf : HandFrame) : res str :=
  match player_label hf with
  | Some l => Ok l
  | None => Raise (AttributeError "'HandFrame' object has no attribute 'player_label'")
  end.

Definition get_state (pl : player) : M hand_state :=
  hf ← self pl;
  let suits :=
    map (fun sc => (sc, {| st_count := suit_count_vars hf sc;
                            st_cards := suit_card_vars hf sc;
                            st_played := played_counts hf sc |})) SUITS in
  label ← lift (get_player_label hf);
  mret {| st_player := label;
          st_points_range := (points_min hf, points_max hf);
          st_hcp := hcp_var hf;
          st_cards_total := cards_total_var hf;
          st_suits := suits |}.

(** ** [BridgeApp] methods *)

Definition new_HandFrame (theme_bg : bool) : HandFrame :=
  {| player_label := None;
     last_cards := fun _ => [];
     played_counts := fun _ => ∅;
     card_strips := fun _ => [];
     points_min := [];
     points_max := [];
     hcp_var := lit "0";
     cards_total_var := lit "0";
     suit_count_vars := fun _ => [];
     suit_card_vars := fun _ => [];
     entry_background := fun _ => lit "white";
     accepts_background := theme_bg |}.

(** The pair of tiles a click on [letter] toggles. *)
Definition table_pair (letter : player) : list player :=
  match letter with
  | West | East => [West; East]
  | _ => [North; South]
  end.

Definition _toggle_table_letter (letter : player) : M unit :=
  a ← get;
  let pair := table_pair letter in
  let cur := table_colors a letter in
  let new_color := if str_eqb cur GREEN then RED else GREEN in
  for_each pair (fun L =>
    modify (fun a => with_table_colors (upd (table_colors a) L new_color) a);;
    modify (fun a => with_table_fill (upd (table_fill a) L new_color) a)).

(** One round of the inner loop of [validate_all]. *)
Definition validate_suit (pl : player) (hf : HandFrame)
    (acc : list str * Z) (sc : suit) : res (list str * Z) :=
  let cnt_str := Py.strip (suit_count_vars hf sc) in
  let cards := Py.strip (suit_card_vars hf sc) in
  cnt ← (if Py.isdigit cnt_str then n ← Py.int cnt_str; Ok (Some n) else Ok None);
  let msgs :=
    match cnt with
    | Some cnt =>
        if bool_decide (cnt = len cards) then acc.1
        else acc.1 ++ [player_code pl ++ lit " " ++ suit_code sc ++ lit ": count "
                         ++ Py.str_of_int cnt ++ lit " != cards length "
                         ++ Py.str_of_int (len cards) ++ lit " ('" ++ cards ++ lit "')"]
    | None => acc.1
    end in
  Ok (msgs, acc.2 + len cards).

Fixpoint res_fold {X Y : Type} (f : Y -> X -> res Y) (l : list X) (acc : Y) : res Y :=
  match l with
  | [] => Ok acc
  | x :: r => acc' ← f acc x; res_fold f r acc'
  end.

(** One round of the outer loop of [validate_all]. *)
Definition validate_player (a : BridgeApp) (msgs : list str) (pl : player) : res (list str) :=
  let hf := frames a pl in
  '(msgs, total) ← res_fold (validate_suit pl hf) SUITS (msgs, 0);
  if negb (total =? 0) && negb (total =? 13)
  then Ok (msgs ++ [player_code pl ++ lit ": has " ++ Py.str_of_int total
                      ++ lit " cards (should be 13)."])
  else Ok msgs.

Definition validate_msgs (a : BridgeApp) : res (list str) :=
  res_fold (validate_player a) [North; East; South; West] [].

Definition validate_all : M unit :=
  a ← get;
  msgs ← lift (validate_msgs a);
  match msgs with
  | [] => emit (showinfo (lit "Validation") (lit "All good!"))
  | _ => emit (showwarning (lit "Validation") (Py.join [chr 10] msgs))
  end.

Definition dump_state : M unit :=
  st ← M_mapM (fun pl => s ← get_state pl; mret (pl, s)) [North; East; South; West];
  emit (print_json st);;
  emit (showinfo (lit "Dumped") (lit "Current state printed to console.")).

(** [self.frames] was filled in the order W, E, N, S. *)
Definition sort_all_hands : M unit := for_each [West; East; North; South] sort_all.
Definition clear_all_hands : M unit := for_each [West; East; North; South] clear_all.

(** The state [BridgeApp.__init__] leaves. *)
Definition BridgeApp_init (theme_bg : bool) : BridgeApp :=
  state (update_global_stats
    {| frames := fun _ => new_HandFrame theme_bg;
       summary_var := {| total_cards := 0; suit_totals := fun _ => 0;
                         min_points_sum := 0; max_points_sum := 0 |};
       table_colors := fun _ => GREEN;
       table_fill := fun _ => GREEN;
       focus := None |}).

(** The user edits a field directly: typing into an entry changes its
    contents; only a count entry has a trace. *)
Definition type_cards (pl : player) (sc : suit) (text : str) : M unit :=
  card_var_set pl sc text.
Definition type_count (pl : player) (sc : suit) (text : str) : M unit :=
  count_var_set pl sc text.
Definition type_points (pl : player) (lo hi : str) : M unit :=
  self_update pl (with_points lo hi).

(** Run a callback for its final state. *)
Definition exec {A : Type} (m : M A) (a : BridgeApp) : BridgeApp := state (m a).

(** ** The specification's vocabulary *)

(** Position of a character in [RANKS_ORDER]; characters outside it come last. *)
Definition rank_pos (c : ascii) : nat :=
  default (length RANKS_ORDER) (Py.index RANKS_ORDER c).

(** Non-decreasing position in [RANKS_ORDER]. *)
Definition rank_le (x y : ascii) : Prop := (rank_pos x <= rank_pos y)%nat.

(** Keep the rank characters of [l] and arrange them by position in
    [RANKS_ORDER]: all the aces, then all the kings, and so on. *)
Definition rank_sort (l : str) : str :=
  flat_map (fun r => List.filter (ch_eqb r) l) RANKS_ORDER.

(** The separators [normalize_cards] turns into spaces. *)
Definition is_separator (c : ascii) : bool :=
  ch_eqb c ","%char || ch_eqb c "-"%char || ch_eqb c "."%char.

(** Whitespace and separator removal. *)
Definition drop_separators (s : str) : str :=
  List.filter (fun c => negb (Py.isspace c || is_separator c)) s.

(** "0" read as the ten. *)
Definition zero_to_T (c : ascii) : ascii :=
  if ch_eqb c "0"%char then "T"%char else c.

(** Digit substitution: "10" becomes "T", then any "0" left becomes "T". *)
Definition digit_subst (s : str) : str :=
  map zero_to_T (Py.replace (lit "10") (lit "T") s).

(** The normal form as the specification words it: no case conversion. *)
Definition stated_normal_form (s : str) : str :=
  rank_sort (digit_subst (drop_separators s)).

(** The normal form with the input upper-cased first. *)
Definition normal_form (s : str) : str :=
  rank_sort (digit_subst (drop_separators (Py.upper s))).

(** Number of occurrences of a character. *)
Definition count_ch (c : ascii) (s : str) : nat :=
  length (List.filter (ch_eqb c) s).

(** Occurrences of the substring "10". *)
Fixpoint count_tens (s : str) : nat :=
  match s with
  | [] => 0
  | a :: r =>
      match r with
      | b :: _ => if ch_eqb a "1"%char && ch_eqb b "0"%char then S (count_tens r) else count_tens r
      | [] => 0
      end
  end%nat.

(** Characters "0" that are not the second character of a "10". *)
Fixpoint count_lone_zeros (after_one : bool) (s : str) : nat :=
  match s with
  | [] => 0
  | c :: r =>
      (if ch_eqb c "0"%char && negb after_one then 1 else 0)
      + count_lone_zeros (ch_eqb c "1"%char) r
  end%nat.

(** Membership in the rank alphabet. *)
Definition in_ranks (c : ascii) : bool := Py.contains RANKS_ORDER c.

(** The rank characters of [l], in order, with "0" read as "T". *)
Definition rank_tokens (l : str) : str := List.filter in_ranks (map zero_to_T l).

(** Order of decorated elements by their sort key. *)
Definition key_le {A : Type} (p q : nat * A) : Prop := (p.1 <= q.1)%nat.

(** The High Card Point value of one character, as the glossary gives it. *)
Definition hcp_value (ch : ascii) : Z :=
  match ch with
  | "A"%char => 4
  | "K"%char => 3
  | "Q"%char => 2
  | "J"%char => 1
  | _ => 0
  end.

(** A sequence of clicks on table tiles. *)
Definition click_tiles (letters : list player) : M unit :=
  for_each letters _toggle_table_letter.

(** The two colors of a table tile. *)
Definition is_tile_color (c : str) : Prop := c = GREEN \/ c = RED.

(** Tiles move in the pairs N/S and W/E, in one of the two colors, and the
    canvas shows the colors of [table_colors]. *)
Definition table_paired (a : BridgeApp) : Prop :=
  table_colors a North = table_colors a South
  /\ table_colors a West = table_colors a East
  /\ is_tile_color (table_colors a North)
  /\ is_tile_color (table_colors a West)
  /\ (forall L, table_fill a L = table_colors a L).

(** [P] is toggled by a click on [letter]. *)
Definition in_pair (letter P : player) : bool :=
  bool_decide (P ∈ table_pair letter).

(** Green becomes red, anything else green. *)
Definition flip_color (c : str) : str := if str_eqb c GREEN then RED else GREEN.

(** The HCP a hand panel shows, read the way [update_global_stats] reads it. *)
Definition shown_hcp (a : BridgeApp) (pl : player) : Z :=
  match Py.int (hcp_var (frames a pl)) with Ok n => n | Raise _ => 0 end.

(** A declared bound of the points range: the stripped entry parsed as an
    integer, with a blank or unparsable entry read as 0. *)
Definition declared (entry : str) : Z :=
  match Py.int (Py.strip entry) with Ok n => n | Raise _ => 0 end.

(** Sum over the four players. *)
Definition sum_players (f : player -> Z) : Z :=
  f North + f East + f South + f West.

(** The summary [update_global_stats] computes from a form. *)
Definition stats_of (a : BridgeApp) : summary :=
  fold_left (global_stats_step a) [North; East; South; West]
    {| total_cards := 0; suit_totals := fun _ => 0;
       min_points_sum := 0; max_points_sum := 0 |}.

(** A computation that leaves the form as it found it, whatever it returns. *)
Definition read_only {A : Type} (m : M A) : Prop :=
  forall a, state (m a) = a.

(** The form with the attribute [player_label] set on every frame. *)
Definition labelled (a : BridgeApp) : BridgeApp :=
  with_frames (fun pl =>
    let hf := frames a pl in
    Build_HandFrame (Some (player_code pl)) (last_cards hf) (played_counts hf)
      (card_strips hf) (points_min hf) (points_max hf) (hcp_var hf)
      (cards_total_var hf) (suit_count_vars hf) (suit_card_vars hf)
      (entry_background hf) (accepts_background hf)) a.

(** The stripped count entry and card string [validate_all] looks at. *)
Definition count_text (a : BridgeApp) (pl : player) (sc : suit) : str :=
  Py.strip (suit_count_vars (frames a pl) sc).

Definition cards_text (a : BridgeApp) (pl : player) (sc : suit) : str :=
  Py.strip (suit_card_vars (frames a pl) sc).

(** The number a string of decimal digits denotes. *)
Definition decimal_value (s : str) : Z :=
  fold_left (fun acc c => 10 * acc + (Z.of_N (ord c) - 48)) s 0.

(** A count entry made of digits that differs from the length of the cards. *)
Definition count_mismatch (a : BridgeApp) (pl : player) (sc : suit) : bool :=
  Py.isdigit (count_text a pl sc)
  && negb (decimal_value (count_text a pl sc) =? len (cards_text a pl sc)).










(** An ASCII decimal digit. *)
Definition plain_digit (c : ascii) : bool := Py.isdigit_char c && (ord c <? 128)%N.





(** A form with one miscounted suit: North's spades read "AKQ", count "2". *)
Definition miscounted_form : BridgeApp :=
  exec (type_count North Spades (lit "2"))
    (exec (type_cards North Spades (lit "AKQ")) (BridgeApp_init true)).

(** A form whose North spades count entry holds the superscript two. *)
Definition superscript_form : BridgeApp :=
  exec (type_count North Spades [chr 178]) (BridgeApp_init true).

(** Occurrences of a character, as an integer. *)
Definition occ (c : ascii) (s : str) : Z := Z.of_nat (count_ch c s).

(** Rank [r] is the one card that went from hidden to shown between [old]
    and [new]: one "X" fewer, one more [r], [r] not "X", and no other rank
    with more occurrences than before. *)
Definition single_play (old new : str) (r : ascii) : Prop :=
  r <> "X"%char
  /\ occ "X" new = occ "X" old - 1
  /\ occ r new = occ r old + 1
  /\ (forall r', r' <> "X"%char -> r' <> r -> occ r' new <= occ r' old).

(** The non-"X" ranks of [new] that occur more often than in [old], in the
    order of the counter of [new]. *)
Definition gained (old new : str) : list ascii :=
  List.filter (fun r => 0 <? occ r new - occ r old)
    (List.filter (fun r => negb (ch_eqb r "X")) (map fst (Counter new))).

(** From a state satisfying [P], [m] returns normally and leaves a state
    that satisfies [Q]. *)
Definition runs {A : Type} (P : BridgeApp -> Prop) (m : M A)
    (Q : A -> BridgeApp -> Prop) : Prop :=
  forall a, P a -> exists x, result (m a) = Ok x /\ Q x (state (m a)).






(** North's spades were "AXX"; the entry now reads "AKX". *)
Definition played_form : BridgeApp :=
  exec (type_cards North Spades (lit "AKX"))
    (exec (on_cards_change North Spades None)
       (exec (type_cards North Spades (lit "AXX")) (BridgeApp_init true))).

(** The number a decimal numeral denotes, read digit by digit from the left. *)
Fixpoint uint_value (acc : Z) (d : Decimal.uint) : Z :=
  match d with
  | Decimal.Nil => acc
  | Decimal.D0 l => uint_value (10 * acc + 0) l
  | Decimal.D1 l => uint_value (10 * acc + 1) l
  | Decimal.D2 l => uint_value (10 * acc + 2) l
  | Decimal.D3 l => uint_value (10 * acc + 3) l
  | Decimal.D4 l => uint_value (10 * acc + 4) l
  | Decimal.D5 l => uint_value (10 * acc + 5) l
  | Decimal.D6 l => uint_value (10 * acc + 6) l
  | Decimal.D7 l => uint_value (10 * acc + 7) l
  | Decimal.D8 l => uint_value (10 * acc + 8) l
  | Decimal.D9 l => uint_value (10 * acc + 9) l
  end.

(** The HCP of the card strings of a hand. *)
Definition cards_hcp (a : BridgeApp) (pl : player) : Z :=
  fold_right Z.add 0 (map (fun sc => hcp_from_cards (suit_card_vars (frames a pl) sc)) SUITS).

(** ** Sessions, frames as values, and further vocabulary *)

(** Number of tiles of rank [r] shown as played. *)
Definition played_tiles (r : ascii) (strip : list tile) : Z :=
  len (List.filter (fun t => ch_eqb r (tile_text t) && tile_played t) strip).

(** The played count of rank [r] after a click that left the tile played
    ([now_played]) or not. *)
Definition toggled_count (now_played : bool) (before : Z) : Z :=
  if now_played then before + 1 else if 0 <? before then before - 1 else before.

(** North's spades after the king was marked: tiles "A", "K" (played), "X". *)
Definition shown_form : BridgeApp :=
  exec (on_cards_change North Spades None) played_form.

(** The effect of a click on tile [i], a tile [l] of a rank other than "X". *)
Definition toggle_spec (a : BridgeApp) (pl : player) (sc : suit) (i : nat)
    (l : tile) : Prop :=
  let a' := exec (on_toggle pl sc i) a in
  let r := tile_text l in
  let now_played := negb (tile_played l) in
  result (on_toggle pl sc i a) = Ok tt
  /\ card_strips (frames a' pl) sc !! i
     = Some {| tile_text := r; tile_played := now_played;
               tile_bg := if now_played then GREEN else WHITE |}
  /\ (forall j, j <> i ->
        card_strips (frames a' pl) sc !! j = card_strips (frames a pl) sc !! j)
  /\ dd_get (played_counts (frames a' pl) sc) r
     = toggled_count now_played (dd_get (played_counts (frames a pl) sc) r)
  /\ (forall r', r' <> r ->
        dd_get (played_counts (frames a' pl) sc) r'
        = dd_get (played_counts (frames a pl) sc) r')
  /\ (forall q sc', ~ (q = pl /\ sc' = sc) ->
        played_counts (frames a' q) sc' = played_counts (frames a q) sc'
        /\ card_strips (frames a' q) sc' = card_strips (frames a q) sc').

(** The effect of two clicks in a row on tile [i]. *)
Definition toggle_twice_spec (a : BridgeApp) (pl : player) (sc : suit) (i : nat)
    (l : tile) : Prop :=
  let a2 := exec (on_toggle pl sc i) (exec (on_toggle pl sc i) a) in
  card_strips (frames a2 pl) sc !! i
  = Some {| tile_text := tile_text l; tile_played := tile_played l;
            tile_bg := if tile_played l then GREEN else WHITE |}
  /\ (forall r, dd_get (played_counts (frames a2 pl) sc) r
                = dd_get (played_counts (frames a pl) sc) r).

(** The things a user can do to the form. *)
Inductive action : Type :=
| TypeCards (pl : player) (sc : suit) (text : str)
| TypeCount (pl : player) (sc : suit) (text : str)
| TypePoints (pl : player) (lo hi : str)
| LeaveCards (pl : player) (sc : suit) (evt : option str)
| ClickRank (pl : player) (sc : suit) (i : nat)
| SortSync (pl : player)
| Clear (pl : player)
| SortSyncAll
| ClearAll
| Validate
| Dump
| ClickTile (letter : player).

(** The callback an action runs. *)
Definition perform (act : action) : M unit :=
  match act with
  | TypeCards pl sc text => type_cards pl sc text
  | TypeCount pl sc text => type_count pl sc text
  | TypePoints pl lo hi => type_points pl lo hi
  | LeaveCards pl sc evt => on_cards_change pl sc evt ;; mret tt
  | ClickRank pl sc i => on_toggle pl sc i
  | SortSync pl => sort_all pl
  | Clear pl => clear_all pl
  | SortSyncAll => sort_all_hands
  | ClearAll => clear_all_hands
  | Validate => validate_all
  | Dump => dump_state
  | ClickTile letter => _toggle_table_letter letter
  end.

(** The form after a session: the event loop runs one callback after the
    other and goes on after a callback that raised. *)
Definition session (theme_bg : bool) (acts : list action) : BridgeApp :=
  fold_left (fun a act => exec (perform act) a) acts (BridgeApp_init theme_bg).

(** [m] keeps the property [I] of the form, also when it raises. *)
Definition preserves {A : Type} (I : BridgeApp -> Prop) (m : M A) : Prop :=
  forall a, I a -> I (state (m a)).

(** A property of each hand panel. *)
Definition every_frame (J : HandFrame -> Prop) (a : BridgeApp) : Prop :=
  forall pl, J (frames a pl).

(** An update of a frame that leaves the attribute [player_label], the
    played counts and the remembered card strings alone. *)
Definition plain_update (f : HandFrame -> HandFrame) : Prop :=
  forall hf,
    player_label (f hf) = player_label hf
    /\ played_counts (f hf) = played_counts hf
    /\ last_cards (f hf) = last_cards hf.

(** The frame properties every callback keeps: the attribute [player_label]
    stays unset, no played count is negative, and the card strings remembered
    in [last_cards] are in normal form. *)
Definition frame_ok (hf : HandFrame) : Prop :=
  player_label hf = None
  /\ (forall sc r, 0 <= dd_get (played_counts hf sc) r)
  /\ (forall sc, normal_form (last_cards hf sc) = last_cards hf sc).

(** Number of clicks, among the actions, on a tile of the pair of [P]. *)
Definition pair_clicks (P : player) (acts : list action) : nat :=
  length (List.filter (fun act =>
            match act with ClickTile letter => in_pair letter P | _ => false end) acts).

(** Green after an even number of clicks, red after an odd number. *)
Definition color_after (n : nat) : str := if Nat.even n then GREEN else RED.

(** The table part of the form is [c], [fl]. *)
Definition table_is (c fl : player -> str) (a : BridgeApp) : Prop :=
  table_colors a = c /\ table_fill a = fl.

(** From [a], [m] returns [x], turns the frame of [pl] into [hf'], leaves
    the focus at [fo], and leaves the other frames and the table alone. *)
Definition hand_step {A : Type} (pl : player) (m : M A) (a : BridgeApp)
    (x : A) (hf' : HandFrame) (fo : option (player * suit)) : Prop :=
  result (m a) = Ok x
  /\ frames (state (m a)) pl = hf'
  /\ (forall q, q <> pl -> frames (state (m a)) q = frames a q)
  /\ focus (state (m a)) = fo
  /\ table_colors (state (m a)) = table_colors a
  /\ table_fill (state (m a)) = table_fill a.

(** The frame after the write trace of the count variable of suit [sc]. *)
Definition frame_count_changed (sc : suit) (hf : HandFrame) : HandFrame :=
  match Py.int (suit_count_vars hf sc) with
  | Raise _ => hf
  | Ok desired =>
      if accepts_background hf
      then with_entry_background
             (upd (entry_background hf) sc
                (if bool_decide (len (suit_card_vars hf sc) = desired)
                 then lit "white" else lit "#fff4f4")) hf
      else hf
  end.

(** The frame after [cnt_var.set(v)]. *)
Definition frame_count_set (sc : suit) (v : str) (hf : HandFrame) : HandFrame :=
  frame_count_changed sc (with_suit_count_vars (upd (suit_count_vars hf) sc v) hf).

(** The totals [update_stats] writes. *)
Definition frame_hcp (hf : HandFrame) : Z :=
  0 + hcp_from_cards (suit_card_vars hf Spades)
  + hcp_from_cards (suit_card_vars hf Hearts)
  + hcp_from_cards (suit_card_vars hf Diamonds)
  + hcp_from_cards (suit_card_vars hf Clubs).

Definition frame_cards (hf : HandFrame) : Z :=
  0 + len (suit_card_vars hf Spades) + len (suit_card_vars hf Hearts)
  + len (suit_card_vars hf Diamonds) + len (suit_card_vars hf Clubs).

(** The frame after [update_stats]. *)
Definition frame_stats (hf : HandFrame) : HandFrame :=
  with_cards_total_var (Py.str_of_int (frame_cards hf))
    (with_hcp_var (Py.str_of_int (frame_hcp hf)) hf).

(** The frame after [rebuild_card_strip]. *)
Definition frame_rebuild (sc : suit) (hf : HandFrame) : HandFrame :=
  with_card_strips
    (upd (card_strips hf) sc
       (build_strip (played_counts hf sc) ∅ (suit_card_vars hf sc))) hf.

(** The rank [on_cards_change] marks, if any. *)
Definition inferred_mark (old_norm new_norm : str) : option ascii :=
  match old_norm with
  | [] => None
  | _ => match auto_mark old_norm new_norm with Ok mark => mark | Raise _ => None end
  end.

(** The frame with one more played card of rank [mark]. *)
Definition frame_marked (sc : suit) (mark : option ascii) (hf : HandFrame) : HandFrame :=
  match mark with
  | Some r =>
      with_played_counts
        (upd (played_counts hf) sc
           (<[r := dd_get (played_counts hf sc) r + 1]> (played_counts hf sc))) hf
  | None => hf
  end.

(** What the cards entry of suit [sc] holds after [on_cards_change]: the
    normal form, unless the text already equals it up to letter case. *)
Definition cards_kept (shown : str) : str :=
  if str_eqb (normal_form shown) (Py.upper shown) then shown else normal_form shown.

(** The frame [on_cards_change] leaves, as a function of the frame it finds. *)
Definition frame_cards_changed (sc : suit) (hf0 : HandFrame) : HandFrame :=
  let shown := suit_card_vars hf0 sc in
  let nf := normal_form shown in
  let hf1 := if str_eqb nf (Py.upper shown) then hf0
             else with_suit_card_vars (upd (suit_card_vars hf0) sc nf) hf0 in
  let hf2 := frame_stats (frame_count_set sc (Py.str_of_int (len nf)) hf1) in
  let hf3 := frame_marked sc (inferred_mark (normal_form (last_cards hf0 sc)) nf) hf2 in
  frame_rebuild sc (with_last_cards (upd (last_cards hf3) sc nf) hf3).

(** What [on_cards_change] returns and where it leaves the focus. *)
Definition is_jump_key (evt : option str) : bool :=
  match evt with
  | Some keysym => str_eqb keysym (lit "Return") || str_eqb keysym (lit "Tab")
  | None => false
  end.

(** Two frames that differ at most in the entry backgrounds. *)
Definition same_but_background (hf hf' : HandFrame) : Prop :=
  player_label hf' = player_label hf
  /\ last_cards hf' = last_cards hf
  /\ played_counts hf' = played_counts hf
  /\ card_strips hf' = card_strips hf
  /\ points_min hf' = points_min hf
  /\ points_max hf' = points_max hf
  /\ hcp_var hf' = hcp_var hf
  /\ cards_total_var hf' = cards_total_var hf
  /\ suit_count_vars hf' = suit_count_vars hf
  /\ suit_card_vars hf' = suit_card_vars hf
  /\ accepts_background hf' = accepts_background hf.

(** The frame after one round of the loop of [sort_all], for suit [sc]. *)
Definition frame_sorted_suit (sc : suit) (hf : HandFrame) : HandFrame :=
  let norm := normal_form (suit_card_vars hf sc) in
  let hf1 := with_suit_card_vars (upd (suit_card_vars hf) sc norm) hf in
  let hf2 := frame_count_set sc (Py.str_of_int (len norm)) hf1 in
  frame_rebuild sc (with_last_cards (upd (last_cards hf2) sc norm) hf2).

(** The frame after [sort_all]. *)
Definition frame_sorted (hf : HandFrame) : HandFrame :=
  frame_stats (fold_left (fun hf sc => frame_sorted_suit sc hf) SUITS hf).










(** * Properties *)

(** *** Sample evaluations *)

Example normalize_sample :
  normalize_cards (Some (lit " q, 10-a x.2k 0 ")) = Ok (lit "AKQTT2X").
Proof. reflexivity. Qed.

Example normalize_none : normalize_cards None = Ok [].
Proof. reflexivity. Qed.

Example hcp_sample : hcp_from_cards (lit "AKQJT9a") = 10.
Proof. reflexivity. Qed.

Example int_samples :
  Py.int (lit " 12 ") = Ok 12 /\ Py.int (lit "-3") = Ok (-3) /\
  Py.int (lit "1_0") = Ok 10 /\ Py.isdigit [chr 178] = true /\
  Py.str_of_int 13 = lit "13" /\ Py.str_of_int 0 = lit "0".
Proof. repeat split; reflexivity. Qed.

Ltac each_char c := destruct c as [[] [] [] [] [] [] [] []].

Lemma ch_eqb_eq (a b : ascii) : ch_eqb a b = true <-> a = b.
Proof. apply Ascii.eqb_eq. Qed.

Lemma ch_eqb_refl (a : ascii) : ch_eqb a a = true.
Proof. by apply ch_eqb_eq. Qed.

(** *** Generic list facts used for the string pipeline *)

Lemma filter_map_filter {A B : Type} (P : B -> bool) (Q : A -> bool) (f : A -> B) l :
  (forall x, Q x = false -> P (f x) = false) ->
  List.filter P (map f (List.filter Q l)) = List.filter P (map f l).
Proof.
  intros H. induction l as [|x l IH]; [done|]. simpl.
  destruct (Q x) eqn:Hq; simpl; [by rewrite IH|].
  by rewrite (H x Hq).
Qed.

Lemma filter_map_agree {A B : Type} (P : B -> bool) (f g : A -> B) l :
  (forall x, P (f x) = P (g x) /\ (P (f x) = true -> f x = g x)) ->
  List.filter P (map f l) = List.filter P (map g l).
Proof.
  intros H. induction l as [|x l IH]; [done|]. simpl.
  destruct (H x) as [H1 H2]. rewrite <- H1.
  destruct (P (f x)) eqn:Hp; [|done]. by rewrite IH, H2.
Qed.

Lemma filter_rev {A : Type} (P : A -> bool) l :
  List.filter P (rev l) = rev (List.filter P l).
Proof.
  induction l as [|x l IH]; [done|]. simpl.
  rewrite List.filter_app, IH. simpl.
  destruct (P x); simpl; [done|]. by rewrite app_nil_r.
Qed.

(** *** The string primitives *)

Lemma lstrip_filter (sp P : ascii -> bool) s :
  (forall c, sp c = true -> P c = false) ->
  List.filter P (Py.lstrip_with sp s) = List.filter P s.
Proof.
  intros H. induction s as [|c s IH]; [done|]. simpl.
  destruct (sp c) eqn:Hc; [|done]. by rewrite (H c Hc).
Qed.

Lemma strip_filter (P : ascii -> bool) s :
  (forall c, Py.isspace c = true -> P c = false) ->
  List.filter P (Py.strip s) = List.filter P s.
Proof.
  intros H. unfold Py.strip, Py.strip_with, Py.rstrip_with.
  rewrite filter_rev, (lstrip_filter Py.isspace), filter_rev, rev_involutive by done.
  by apply lstrip_filter.
Qed.

Lemma replace_char (a b : ascii) s :
  Py.replace [a] [b] s = map (fun c => if ch_eqb a c then b else c) s.
Proof.
  unfold Py.replace. induction s as [|c s IH]; [done|].
  simpl. rewrite andb_true_r. destruct (ch_eqb a c); simpl; by rewrite IH.
Qed.

Lemma split_from_concat cur s :
  concat (Py.split_from cur s) = cur ++ List.filter (fun c => negb (Py.isspace c)) s.
Proof.
  revert cur. induction s as [|c s IH]; intros cur; simpl.
  - destruct cur; simpl; by rewrite ?app_nil_r.
  - destruct (Py.isspace c); simpl.
    + destruct cur; simpl; rewrite IH; simpl; by rewrite ?app_nil_r.
    + rewrite IH. by rewrite <- app_assoc.
Qed.

Lemma concat_filter_nonempty (parts : list (list ascii)) :
  concat (List.filter (fun p => negb (Nat.eqb (length p) 0)) parts) = concat parts.
Proof.
  induction parts as [|p parts IH]; [done|]. simpl.
  destruct p; simpl; by rewrite IH.
Qed.

Lemma tokens_of_parts (parts : list (list ascii)) :
  match parts with [p] => p | _ => concat parts end = concat parts.
Proof. destruct parts as [|p [|q r]]; simpl; by rewrite ?app_nil_r. Qed.

Lemma rank_tokens_cons c l :
  rank_tokens (c :: l)
  = if in_ranks (zero_to_T c) then zero_to_T c :: rank_tokens l else rank_tokens l.
Proof. reflexivity. Qed.

Lemma replace_ten_step c r :
  Py.replace_from (lit "10") (lit "T") 0 (c :: r)
  = match r with
    | b :: r' =>
        if ch_eqb "1" c && ch_eqb "0" b
        then "T"%char :: Py.replace_from (lit "10") (lit "T") 0 r'
        else c :: Py.replace_from (lit "10") (lit "T") 0 r
    | [] => [c]
    end.
Proof.
  destruct r as [|b r']; cbn [Py.replace_from lit list_ascii_of_string Py.startswith].
  - by rewrite andb_false_r.
  - rewrite andb_true_r. by destruct (ch_eqb "1" c && ch_eqb "0" b).
Qed.

Lemma replace_ten_ranks_upto (n : nat) s :
  (length s <= n)%nat ->
  rank_tokens (Py.replace_from (lit "10") (lit "T") 0 s) = rank_tokens s.
Proof.
  revert s. induction n as [|n IH]; intros s Hn.
  { destruct s; [done|]. simpl in Hn. exfalso; lia. }
  destruct s as [|c r]; [done|].
  rewrite replace_ten_step. destruct r as [|b r']; [done|].
  destruct (ch_eqb "1" c) eqn:Hc; cbn [andb].
  - apply ch_eqb_eq in Hc. subst c. destruct (ch_eqb "0" b) eqn:Hb.
    + apply ch_eqb_eq in Hb. subst b.
      rewrite !rank_tokens_cons. change (in_ranks (zero_to_T "T")) with true.
      change (in_ranks (zero_to_T "1")) with false.
      change (in_ranks (zero_to_T "0")) with true. cbv iota.
      change (zero_to_T "0") with (zero_to_T "T").
      f_equal. apply IH. simpl in *; lia.
    + rewrite (rank_tokens_cons "1" (b :: r')), (rank_tokens_cons "1").
      change (in_ranks (zero_to_T "1")) with false. cbv iota.
      apply IH. simpl in *; lia.
  - rewrite (rank_tokens_cons c (b :: r')), (rank_tokens_cons c).
    rewrite IH by (simpl in *; lia). reflexivity.
Qed.

Lemma replace_ten_ranks s :
  rank_tokens (Py.replace (lit "10") (lit "T") s) = rank_tokens s.
Proof. by apply (replace_ten_ranks_upto (length s)). Qed.

(** *** The stable sort *)

Lemma insert_keyed_perm {A : Type} (kx : nat * A) l : insert_keyed kx l ≡ₚ kx :: l.
Proof.
  induction l as [|ky l IH]; simpl; [done|].
  destruct (kx.1 <=? ky.1)%nat; [done|].
  rewrite IH. apply Permutation_swap.
Qed.

Lemma sort_keyed_perm {A : Type} (l : list (nat * A)) : sort_keyed l ≡ₚ l.
Proof.
  induction l as [|kx l IH]; simpl; [done|].
  by rewrite insert_keyed_perm, IH.
Qed.

Lemma insert_keyed_sorted {A : Type} (kx : nat * A) l :
  Sorted key_le l -> Sorted key_le (insert_keyed kx l).
Proof.
  induction 1 as [|ky l Hl IH Hhd]; simpl.
  - repeat constructor.
  - destruct (kx.1 <=? ky.1)%nat eqn:Hle.
    + apply Nat.leb_le in Hle. by repeat constructor.
    + apply Nat.leb_gt in Hle. constructor; [done|].
      destruct Hhd as [|kz l' Hz]; simpl.
      * constructor. unfold key_le. lia.
      * destruct (kx.1 <=? kz.1)%nat; constructor; unfold key_le in *; lia.
Qed.

Lemma sort_keyed_sorted {A : Type} (l : list (nat * A)) : Sorted key_le (sort_keyed l).
Proof.
  induction l as [|kx l IH]; simpl; [constructor|]. by apply insert_keyed_sorted.
Qed.

#[global] Instance key_le_trans {A : Type} : Transitive (@key_le A).
Proof. intros x y z. unfold key_le. lia. Qed.

Lemma sort_keyed_strongly_sorted {A : Type} (l : list (nat * A)) :
  StronglySorted key_le (sort_keyed l).
Proof. apply Sorted_StronglySorted; [apply _|]. apply sort_keyed_sorted. Qed.

Lemma strongly_sorted_by_key {A : Type} (pos : A -> nat) (l : list (nat * A)) :
  Forall (fun p => p.1 = pos p.2) l ->
  StronglySorted key_le l ->
  StronglySorted (fun x y => (pos x <= pos y)%nat) (map snd l).
Proof.
  intros Hk Hs. induction Hs as [|p l Hs IH Hp]; simpl; [constructor|].
  inversion Hk as [|? ? Hp1 Hk']; subst. constructor; [by apply IH|].
  rewrite Forall_forall in Hp, Hk'. apply Forall_forall. intros y Hy.
  apply list_elem_of_fmap in Hy as [q [-> Hq]].
  rewrite <- Hp1, <- (Hk' q Hq). by apply Hp.
Qed.

(** *** Ranks *)

Lemma in_ranks_elem (c : ascii) : in_ranks c = true <-> c ∈ RANKS_ORDER.
Proof.
  unfold in_ranks, Py.contains. rewrite existsb_exists. split.
  - intros [x [Hx Heq]]. apply ch_eqb_eq in Heq. subst. by apply list_elem_of_In.
  - intros H. exists c. split; [by apply list_elem_of_In|apply ch_eqb_refl].
Qed.

Lemma index_lookup (l : list ascii) x i : Py.index l x = Some i -> l !! i = Some x.
Proof.
  revert i. induction l as [|y l IH]; intros i; simpl; [done|].
  destruct (ch_eqb x y) eqn:Hxy.
  - intros [= <-]. apply ch_eqb_eq in Hxy. by subst.
  - destruct (Py.index l x) as [j|]; simpl; [|done].
    intros [= <-]. by apply IH.
Qed.

Lemma index_contains (l : list ascii) x :
  Py.contains l x = true -> is_Some (Py.index l x).
Proof.
  unfold Py.contains. induction l as [|y l IH]; simpl; [done|].
  destruct (ch_eqb x y); simpl; [by eexists|].
  intros H. destruct (IH H) as [i ->]. by eexists.
Qed.

Lemma rank_key_pos (c : ascii) : in_ranks c = true -> rank_key c = Ok (rank_pos c).
Proof.
  intros H. unfold rank_key, rank_pos.
  by destruct (index_contains _ _ H) as [i ->].
Qed.

Lemma rank_pos_inj (x y : ascii) :
  in_ranks x = true -> in_ranks y = true -> rank_pos x = rank_pos y -> x = y.
Proof.
  intros Hx Hy. unfold rank_pos.
  destruct (index_contains _ _ Hx) as [i Hi], (index_contains _ _ Hy) as [j Hj].
  rewrite Hi, Hj. simpl. intros ->.
  apply index_lookup in Hi, Hj. congruence.
Qed.

Lemma res_mapM_rank_key (l : list ascii) :
  forallb in_ranks l = true -> res_mapM rank_key l = Ok (map rank_pos l).
Proof.
  induction l as [|c l IH]; simpl; [done|].
  intros [Hc Hl]%andb_true_iff. by rewrite (rank_key_pos c Hc), (IH Hl).
Qed.

Lemma filter_eqb_all (r : ascii) l : Forall (fun x => x = r) (List.filter (ch_eqb r) l).
Proof.
  apply Forall_forall. intros x Hx. apply list_elem_of_In, filter_In in Hx as [_ Hx].
  apply ch_eqb_eq in Hx. by subst.
Qed.

Lemma buckets_sorted (ranks : list ascii) l :
  StronglySorted rank_le ranks ->
  StronglySorted rank_le (flat_map (fun r => List.filter (ch_eqb r) l) ranks).
Proof.
  induction 1 as [|r ranks Hs IH Hr]; simpl; [constructor|].
  apply StronglySorted_app_2; [| | done].
  - intros x1 x2 H1 H2.
    pose proof (filter_eqb_all r l) as Hall. rewrite Forall_forall in Hall.
    rewrite (Hall x1 H1).
    apply list_elem_of_In, in_flat_map in H2 as [r' [Hr' H2]].
    apply list_elem_of_In in H2.
    pose proof (filter_eqb_all r' l) as Hall'. rewrite Forall_forall in Hall'.
    rewrite (Hall' x2 H2). rewrite Forall_forall in Hr.
    apply Hr. by apply list_elem_of_In.
  - pose proof (filter_eqb_all r l) as Hall.
    induction Hall as [|x xs -> Hxs IHx]; constructor; [done|].
    eapply Forall_impl; [exact Hxs|]. intros y ->. unfold rank_le. lia.
Qed.

Lemma RANKS_ORDER_sorted : StronglySorted rank_le RANKS_ORDER.
Proof.
  unfold RANKS_ORDER, lit. simpl list_ascii_of_string.
  repeat (constructor; [|repeat (constructor; [unfold rank_le; vm_compute; lia|]); constructor]).
  constructor.
Qed.

Lemma rank_sort_sorted l : StronglySorted rank_le (rank_sort l).
Proof. apply buckets_sorted, RANKS_ORDER_sorted. Qed.

Lemma buckets_cons (ranks : list ascii) x l :
  NoDup ranks ->
  flat_map (fun r => List.filter (ch_eqb r) (x :: l)) ranks
  ≡ₚ (if Py.contains ranks x then [x] else [])
     ++ flat_map (fun r => List.filter (ch_eqb r) l) ranks.
Proof.
  induction 1 as [|r ranks Hr Hnd IH]; simpl; [done|].
  unfold Py.contains in *. simpl existsb.
  destruct (ch_eqb r x) eqn:Hrx.
  - apply ch_eqb_eq in Hrx. subst r. rewrite ch_eqb_refl. simpl.
    constructor. rewrite IH.
    destruct (existsb (ch_eqb x) ranks) eqn:Hex; [|done].
    exfalso. apply Hr. apply existsb_exists in Hex as [y [Hy Hxy]].
    apply ch_eqb_eq in Hxy. subst. by apply list_elem_of_In.
  - assert (ch_eqb x r = false) as ->.
    { destruct (ch_eqb x r) eqn:Hxr; [|done]. apply ch_eqb_eq in Hxr. subst.
      by rewrite ch_eqb_refl in Hrx. }
    simpl. rewrite IH.
    destruct (existsb (ch_eqb x) ranks); simpl; [|done].
    by rewrite Permutation_middle.
Qed.

Lemma RANKS_ORDER_nodup : NoDup RANKS_ORDER.
Proof. apply (bool_decide_unpack _). by vm_compute. Qed.

Lemma rank_sort_perm l : rank_sort l ≡ₚ List.filter in_ranks l.
Proof.
  induction l as [|x l IH].
  - unfold rank_sort. simpl. induction RANKS_ORDER; simpl; done.
  - unfold rank_sort in *. rewrite buckets_cons by apply RANKS_ORDER_nodup.
    simpl List.filter. unfold in_ranks at 1.
    destruct (Py.contains RANKS_ORDER x); simpl; by rewrite IH.
Qed.

Lemma filter_all {A : Type} (P : A -> bool) l : forallb P l = true -> List.filter P l = l.
Proof.
  induction l as [|x l IH]; simpl; [done|].
  intros [Hx Hl]%andb_true_iff. by rewrite Hx, IH.
Qed.

Lemma forallb_filter {A : Type} (P : A -> bool) l : forallb P (List.filter P l) = true.
Proof.
  induction l as [|x l IH]; simpl; [done|].
  destruct (P x) eqn:Hx; simpl; [by rewrite Hx|done].
Qed.

Lemma combine_map_key {A : Type} (pos : A -> nat) (l : list A) :
  map snd (combine (map pos l) l) = l
  /\ Forall (fun p => p.1 = pos p.2) (combine (map pos l) l).
Proof.
  induction l as [|x l [IH1 IH2]]; simpl; [by split|].
  split; [by rewrite IH1|by constructor].
Qed.

(** [sorted] with the rank key never raises on rank characters and returns
    them bucket by bucket. *)
Lemma sorted_rank_key (l : list ascii) :
  forallb in_ranks l = true -> sorted rank_key l = Ok (rank_sort l).
Proof.
  intros Hl. unfold sorted. rewrite (res_mapM_rank_key l Hl). simpl. f_equal.
  destruct (combine_map_key rank_pos l) as [Hsnd Hkeys].
  set (L := sort_keyed (combine (map rank_pos l) l)).
  assert (HpermL : L ≡ₚ combine (map rank_pos l) l) by apply sort_keyed_perm.
  assert (Hperm : map snd L ≡ₚ l).
  { transitivity (map snd (combine (map rank_pos l) l)); [by apply Permutation_map|by rewrite Hsnd]. }
  apply (StronglySorted_unique_strong rank_le).
  - intros x1 x2 H1 H2 H12 H21. apply rank_pos_inj.
    + rewrite Hperm in H1. rewrite forallb_forall in Hl.
      by apply Hl, list_elem_of_In.
    + rewrite rank_sort_perm, (filter_all _ _ Hl) in H2.
      rewrite forallb_forall in Hl. by apply Hl, list_elem_of_In.
    + unfold rank_le in *. lia.
  - apply (strongly_sorted_by_key rank_pos).
    + by rewrite HpermL.
    + apply sort_keyed_strongly_sorted.
  - apply rank_sort_sorted.
  - by rewrite Hperm, rank_sort_perm, (filter_all _ _ Hl).
Qed.

(** *** [normalize_cards] *)

Lemma filter_map_comm {A B : Type} (P : B -> bool) (g : A -> B) l :
  List.filter P (map g l) = map g (List.filter (fun x => P (g x)) l).
Proof.
  induction l as [|x l IH]; simpl; [done|].
  destruct (P (g x)); simpl; by rewrite IH.
Qed.

Lemma space_not_rank (c : ascii) :
  Py.isspace c = true -> in_ranks (zero_to_T c) = false.
Proof. each_char c; vm_compute; congruence. Qed.

Lemma space_upper_not_rank (c : ascii) :
  Py.isspace c = true -> in_ranks (zero_to_T (Py.upper_char c)) = false.
Proof. each_char c; vm_compute; congruence. Qed.

Lemma rank_tokens_separator (a : ascii) l :
  is_separator a = true ->
  rank_tokens (map (fun c => if ch_eqb a c then " "%char else c) l) = rank_tokens l.
Proof.
  intros Ha. unfold rank_tokens. induction l as [|c l IH]; [done|].
  simpl. rewrite IH. destruct (ch_eqb a c) eqn:Hac; [|done].
  apply ch_eqb_eq in Hac. subst c.
  change (in_ranks (zero_to_T " ")) with false. cbv iota.
  assert (in_ranks (zero_to_T a) = false) as ->; [|done].
  revert Ha. each_char a; vm_compute; congruence.
Qed.

Lemma rank_tokens_nonspace l :
  rank_tokens (List.filter (fun c => negb (Py.isspace c)) l) = rank_tokens l.
Proof.
  apply filter_map_filter. intros c Hc. apply space_not_rank.
  by destruct (Py.isspace c).
Qed.

Lemma rank_tokens_upper_strip s :
  rank_tokens (Py.upper (Py.strip s)) = rank_tokens (Py.upper s).
Proof.
  unfold rank_tokens, Py.upper. rewrite !map_map, !filter_map_comm.
  f_equal. apply strip_filter. apply space_upper_not_rank.
Qed.

Lemma rank_tokens_all_ranks l : forallb in_ranks (rank_tokens l) = true.
Proof. apply forallb_filter. Qed.

(** The whole pipeline of [normalize_cards] keeps, in order, the rank
    characters of the upper-cased input with "0" read as "T", and sorts them. *)
Lemma normalize_cards_core (s : str) :
  normalize_cards (Some s) = Ok (rank_sort (rank_tokens (Py.upper s))).
Proof.
  unfold normalize_cards.
  rewrite tokens_of_parts, concat_filter_nonempty.
  unfold Py.split. rewrite split_from_concat. simpl app.
  change (List.filter (Py.contains RANKS_ORDER)
            (map (fun t => if ch_eqb t "0" then "T"%char else t) ?l))
    with (rank_tokens l).
  rewrite rank_tokens_nonspace, replace_ten_ranks.
  change (lit ".") with ["."%char]. change (lit "-") with ["-"%char].
  change (lit ",") with [","%char]. change (lit " ") with [" "%char].
  rewrite !replace_char, !rank_tokens_separator by reflexivity.
  rewrite rank_tokens_upper_strip.
  rewrite sorted_rank_key by apply rank_tokens_all_ranks.
  reflexivity.
Qed.

Lemma filter_eqb_filter (r : ascii) (P : ascii -> bool) l :
  P r = true -> List.filter (ch_eqb r) (List.filter P l) = List.filter (ch_eqb r) l.
Proof.
  intros Hr. induction l as [|x l IH]; simpl; [done|].
  destruct (P x) eqn:Hx; simpl; rewrite IH; [done|].
  destruct (ch_eqb r x) eqn:Hrx; [|done].
  apply ch_eqb_eq in Hrx. congruence.
Qed.

Lemma rank_sort_filter l : rank_sort (List.filter in_ranks l) = rank_sort l.
Proof.
  unfold rank_sort, RANKS_ORDER, lit. simpl flat_map.
  by rewrite !filter_eqb_filter by reflexivity.
Qed.

Lemma rank_sort_all_ranks l : forallb in_ranks (rank_sort l) = true.
Proof.
  apply forallb_forall. intros x Hx.
  apply in_flat_map in Hx as [r [Hr Hx]].
  apply filter_In in Hx as [_ Hx]. apply ch_eqb_eq in Hx. subst.
  apply in_ranks_elem. by apply list_elem_of_In.
Qed.

Lemma rank_sort_idem l : rank_sort (rank_sort l) = rank_sort l.
Proof.
  apply (StronglySorted_unique_strong rank_le).
  - intros x1 x2 H1 H2 H12 H21.
    pose proof (rank_sort_all_ranks l) as Hall. rewrite forallb_forall in Hall.
    apply rank_pos_inj; [| |unfold rank_le in *; lia].
    + rewrite rank_sort_perm in H1. apply list_elem_of_In, filter_In in H1. tauto.
    + by apply Hall, list_elem_of_In.
  - apply rank_sort_sorted.
  - apply rank_sort_sorted.
  - by rewrite rank_sort_perm, (filter_all _ _ (rank_sort_all_ranks l)).
Qed.

Lemma normal_form_core s : normal_form s = rank_sort (rank_tokens (Py.upper s)).
Proof.
  unfold normal_form, digit_subst.
  rewrite <- rank_sort_filter.
  change (List.filter in_ranks (map zero_to_T ?l)) with (rank_tokens l).
  rewrite replace_ten_ranks. unfold drop_separators.
  f_equal. apply filter_map_filter. intros c Hc.
  apply negb_false_iff in Hc. revert Hc.
  each_char c; vm_compute; congruence.
Qed.

Lemma rank_fixed (c : ascii) :
  in_ranks c = true -> zero_to_T (Py.upper_char c) = c.
Proof. each_char c; vm_compute; congruence. Qed.

Lemma rank_tokens_upper_fixed l :
  forallb in_ranks l = true -> rank_tokens (Py.upper l) = l.
Proof.
  unfold rank_tokens, Py.upper. induction l as [|c l IH]; simpl; [done|].
  intros [Hc Hl]%andb_true_iff. rewrite (rank_fixed c Hc), Hc. by rewrite IH.
Qed.

Lemma normalize_cards_fixed l :
  normalize_cards (Some (rank_sort l)) = Ok (rank_sort l).
Proof.
  rewrite normalize_cards_core.
  rewrite rank_tokens_upper_fixed by apply rank_sort_all_ranks.
  by rewrite rank_sort_idem.
Qed.

Lemma count_ch_perm (c : ascii) l1 l2 : l1 ≡ₚ l2 -> count_ch c l1 = count_ch c l2.
Proof.
  intros H. unfold count_ch. induction H; simpl.
  - done.
  - destruct (ch_eqb c x); simpl; by rewrite IHPermutation.
  - destruct (ch_eqb c x), (ch_eqb c y); reflexivity.
  - congruence.
Qed.

Lemma count_ch_cons (c x : ascii) l :
  count_ch c (x :: l) = ((if ch_eqb c x then 1 else 0) + count_ch c l)%nat.
Proof. unfold count_ch. simpl. by destruct (ch_eqb c x). Qed.

Lemma count_T_char (c : ascii) :
  let z := zero_to_T (Py.upper_char c) in
  (if in_ranks z then if ch_eqb "T" z then 1 else 0 else 0)%nat
  = ((if ch_eqb "0" c then 1 else 0) + (if ch_eqb "T" (Py.upper_char c) then 1 else 0))%nat.
Proof. each_char c; reflexivity. Qed.

Lemma count_T_tokens s :
  count_ch "T" (rank_tokens (Py.upper s))
  = (count_ch "0" s + count_ch "T" (Py.upper s))%nat.
Proof.
  induction s as [|c s IH]; [done|].
  unfold Py.upper in *. simpl map. rewrite rank_tokens_cons, !count_ch_cons.
  pose proof (count_T_char c) as Hc. cbv zeta in Hc.
  destruct (in_ranks (zero_to_T (Py.upper_char c))).
  - rewrite count_ch_cons, IH. lia.
  - rewrite IH. lia.
Qed.

Lemma count_zeros_split (prev : ascii) s :
  (count_lone_zeros (ch_eqb prev "1") s + count_tens (prev :: s))%nat = count_ch "0" s.
Proof.
  revert prev. induction s as [|c s IH]; intros prev; [done|].
  rewrite count_ch_cons, <- (IH c).
  change (count_tens (prev :: c :: s))
    with (if ch_eqb prev "1" && ch_eqb c "0" then S (count_tens (c :: s))
          else count_tens (c :: s)).
  cbn [count_lone_zeros].
  replace (ch_eqb "0" c) with (ch_eqb c "0")
    by (unfold ch_eqb; apply Ascii.eqb_sym).
  destruct (ch_eqb prev "1"), (ch_eqb c "0"); simpl; lia.
Qed.

Lemma count_zeros s :
  (count_tens s + count_lone_zeros false s)%nat = count_ch "0" s.
Proof.
  rewrite <- (count_zeros_split " " s).
  change (ch_eqb " " "1") with false.
  destruct s as [|c s]; [done|].
  change (count_tens (" "%char :: c :: s)) with (count_tens (c :: s)). lia.
Qed.

Lemma count_tens_app s1 s2 : (1 <= count_tens (s1 ++ lit "10" ++ s2))%nat.
Proof.
  induction s1 as [|c s1 IH].
  - simpl. lia.
  - change ((c :: s1) ++ lit "10" ++ s2) with (c :: (s1 ++ lit "10" ++ s2)).
    destruct (s1 ++ lit "10" ++ s2) as [|b r] eqn:E.
    + simpl in IH. lia.
    + change (count_tens (c :: b :: r))
        with (if ch_eqb c "1" && ch_eqb b "0" then S (count_tens (b :: r))
              else count_tens (b :: r)).
      destruct (ch_eqb c "1" && ch_eqb b "0"); lia.
Qed.

Lemma count_ch_pos_In (c : ascii) l : (1 <= count_ch c l)%nat -> In c l.
Proof.
  unfold count_ch. induction l as [|x l IH]; simpl; [lia|].
  destruct (ch_eqb c x) eqn:Hc.
  - apply ch_eqb_eq in Hc. by left.
  - intros H. right. by apply IH.
Qed.

(** *** The specification of [normalize_cards] *)

(** C1, as stated, fails: the statement lists whitespace and separator removal
    and digit substitution but no case conversion, so for the input "ak" it
    predicts the empty string, none of whose characters is in the rank
    alphabet; the code upper-cases first and returns "AK". *)
Lemma C1_stated_fails_on_lower_case :
  normalize_cards (Some (lit "ak")) = Ok (lit "AK")
  /\ stated_normal_form (lit "ak") = []
  /\ normalize_cards (Some (lit "ak")) <> Ok (stated_normal_form (lit "ak")).
Proof. repeat split; [vm_compute; congruence]. Qed.

(** C1, amended: for every input string, [normalize_cards] returns exactly
    the characters of the upper-cased input that belong to the rank alphabet
    (after whitespace and separator removal and digit substitution), arranged
    in non-decreasing position of [RANKS_ORDER]. *)
Theorem C1_normalize_cards_sorts_valid_ranks (s : str) :
  let tokens := digit_subst (drop_separators (Py.upper s)) in
  normalize_cards (Some s) = Ok (normal_form s)
  /\ normal_form s ≡ₚ List.filter in_ranks tokens
  /\ StronglySorted rank_le (normal_form s).
Proof.
  split; [|split].
  - by rewrite normalize_cards_core, normal_form_core.
  - apply rank_sort_perm.
  - apply rank_sort_sorted.
Qed.

(** C6: [normalize_cards] is idempotent; normalizing its output again gives
    the same string. *)
Theorem C6_normalize_cards_idempotent (s : str) :
  (out ← normalize_cards (Some s); normalize_cards (Some out))
  = normalize_cards (Some s)
  /\ exists out, normalize_cards (Some s) = Ok out
                 /\ normalize_cards (Some out) = Ok out.
Proof.
  rewrite normalize_cards_core. split.
  - apply normalize_cards_fixed.
  - eexists. split; [done|]. apply normalize_cards_fixed.
Qed.

(** C10: every occurrence of "10" and every other "0" of the input becomes
    one "T" of the output, next to the input's own "T"s (in either case); an
    input that contains "10" therefore has a "T" in its output. *)
Theorem C10_normalize_cards_ten_spellings (s s1 s2 : str) :
  (exists out,
      normalize_cards (Some s) = Ok out
      /\ count_ch "T" out
         = (count_tens s + count_lone_zeros false s + count_ch "T" (Py.upper s))%nat)
  /\ (exists out,
        normalize_cards (Some (s1 ++ lit "10" ++ s2)) = Ok out /\ In "T"%char out)
  /\ normalize_cards (Some (lit "10")) = Ok (lit "T").
Proof.
  assert (Hcount : forall s, count_ch "T" (rank_sort (rank_tokens (Py.upper s)))
                   = (count_tens s + count_lone_zeros false s
                      + count_ch "T" (Py.upper s))%nat).
  { intros t. rewrite (count_ch_perm _ _ _ (rank_sort_perm _)).
    rewrite (filter_all _ _ (rank_tokens_all_ranks _)).
    by rewrite count_T_tokens, count_zeros. }
  split; [|split].
  - exists (rank_sort (rank_tokens (Py.upper s))). split; [|done].
    apply normalize_cards_core.
  - eexists. split; [apply normalize_cards_core|].
    apply count_ch_pos_In. rewrite Hcount.
    pose proof (count_tens_app s1 s2). lia.
  - reflexivity.
Qed.

(** *** [hcp_from_cards] *)

Lemma rank_values_get (ch : ascii) : dict_get RANK_VALUES ch 0 = hcp_value ch.
Proof. each_char ch; reflexivity. Qed.

Lemma fold_left_add (l : list Z) (acc : Z) :
  fold_left Z.add l acc = acc + fold_right Z.add 0 l.
Proof.
  revert acc. induction l as [|x l IH]; intros acc; simpl; [lia|].
  rewrite IH. lia.
Qed.

Lemma hcp_from_cards_cons (ch : ascii) (cards : str) :
  hcp_from_cards (ch :: cards) = hcp_value ch + hcp_from_cards cards.
Proof.
  unfold hcp_from_cards. cbn [map fold_left].
  rewrite (fold_left_add _ (0 + _)), (fold_left_add _ 0), rank_values_get. lia.
Qed.

Lemma hcp_value_counts (ch : ascii) :
  hcp_value ch
  = 4 * (if ch_eqb "A" ch then 1 else 0) + 3 * (if ch_eqb "K" ch then 1 else 0)
    + 2 * (if ch_eqb "Q" ch then 1 else 0) + (if ch_eqb "J" ch then 1 else 0).
Proof. each_char ch; reflexivity. Qed.

(** C4: [hcp_from_cards] is the sum over the characters of the card string
    of A=4, K=3, Q=2, J=1 and 0 for every other character. *)
Theorem C4_hcp_from_cards_sum (cards : str) :
  hcp_from_cards cards = fold_right Z.add 0 (map hcp_value cards)
  /\ hcp_from_cards cards
     = 4 * Z.of_nat (count_ch "A" cards) + 3 * Z.of_nat (count_ch "K" cards)
       + 2 * Z.of_nat (count_ch "Q" cards) + Z.of_nat (count_ch "J" cards).
Proof.
  induction cards as [|ch cards [IH1 IH2]]; [by split|].
  rewrite hcp_from_cards_cons. split.
  - simpl. by rewrite IH1.
  - rewrite IH2, !count_ch_cons, (hcp_value_counts ch).
    destruct (ch_eqb "A" ch), (ch_eqb "K" ch), (ch_eqb "Q" ch), (ch_eqb "J" ch); lia.
Qed.

(** *** The table tiles *)

Lemma toggle_outcome (letter : player) (a : BridgeApp) :
  result (_toggle_table_letter letter a) = Ok tt
  /\ emitted (_toggle_table_letter letter a) = []
  /\ (forall P, table_colors (exec (_toggle_table_letter letter) a) P
                = if in_pair letter P then flip_color (table_colors a letter)
                  else table_colors a P)
  /\ (forall P, table_fill (exec (_toggle_table_letter letter) a) P
                = if in_pair letter P then flip_color (table_colors a letter)
                  else table_fill a P)
  /\ frames (exec (_toggle_table_letter letter) a) = frames a
  /\ summary_var (exec (_toggle_table_letter letter) a) = summary_var a.
Proof.
  repeat split; try (intros P; destruct P); destruct letter; reflexivity.
Qed.

Lemma flip_color_tile (c : str) : is_tile_color (flip_color c).
Proof. unfold flip_color. destruct (str_eqb c GREEN); [by right|by left]. Qed.

Lemma toggle_keeps_pairs (letter : player) (a : BridgeApp) :
  table_paired a -> table_paired (exec (_toggle_table_letter letter) a).
Proof.
  intros (Hns & Hwe & Hn & Hw & Hfill).
  destruct (toggle_outcome letter a) as (_ & _ & Hc & Hf & _).
  unfold table_paired. rewrite !Hc. repeat split.
  - by destruct letter.
  - by destruct letter.
  - destruct letter; simpl; try apply flip_color_tile; done.
  - destruct letter; simpl; try apply flip_color_tile; done.
  - intros L. rewrite Hc, Hf, Hfill. done.
Qed.

Lemma exec_for_each_cons {X : Type} (x : X) (r : list X) (body : X -> M unit) a :
  result (body x a) = Ok tt ->
  exec (for_each (x :: r) body) a = exec (for_each r body) (exec (body x) a).
Proof.
  intros H. unfold exec. simpl. unfold mbind, M_bind. by rewrite H.
Qed.

Lemma click_tiles_paired (letters : list player) (a : BridgeApp) :
  table_paired a -> table_paired (exec (click_tiles letters) a).
Proof.
  revert a. induction letters as [|L letters IH]; intros a Ha; [done|].
  unfold click_tiles in *. rewrite exec_for_each_cons.
  - by apply IH, toggle_keeps_pairs.
  - apply toggle_outcome.
Qed.

Lemma init_table_paired (theme_bg : bool) : table_paired (BridgeApp_init theme_bg).
Proof. repeat split; by left. Qed.

(** C8: starting from four green tiles, after any clicks N and S share a
    color, W and E share a color, each is green or red; one more click on a
    tile gives both tiles of its pair the color opposite to the clicked
    tile's, and leaves the other pair alone. *)
Theorem C8_table_tiles_toggle_in_pairs (theme_bg : bool) (letters : list player)
    (letter : player) :
  let a := exec (click_tiles letters) (BridgeApp_init theme_bg) in
  let a' := exec (_toggle_table_letter letter) a in
  (table_colors a North = table_colors a South
   /\ table_colors a West = table_colors a East
   /\ is_tile_color (table_colors a North)
   /\ is_tile_color (table_colors a West))
  /\ Forall (fun P =>
       (table_colors a letter = GREEN /\ table_colors a' P = RED)
       \/ (table_colors a letter = RED /\ table_colors a' P = GREEN))
       (table_pair letter)
  /\ Forall (fun P => table_colors a' P = table_colors a P)
       (List.filter (fun P => negb (in_pair letter P)) [North; East; South; West])
  /\ table_colors (BridgeApp_init theme_bg) = (fun _ => GREEN).
Proof.
  intros a a'.
  pose proof (click_tiles_paired letters _ (init_table_paired theme_bg)) as Ha.
  fold a in Ha. destruct Ha as (Hns & Hwe & Hn & Hw & Hfill).
  destruct (toggle_outcome letter a) as (_ & _ & Hc & _). fold a' in Hc.
  split; [done|]. split; [|split; [|done]].
  - assert (Hcur : is_tile_color (table_colors a letter)).
    { destruct letter; congruence. }
    apply Forall_forall. intros P HP.
    rewrite Hc. unfold in_pair. rewrite bool_decide_true by done.
    destruct Hcur as [-> | ->]; [left|right]; done.
  - destruct letter; repeat constructor; by rewrite Hc.
Qed.

(** *** The global summary *)

Lemma _to_int_declared (entry : str) : _to_int entry = declared entry.
Proof.
  unfold _to_int, declared, try_or.
  destruct (Py.strip entry) eqn:E; [|done]. reflexivity.
Qed.

Lemma global_stats_step_points (a : BridgeApp) (acc : summary) (pl : player) :
  min_points_sum (global_stats_step a acc pl)
  = min_points_sum acc + Z.max (shown_hcp a pl) (declared (points_min (frames a pl)))
  /\ max_points_sum (global_stats_step a acc pl)
     = max_points_sum acc + Z.max (shown_hcp a pl) (declared (points_max (frames a pl))).
Proof.
  unfold global_stats_step. rewrite !_to_int_declared.
  destruct (fold_left _ SUITS _) as [totals hand_cards]. simpl.
  unfold shown_hcp, try_or. done.
Qed.

Lemma update_global_stats_outcome (a : BridgeApp) :
  update_global_stats a = Build_outcome (Ok tt) (with_summary_var (stats_of a) a) [].
Proof. reflexivity. Qed.

Lemma stats_of_points (a : BridgeApp) :
  min_points_sum (stats_of a)
  = sum_players (fun pl =>
      Z.max (shown_hcp a pl) (declared (points_min (frames a pl))))
  /\ max_points_sum (stats_of a)
     = sum_players (fun pl =>
         Z.max (shown_hcp a pl) (declared (points_max (frames a pl)))).
Proof.
  unfold stats_of. cbn [fold_left].
  repeat match goal with
  | |- context [global_stats_step a ?acc ?pl] =>
      let H1 := fresh in let H2 := fresh in
      destruct (global_stats_step_points a acc pl) as [H1 H2];
      rewrite H1, H2; clear H1 H2
  end.
  unfold sum_players. simpl. split; lia.
Qed.


(** *** Reading the state: [get_state] and [dump_state] *)

Lemma bind_state {A B : Type} (m : M A) (f : A -> M B) (a : BridgeApp) :
  state ((m ≫= f) a)
  = match result (m a) with
    | Ok x => state (f x (state (m a)))
    | Raise _ => state (m a)
    end.
Proof. unfold mbind, M_bind. by destruct (result (m a)). Qed.

Lemma read_only_bind {A B : Type} (m : M A) (f : A -> M B) :
  read_only m -> (forall x, read_only (f x)) -> read_only (m ≫= f).
Proof.
  intros Hm Hf a. rewrite bind_state, Hm.
  destruct (result (m a)); [apply Hf|done].
Qed.

Lemma read_only_ret {A : Type} (x : A) : read_only (mret x : M A).
Proof. by intros a. Qed.

Lemma read_only_get : read_only get.
Proof. by intros a. Qed.

Lemma read_only_emit (e : event) : read_only (emit e).
Proof. by intros a. Qed.

Lemma read_only_lift {A : Type} (r : res A) : read_only (lift r).
Proof. by intros a. Qed.

Lemma read_only_mapM {X Y : Type} (f : X -> M Y) (l : list X) :
  (forall x, read_only (f x)) -> read_only (M_mapM f l).
Proof.
  intros Hf. induction l as [|x l IH]; simpl.
  - apply read_only_ret.
  - apply read_only_bind; [apply Hf|]. intros y.
    apply read_only_bind; [apply IH|]. intros ys. apply read_only_ret.
Qed.

Lemma get_state_read_only (pl : player) : read_only (get_state pl).
Proof.
  unfold get_state, self.
  apply read_only_bind.
  - apply read_only_bind; [apply read_only_get|]. intros a. apply read_only_ret.
  - intros hf. apply read_only_bind; [apply read_only_lift|].
    intros label. apply read_only_ret.
Qed.

Lemma dump_state_read_only : read_only dump_state.
Proof.
  unfold dump_state. apply read_only_bind.
  - apply read_only_mapM. intros pl.
    apply read_only_bind; [apply get_state_read_only|].
    intros s. apply read_only_ret.
  - intros st. apply read_only_bind; [apply read_only_emit|].
    intros _. apply read_only_emit.
Qed.

(** With the frames as [__init__] builds them the attribute [player_label]
    is missing, so [get_state] raises before anything is printed. *)
Example dump_state_after_init :
  result (dump_state (BridgeApp_init true))
  = Raise (AttributeError "'HandFrame' object has no attribute 'player_label'")
  /\ emitted (dump_state (BridgeApp_init true)) = [].
Proof. split; reflexivity. Qed.

(** Were the attribute there, the snapshot and the pop-up would follow. *)
Example dump_state_with_labels :
  result (dump_state (labelled (BridgeApp_init true))) = Ok tt
  /\ length (emitted (dump_state (labelled (BridgeApp_init true)))) = 2%nat.
Proof. split; reflexivity. Qed.

(** C7: [dump_state] only reads the form; after it has run the whole tracked
    state (points ranges, HCP and cards totals, count strings, card strings,
    played counts) is what it was before. *)
Theorem C7_dump_state_leaves_state (a : BridgeApp) :
  state (dump_state a) = a
  /\ (forall pl : player, frames (state (dump_state a)) pl = frames a pl)
  /\ (forall pl : player, state (get_state pl a) = a).
Proof.
  split; [apply dump_state_read_only|]. split.
  - intros pl. by rewrite dump_state_read_only.
  - intros pl. apply get_state_read_only.
Qed.

(** *** Validation *)

Lemma lstrip_nonspace (sp : ascii -> bool) s :
  forallb (fun c => negb (sp c)) s = true -> Py.lstrip_with sp s = s.
Proof.
  destruct s as [|c s]; [done|]. simpl.
  intros [Hc _]%andb_true_iff. by destruct (sp c).
Qed.

Lemma forallb_rev {A : Type} (P : A -> bool) l :
  forallb P l = true -> forallb P (rev l) = true.
Proof.
  rewrite !forallb_forall. intros H x Hx. apply H. by apply in_rev.
Qed.

Lemma strip_nonspace (sp : ascii -> bool) s :
  forallb (fun c => negb (sp c)) s = true -> Py.strip_with sp s = s.
Proof.
  intros H. unfold Py.strip_with, Py.rstrip_with.
  rewrite (lstrip_nonspace sp s H), lstrip_nonspace by by apply forallb_rev.
  apply rev_involutive.
Qed.



Lemma plain_digit_facts (c : ascii) :
  plain_digit c = true ->
  Py.digit_value c = Some (Z.of_N (ord c) - 48)
  /\ Py.isspace_int c = false /\ ch_eqb c "-" = false /\ ch_eqb c "+" = false.
Proof. each_char c; vm_compute; intros; repeat split; congruence. Qed.

Lemma int_digits_plain (s : str) (acc : Z) :
  forallb plain_digit s = true ->
  Py.int_digits acc false s
  = Some (fold_left (fun acc c => 10 * acc + (Z.of_N (ord c) - 48)) s acc).
Proof.
  revert acc. induction s as [|c s IH]; intros acc; [done|].
  cbn [forallb Py.int_digits fold_left]. intros [Hc Hs]%andb_true_iff.
  destruct (plain_digit_facts c Hc) as (-> & _). by apply IH.
Qed.

Lemma int_plain_digits (s : str) :
  s <> [] -> forallb plain_digit s = true -> Py.int s = Ok (decimal_value s).
Proof.
  intros Hne Hs. unfold Py.int.
  rewrite strip_nonspace.
  2:{ apply forallb_forall. intros c Hc. rewrite forallb_forall in Hs.
      destruct (plain_digit_facts c (Hs c Hc)) as (_ & -> & _). done. }
  destruct s as [|c s]; [done|].
  cbn [forallb] in Hs. apply andb_true_iff in Hs as [Hc Hs].
  destruct (plain_digit_facts c Hc) as (Hv & _ & -> & ->).
  unfold Py.int_body. rewrite Hv, (int_digits_plain s _ Hs).
  unfold decimal_value. cbn [fold_left].
  replace (10 * 0 + (Z.of_N (ord c) - 48)) with (Z.of_N (ord c) - 48) by lia.
  reflexivity.
Qed.
















Example miscounted_form_popup :
  emitted (validate_all miscounted_form)
  = [showwarning (lit "Validation")
       (lit "N S: count 2 != cards length 3 ('AKQ')" ++ [chr 10]
        ++ lit "N: has 3 cards (should be 13).")].
Proof. reflexivity. Qed.

(** *** Guarded numeric parses *)

Lemma normalize_cards_total (text : option str) :
  exists out, normalize_cards text = Ok out /\ forallb in_ranks out = true.
Proof.
  destruct text as [s|].
  - eexists. split; [apply normalize_cards_core|apply rank_sort_all_ranks].
  - by exists [].
Qed.

Lemma _to_int_fallback (entry : str) (e : exn) :
  Py.int (Py.strip entry) = Raise e -> _to_int entry = 0.
Proof. intros H. rewrite _to_int_declared. unfold declared. by rewrite H. Qed.

Lemma on_count_change_fallback (pl : player) (sc : suit) (a : BridgeApp) (e : exn) :
  Py.int (suit_count_vars (frames a pl) sc) = Raise e ->
  on_count_change pl sc a = Build_outcome (Ok tt) a [].
Proof.
  intros H. unfold on_count_change, self, mbind, M_bind, get.
  cbn [result state emitted mret M_ret]. by rewrite H.
Qed.

(** C5 at the failing input: [str.isdigit] accepts the superscript two, the
    guard of [validate_all] lets it through, [int] rejects it, and the
    ValueError leaves [validate_all] with no pop-up shown. *)
Theorem C5_validate_all_raises_on_superscript_digit :
  suit_count_vars (frames superscript_form North) Spades = [chr 178]
  /\ Py.isdigit [chr 178] = true
  /\ result (validate_all superscript_form)
     = Raise (ValueError "invalid literal for int() with base 10")
  /\ emitted (validate_all superscript_form) = [].
Proof. repeat split; reflexivity. Qed.

(** *** Counters and the played-rank inference *)

Lemma ch_eqb_neq (a b : ascii) : ch_eqb a b = false <-> a <> b.
Proof.
  split.
  - intros H ->. by rewrite ch_eqb_refl in H.
  - intros H. destruct (ch_eqb a b) eqn:E; [|done]. by apply ch_eqb_eq in E.
Qed.

Lemma occ_cons (c x : ascii) s :
  occ c (x :: s) = (if ch_eqb c x then 1 else 0) + occ c s.
Proof. unfold occ. rewrite count_ch_cons. destruct (ch_eqb c x); lia. Qed.

Lemma occ_nonneg (c : ascii) s : 0 <= occ c s.
Proof. unfold occ. lia. Qed.

Lemma occ_pos_In (c : ascii) s : 0 < occ c s <-> In c s.
Proof.
  induction s as [|x s IH]; [unfold occ, count_ch; simpl; split; [lia|done]|].
  rewrite occ_cons. cbn [In]. destruct (ch_eqb c x) eqn:E.
  - apply ch_eqb_eq in E. subst. pose proof (occ_nonneg x s).
    split; [by left|intros _; lia].
  - apply ch_eqb_neq in E. rewrite Z.add_0_l, IH. split; [by right|].
    intros [->|H]; done.
Qed.

Lemma counter_add_get (x c : ascii) (d : list (ascii * Z)) :
  dict_get (counter_add x d) c 0 = dict_get d c 0 + (if ch_eqb c x then 1 else 0).
Proof.
  induction d as [|[k v] d IH]; simpl.
  - destruct (ch_eqb c x); lia.
  - destruct (ch_eqb x k) eqn:Exk; simpl.
    + apply ch_eqb_eq in Exk. subst k. destruct (ch_eqb c x); lia.
    + destruct (ch_eqb c k) eqn:Eck; [|done].
      apply ch_eqb_eq in Eck. subst k.
      assert (ch_eqb c x = false) as ->; [|lia].
      apply ch_eqb_neq. apply ch_eqb_neq in Exk. congruence.
Qed.

Lemma counter_fold_get (s : str) (d : list (ascii * Z)) (c : ascii) :
  dict_get (fold_left (fun d c => counter_add c d) s d) c 0 = dict_get d c 0 + occ c s.
Proof.
  revert d. induction s as [|x s IH]; intros d; simpl.
  - unfold occ, count_ch. simpl. lia.
  - rewrite IH, counter_add_get, occ_cons. lia.
Qed.

Lemma Counter_get (s : str) (c : ascii) : dict_get (Counter s) c 0 = occ c s.
Proof. unfold Counter. by rewrite counter_fold_get. Qed.

Lemma counter_add_keys (x : ascii) (d : list (ascii * Z)) :
  map fst (counter_add x d)
  = if Py.contains (map fst d) x then map fst d else map fst d ++ [x].
Proof.
  unfold Py.contains. induction d as [|[k v] d IH]; simpl; [done|].
  destruct (ch_eqb x k); simpl; [done|]. rewrite IH.
  by destruct (existsb (ch_eqb x) (map fst d)).
Qed.

Lemma contains_In (l : list ascii) (x : ascii) : Py.contains l x = true <-> In x l.
Proof.
  unfold Py.contains. rewrite existsb_exists. split.
  - intros [y [Hy E]]. apply ch_eqb_eq in E. by subst.
  - intros H. exists x. split; [done|apply ch_eqb_refl].
Qed.

Lemma counter_add_keys_spec (x : ascii) (d : list (ascii * Z)) :
  NoDup (map fst d) ->
  NoDup (map fst (counter_add x d))
  /\ (forall c, c ∈ map fst (counter_add x d) <-> c ∈ map fst d \/ c = x).
Proof.
  intros Hd. rewrite counter_add_keys.
  destruct (Py.contains (map fst d) x) eqn:E.
  - apply contains_In, list_elem_of_In in E. split; [done|].
    intros c. split; [tauto|]. intros [H| ->]; done.
  - assert (Hx : x ∉ map fst d).
    { intros H%list_elem_of_In%contains_In. congruence. }
    split.
    + apply NoDup_app. split; [done|]. split; [|apply NoDup_singleton].
      intros y Hy ->%list_elem_of_singleton. done.
    + intros c. rewrite elem_of_app, list_elem_of_singleton. tauto.
Qed.

Lemma counter_fold_keys (s : str) (d : list (ascii * Z)) :
  NoDup (map fst d) ->
  NoDup (map fst (fold_left (fun d c => counter_add c d) s d))
  /\ (forall c, c ∈ map fst (fold_left (fun d c => counter_add c d) s d)
                <-> c ∈ map fst d \/ c ∈ s).
Proof.
  revert d. induction s as [|x s IH]; intros d Hd; simpl.
  - split; [done|]. intros c. rewrite elem_of_nil. tauto.
  - destruct (counter_add_keys_spec x d Hd) as [Hnd Hin].
    destruct (IH _ Hnd) as [Hnd' Hin']. split; [done|].
    intros c. rewrite Hin', Hin, elem_of_cons. tauto.
Qed.

Lemma Counter_keys (s : str) :
  NoDup (map fst (Counter s)) /\ (forall c, c ∈ map fst (Counter s) <-> c ∈ s).
Proof.
  destruct (counter_fold_keys s [] (NoDup_nil_2)) as [Hnd Hin].
  split; [done|]. intros c. unfold Counter. rewrite Hin. simpl.
  rewrite elem_of_nil. tauto.
Qed.

Lemma auto_mark_unfold (old new : str) :
  auto_mark old new
  = if (occ "X" old - occ "X" new =? 1)
       && (fold_left Z.add (map (fun r => occ r new - occ r old) (gained old new)) 0 =? 1)
    then match gained old new with
         | r :: _ => Ok (Some r)
         | [] => Raise StopIteration
         end
    else Ok None.
Proof.
  unfold auto_mark, gained. rewrite !Counter_get.
  set (cand := List.filter (fun r => negb (ch_eqb r "X")) (map fst (Counter new))).
  assert (Hadd : List.filter (fun rc : ascii * Z => 0 <? rc.2)
            (map (fun r => (r, dict_get (Counter new) r 0 - dict_get (Counter old) r 0)) cand)
          = map (fun r => (r, occ r new - occ r old))
              (List.filter (fun r => 0 <? occ r new - occ r old) cand)).
  { rewrite filter_map_comm. simpl.
    erewrite (List.filter_ext _ (fun r => 0 <? occ r new - occ r old));
      [|intros r; by rewrite !Counter_get].
    apply map_ext. intros r. by rewrite !Counter_get. }
  rewrite Hadd, map_map. simpl.
  destruct (_ && _); [|done].
  by destruct (List.filter _ cand).
Qed.

Lemma gained_spec (old new : str) (r : ascii) :
  r ∈ gained old new <-> r <> "X"%char /\ 0 < occ r new - occ r old.
Proof.
  unfold gained. rewrite !list_elem_of_In, !filter_In, <- list_elem_of_In.
  destruct (Counter_keys new) as [_ Hkeys]. rewrite Hkeys.
  rewrite negb_true_iff, ch_eqb_neq, Z.ltb_lt. split; [tauto|].
  intros [Hx Hd]. split; [split; [|done]|done].
  apply list_elem_of_In, occ_pos_In. pose proof (occ_nonneg r old). lia.
Qed.




Lemma sum_positive_one (f : ascii -> Z) (l : list ascii) :
  (forall y, y ∈ l -> 0 < f y) ->
  fold_left Z.add (map f l) 0 = 1 <-> exists r, l = [r] /\ f r = 1.
Proof.
  intros Hpos. rewrite fold_left_add, Z.add_0_l.
  assert (Hnn : forall k : list ascii, (forall y, y ∈ k -> 0 < f y) ->
                  0 <= fold_right Z.add 0 (map f k)).
  { induction k as [|y k IH]; intros Hk; simpl; [lia|].
    assert (0 < f y) by (apply Hk; left).
    assert (0 <= fold_right Z.add 0 (map f k)) by (apply IH; intros; apply Hk; by right).
    lia. }
  destruct l as [|x [|y k]]; simpl.
  - split; [lia|]. by intros [r [? _]].
  - split.
    + intros H. exists x. split; [done|lia].
    + intros [r [[= <-] H]]. lia.
  - split; [|by intros [r [? _]]].
    assert (0 < f x) by (apply Hpos; left).
    assert (0 < f y) by (apply Hpos; right; left).
    assert (0 <= fold_right Z.add 0 (map f k)).
    { apply Hnn. intros z Hz. apply Hpos. by do 2 right. }
    lia.
Qed.


Lemma gained_positive (old new : str) :
  forall y, y ∈ gained old new -> 0 < occ y new - occ y old.
Proof. intros y Hy%gained_spec. tauto. Qed.



(** *** Callbacks as state transformers *)






Lemma runs_self (P : BridgeApp -> Prop) (pl : player) :
  runs P (self pl) (fun hf a => hf = frames a pl /\ P a).
Proof. intros a Ha. by exists (frames a pl). Qed.














Lemma auto_mark_total (old new : str) : exists mark, auto_mark old new = Ok mark.
Proof.
  rewrite auto_mark_unfold.
  destruct (occ "X" old - occ "X" new =? 1); [|by exists None].
  destruct (fold_left Z.add _ 0 =? 1) eqn:Hsum; [|by exists None].
  apply Z.eqb_eq in Hsum.
  apply sum_positive_one in Hsum as [r [-> _]]; [|apply gained_positive].
  by exists (Some r).
Qed.



(** *** The played-rank inference of [on_cards_change] *)



Example played_form_marks_king :
  let a' := exec (on_cards_change North Spades (Some (lit "Return"))) played_form in
  single_play (lit "AXX") (lit "AKX") "K"
  /\ played_counts (frames a' North) Spades = {["K"%char := 1]}
  /\ map tile_played (card_strips (frames a' North) Spades) = [false; true; false]
  /\ focus a' = Some (North, Hearts).
Proof.
  repeat split; try by vm_compute.
  intros r' Hx Hk. unfold occ, count_ch, lit. simpl.
  destruct (ch_eqb r' "A"), (ch_eqb r' "K") eqn:EK, (ch_eqb r' "X") eqn:EX; simpl; try lia.
  - apply ch_eqb_eq in EK. done.
  - apply ch_eqb_eq in EK. done.
Qed.

(** *** [str] and [int] are inverse on integers *)

Lemma uint_chars_plain (d : Decimal.uint) :
  forallb plain_digit (lit (NilEmpty.string_of_uint d)) = true.
Proof. induction d; simpl; [done|..]; exact IHd. Qed.

Lemma uint_chars_value (d : Decimal.uint) (acc : Z) :
  fold_left (fun acc c => 10 * acc + (Z.of_N (ord c) - 48)) (lit (NilEmpty.string_of_uint d)) acc
  = uint_value acc d.
Proof.
  revert acc. induction d; intros acc; simpl; [done|..]; apply IHd.
Qed.

Lemma uint_value_of_lu (d : Decimal.uint) (acc : Z) :
  uint_value acc d
  = acc * 10 ^ Z.of_N (Unsigned.usize d) + Z.of_N (Unsigned.of_lu (Decimal.rev d)).
Proof.
  revert acc. induction d; intros acc;
    [simpl; lia|..];
    cbn [uint_value Unsigned.usize]; rewrite IHd;
    unfold Decimal.rev; cbn [Decimal.revapp];
    rewrite (Unsigned.of_lu_revapp d (_ Decimal.Nil));
    cbn [Unsigned.of_lu]; fold (Decimal.rev d);
    rewrite N2Z.inj_succ, Z.pow_succ_r by lia;
    rewrite N2Z.inj_add, N2Z.inj_mul, N2Z.inj_pow; simpl Z.of_N; ring.
Qed.

Lemma pos_chars_value (p : positive) :
  decimal_value (lit (NilEmpty.string_of_uint (Pos.to_uint p))) = Z.pos p.
Proof.
  unfold decimal_value. rewrite uint_chars_value, uint_value_of_lu.
  rewrite <- Unsigned.of_uint_alt, Unsigned.of_to. simpl. lia.
Qed.

Lemma int_body_plain (s : str) :
  s <> [] -> forallb plain_digit s = true -> Py.int_body s = Some (decimal_value s).
Proof.
  intros Hne Hs. destruct s as [|c s]; [done|].
  cbn [forallb] in Hs. apply andb_true_iff in Hs as [Hc Hs].
  destruct (plain_digit_facts c Hc) as (Hv & _).
  unfold Py.int_body. rewrite Hv, (int_digits_plain s _ Hs).
  unfold decimal_value. cbn [fold_left].
  replace (10 * 0 + (Z.of_N (ord c) - 48)) with (Z.of_N (ord c) - 48) by lia.
  reflexivity.
Qed.

Lemma pos_chars_nonempty (p : positive) :
  lit (NilEmpty.string_of_uint (Pos.to_uint p)) <> [].
Proof.
  pose proof (Unsigned.to_uint_nonnil p) as H.
  destruct (Pos.to_uint p); [done|..]; discriminate.
Qed.

Lemma nilzero_pos (p : positive) :
  NilZero.string_of_uint (Pos.to_uint p) = NilEmpty.string_of_uint (Pos.to_uint p).
Proof.
  pose proof (Unsigned.to_uint_nonnil p) as H.
  unfold NilZero.string_of_uint. by destruct (Pos.to_uint p).
Qed.

(** [int(str(n)) == n]. *)
Lemma int_str_of_int (n : Z) : Py.int (Py.str_of_int n) = Ok n.
Proof.
  unfold Py.str_of_int. destruct n as [|p|p]; [reflexivity|..].
  - simpl Z.to_int. unfold NilZero.string_of_int. rewrite nilzero_pos.
    rewrite int_plain_digits;
      [by rewrite pos_chars_value|apply pos_chars_nonempty|apply uint_chars_plain].
  - simpl Z.to_int. unfold NilZero.string_of_int. rewrite nilzero_pos.
    set (s := lit (NilEmpty.string_of_uint (Pos.to_uint p))).
    change (lit (String "-" (NilEmpty.string_of_uint (Pos.to_uint p))))
      with ("-"%char :: s).
    unfold Py.int. rewrite strip_nonspace.
    2:{ cbn [forallb]. apply andb_true_iff. split; [done|].
        apply forallb_forall. intros c Hc.
        pose proof (uint_chars_plain (Pos.to_uint p)) as Hp.
        rewrite forallb_forall in Hp.
        destruct (plain_digit_facts c (Hp c Hc)) as (_ & -> & _). done. }
    change (ch_eqb "-" "-") with true. cbv iota.
    rewrite int_body_plain; [|apply pos_chars_nonempty|apply uint_chars_plain].
    subst s. simpl. by rewrite pos_chars_value.
Qed.

Lemma update_stats_hcp_var (a : BridgeApp) (pl : player) :
  hcp_var (frames (exec (update_stats pl) a) pl)
  = Py.str_of_int (0 + hcp_from_cards (suit_card_vars (frames a pl) Spades)
                     + hcp_from_cards (suit_card_vars (frames a pl) Hearts)
                     + hcp_from_cards (suit_card_vars (frames a pl) Diamonds)
                     + hcp_from_cards (suit_card_vars (frames a pl) Clubs)).
Proof. destruct pl; reflexivity. Qed.

(** After [update_stats] the HCP a hand shows is the HCP of its card strings. *)
Lemma update_stats_shown_hcp (a : BridgeApp) (pl : player) :
  shown_hcp (exec (update_stats pl) a) pl = cards_hcp a pl.
Proof.
  unfold shown_hcp. rewrite update_stats_hcp_var, int_str_of_int.
  unfold cards_hcp, SUITS. simpl. lia.
Qed.

Lemma update_stats_summary (a : BridgeApp) (pl : player) :
  summary_var (exec (update_stats pl) a) = stats_of (exec (update_stats pl) a).
Proof. destruct pl; reflexivity. Qed.

Lemma update_stats_other_frames (a : BridgeApp) (pl q : player) :
  q <> pl -> frames (exec (update_stats pl) a) q = frames a q.
Proof. destruct pl, q; intros H; try done; reflexivity. Qed.

(** On the path that calls it, [update_stats], the summary is taken with the
    calling hand's HCP equal to the HCP of its card strings. *)
Lemma update_stats_points (a : BridgeApp) (pl : player) :
  let a' := exec (update_stats pl) a in
  shown_hcp a' pl = cards_hcp a pl
  /\ min_points_sum (summary_var a')
     = sum_players (fun q =>
         Z.max (shown_hcp a' q) (declared (points_min (frames a' q)))).
Proof.
  intros a'. split; [apply update_stats_shown_hcp|].
  subst a'. rewrite update_stats_summary. apply stats_of_points.
Qed.

(** *** More on [normalize_cards] and [hcp_from_cards] *)

Lemma rank_sort_perm_eq (l1 l2 : str) : l1 ≡ₚ l2 -> rank_sort l1 = rank_sort l2.
Proof.
  intros H. apply (StronglySorted_unique_strong rank_le).
  - intros x1 x2 H1 H2 H12 H21.
    pose proof (rank_sort_all_ranks l1) as A1. rewrite forallb_forall in A1.
    pose proof (rank_sort_all_ranks l2) as A2. rewrite forallb_forall in A2.
    apply rank_pos_inj; [by apply A1, list_elem_of_In|by apply A2, list_elem_of_In|].
    unfold rank_le in *. lia.
  - apply rank_sort_sorted.
  - apply rank_sort_sorted.
  - rewrite !rank_sort_perm. induction H; simpl.
    + done.
    + destruct (in_ranks x); by rewrite IHPermutation.
    + destruct (in_ranks x), (in_ranks y); try done. apply Permutation_swap.
    + by etrans.
Qed.

Lemma rank_tokens_perm (l1 l2 : str) : l1 ≡ₚ l2 -> rank_tokens l1 ≡ₚ rank_tokens l2.
Proof.
  intros H. unfold rank_tokens. induction H; simpl.
  - done.
  - destruct (in_ranks (zero_to_T x)); by rewrite IHPermutation.
  - destruct (in_ranks (zero_to_T x)), (in_ranks (zero_to_T y)); try done.
    apply Permutation_swap.
  - by etrans.
Qed.

(** X1: the order of the characters typed does not matter: two inputs that
    are permutations of each other normalize to the same string. *)
Theorem X1_normalize_cards_order_irrelevant (s t : str) :
  s ≡ₚ t -> normalize_cards (Some s) = normalize_cards (Some t).
Proof.
  intros H. rewrite !normalize_cards_core. f_equal.
  apply rank_sort_perm_eq, rank_tokens_perm. unfold Py.upper.
  by apply Permutation_map.
Qed.

Lemma X1_normalize_cards_order_irrelevant_witness :
  lit "x 10,a" ≡ₚ lit "a1 ,x0"
  /\ normalize_cards (Some (lit "x 10,a")) = normalize_cards (Some (lit "a1 ,x0")).
Proof.
  assert (H : lit "x 10,a" ≡ₚ lit "a1 ,x0").
  { apply (Permutation_count_occ ascii_dec). intros c. each_char c; reflexivity. }
  split; [exact H|]. apply (X1_normalize_cards_order_irrelevant _ _ H).
Defined.

Lemma length_filter_le {A : Type} (P : A -> bool) (l : list A) :
  (length (List.filter P l) <= length l)%nat.
Proof. induction l as [|x l IH]; simpl; [lia|]. destruct (P x); simpl; lia. Qed.

(** X2: the normalized string is never longer than the input and holds rank
    characters only. *)
Theorem X2_normalize_cards_shrinks (s : str) :
  exists out, normalize_cards (Some s) = Ok out
              /\ (length out <= length s)%nat
              /\ Forall (fun c => c ∈ RANKS_ORDER) out.
Proof.
  eexists. split; [apply normalize_cards_core|]. split.
  - rewrite (Permutation_length (rank_sort_perm _)).
    rewrite (filter_all _ _ (rank_tokens_all_ranks _)).
    unfold rank_tokens. etrans; [apply length_filter_le|].
    unfold Py.upper. by rewrite !length_map.
  - apply Forall_forall. intros c Hc. apply in_ranks_elem.
    pose proof (rank_sort_all_ranks (rank_tokens (Py.upper s))) as H.
    rewrite forallb_forall in H. by apply H, list_elem_of_In.
Qed.

Lemma rank_tokens_app (l1 l2 : str) :
  rank_tokens (l1 ++ l2) = rank_tokens l1 ++ rank_tokens l2.
Proof. unfold rank_tokens. by rewrite map_app, List.filter_app. Qed.

(** X3: normalizing the pieces first changes nothing: the normal form of a
    concatenation is the normal form of the concatenated normal forms. *)
Theorem X3_normalize_cards_of_pieces (s t : str) :
  (a ← normalize_cards (Some s); b ← normalize_cards (Some t);
   normalize_cards (Some (a ++ b)))
  = normalize_cards (Some (s ++ t)).
Proof.
  rewrite !normalize_cards_core. cbn [mbind res_bind].
  rewrite normalize_cards_core. f_equal.
  assert (Happ : forall x y, Py.upper (x ++ y) = Py.upper x ++ Py.upper y).
  { intros x y. unfold Py.upper. apply map_app. }
  rewrite !Happ.
  rewrite !rank_tokens_app.
  rewrite (rank_tokens_upper_fixed (rank_sort (rank_tokens (Py.upper s))))
    by apply rank_sort_all_ranks.
  rewrite (rank_tokens_upper_fixed (rank_sort (rank_tokens (Py.upper t))))
    by apply rank_sort_all_ranks.
  apply rank_sort_perm_eq.
  rewrite !rank_sort_perm.
  by rewrite !(filter_all _ _ (rank_tokens_all_ranks _)).
Qed.

Lemma hcp_value_bounds (ch : ascii) : 0 <= hcp_value ch <= 4.
Proof. each_char ch; simpl; lia. Qed.

(** X4: High Card Points add up over concatenation, are never negative and
    never exceed four per character. *)
Theorem X4_hcp_from_cards_additive (a b : str) :
  hcp_from_cards (a ++ b) = hcp_from_cards a + hcp_from_cards b
  /\ 0 <= hcp_from_cards a <= 4 * len a.
Proof.
  split.
  - induction a as [|c a IH]; [reflexivity|].
    change ((c :: a) ++ b) with (c :: (a ++ b)).
    rewrite !hcp_from_cards_cons, IH. lia.
  - unfold len. induction a as [|c a IH]; [by vm_compute|].
    rewrite hcp_from_cards_cons. pose proof (hcp_value_bounds c).
    cbn [length]. lia.
Qed.

Lemma hcp_perm (l1 l2 : str) : l1 ≡ₚ l2 -> hcp_from_cards l1 = hcp_from_cards l2.
Proof.
  induction 1.
  - done.
  - rewrite !hcp_from_cards_cons. lia.
  - rewrite !hcp_from_cards_cons. lia.
  - congruence.
Qed.

Lemma hcp_rank_token (c : ascii) :
  (if in_ranks (zero_to_T c) then hcp_value (zero_to_T c) else 0) = hcp_value c.
Proof. each_char c; reflexivity. Qed.

Lemma hcp_rank_tokens (l : str) : hcp_from_cards (rank_tokens l) = hcp_from_cards l.
Proof.
  induction l as [|c l IH]; [done|].
  rewrite rank_tokens_cons, hcp_from_cards_cons, <- (hcp_rank_token c).
  destruct (in_ranks (zero_to_T c)); [|lia].
  rewrite hcp_from_cards_cons. lia.
Qed.

(** X5: normalizing a card string keeps the High Card Points of its
    upper-cased text: dropping the other characters and sorting loses no
    honor. *)
Theorem X5_normalize_cards_keeps_hcp (s : str) :
  exists out, normalize_cards (Some s) = Ok out
              /\ hcp_from_cards out = hcp_from_cards (Py.upper s).
Proof.
  eexists. split; [apply normalize_cards_core|].
  rewrite (hcp_perm _ _ (rank_sort_perm _)).
  rewrite (filter_all _ _ (rank_tokens_all_ranks _)).
  apply hcp_rank_tokens.
Qed.

(** *** The suit strips *)

Lemma dd_get_insert (m : gmap ascii Z) (k r : ascii) (v : Z) :
  dd_get (<[k := v]> m) r = if decide (r = k) then v else dd_get m r.
Proof.
  unfold dd_get. destruct (decide (r = k)) as [->|Hne].
  - by rewrite lookup_insert_eq.
  - by rewrite lookup_insert_ne.
Qed.

Lemma dd_get_empty (r : ascii) : dd_get ∅ r = 0.
Proof. unfold dd_get. by rewrite lookup_empty. Qed.

Lemma build_strip_texts (played used : gmap ascii Z) (cards : str) :
  map tile_text (build_strip played used cards) = cards.
Proof.
  revert used. induction cards as [|c cards IH]; intros used; [done|].
  cbn [build_strip]. destruct (_ && _); simpl; by rewrite IH.
Qed.

Lemma build_strip_colors (played used : gmap ascii Z) (cards : str) :
  Forall (fun t => tile_bg t = if tile_played t then GREEN else WHITE)
    (build_strip played used cards).
Proof.
  revert used. induction cards as [|c cards IH]; intros used; [constructor|].
  cbn [build_strip]. destruct (_ && _); constructor; try done; apply IH.
Qed.

Lemma played_tiles_cons (r : ascii) (t : tile) (strip : list tile) :
  played_tiles r (t :: strip)
  = (if ch_eqb r (tile_text t) && tile_played t then 1 else 0) + played_tiles r strip.
Proof.
  unfold played_tiles, len. cbn [List.filter].
  destruct (_ && _); cbn [length]; lia.
Qed.

Lemma build_strip_played (played used : gmap ascii Z) (cards : str) (r : ascii) :
  played_tiles r (build_strip played used cards)
  = if ch_eqb r "X" then 0
    else Z.max 0 (Z.min (occ r cards) (dd_get played r - dd_get used r)).
Proof.
  revert used. induction cards as [|c cards IH]; intros used.
  - cbn [build_strip]. unfold played_tiles, occ, count_ch, len. simpl.
    destruct (ch_eqb r "X"); lia.
  - cbn [build_strip]. rewrite occ_cons. pose proof (occ_nonneg r cards) as Hnn.
    destruct (ch_eqb c "X") eqn:Hcx; cbn [negb andb].
    + rewrite played_tiles_cons, IH. cbn [tile_text tile_played].
      rewrite andb_false_r. apply ch_eqb_eq in Hcx. subst c.
      destruct (ch_eqb r "X"); lia.
    + destruct (dd_get used c <? dd_get played c) eqn:Hlt.
      * apply Z.ltb_lt in Hlt. rewrite played_tiles_cons, IH.
        cbn [tile_text tile_played]. rewrite andb_true_r, dd_get_insert.
        destruct (ch_eqb r c) eqn:Hrc.
        -- apply ch_eqb_eq in Hrc. subst c. rewrite Hcx.
           rewrite decide_True by done. lia.
        -- apply ch_eqb_neq in Hrc. rewrite decide_False by done.
           destruct (ch_eqb r "X"); lia.
      * apply Z.ltb_ge in Hlt. rewrite played_tiles_cons, IH.
        cbn [tile_text tile_played]. rewrite andb_false_r.
        destruct (ch_eqb r c) eqn:Hrc.
        -- apply ch_eqb_eq in Hrc. subst c. rewrite Hcx. lia.
        -- destruct (ch_eqb r "X"); lia.
Qed.

Lemma rebuild_card_strip_strip (a : BridgeApp) (pl : player) (sc : suit) :
  result (rebuild_card_strip pl sc a) = Ok tt
  /\ card_strips (frames (exec (rebuild_card_strip pl sc) a) pl) sc
     = build_strip (played_counts (frames a pl) sc) ∅ (suit_card_vars (frames a pl) sc).
Proof. destruct pl, sc; split; reflexivity. Qed.

(** X6: a rebuilt suit strip shows the characters of the cards entry, one
    tile each and in order; of each rank other than "X" as many tiles are
    green as the played count allows, at most the number the entry holds;
    "X" tiles are never green; a tile is green exactly when it is played. *)
Theorem X6_rebuild_card_strip_shows_cards (a : BridgeApp) (pl : player)
    (sc : suit) (r : ascii) :
  let strip := card_strips (frames (exec (rebuild_card_strip pl sc) a) pl) sc in
  let cards := suit_card_vars (frames a pl) sc in
  let played := dd_get (played_counts (frames a pl) sc) r in
  map tile_text strip = cards
  /\ played_tiles r strip
     = (if ch_eqb r "X" then 0 else Z.max 0 (Z.min (occ r cards) played))
  /\ Forall (fun t => tile_bg t = if tile_played t then GREEN else WHITE) strip.
Proof.
  cbv zeta. destruct (rebuild_card_strip_strip a pl sc) as [_ ->].
  split; [apply build_strip_texts|]. split; [|apply build_strip_colors].
  rewrite build_strip_played, dd_get_empty. by rewrite Z.sub_0_r.
Qed.

(** *** Clicks on rank tiles *)

Lemma on_toggle_frame (a : BridgeApp) (pl : player) (sc : suit) (i : nat) (l : tile) :
  card_strips (frames a pl) sc !! i = Some l ->
  ch_eqb (tile_text l) "X" = false ->
  let hf := frames a pl in
  let r := tile_text l in
  let now_played := negb (tile_played l) in
  let pc := played_counts hf sc in
  result (on_toggle pl sc i a) = Ok tt
  /\ frames (exec (on_toggle pl sc i) a) pl
     = with_played_counts
         (upd (played_counts hf) sc
            (if now_played then <[r := dd_get pc r + 1]> pc
             else if 0 <? dd_get pc r then <[r := dd_get pc r - 1]> pc else pc))
         (with_card_strips
            (upd (card_strips hf) sc
               (<[i := {| tile_text := r; tile_played := now_played;
                          tile_bg := if now_played then GREEN else WHITE |}]>
                  (card_strips hf sc))) hf)
  /\ (forall q, q <> pl -> frames (exec (on_toggle pl sc i) a) q = frames a q).
Proof.
  intros Hl Hx. cbv zeta. unfold exec, on_toggle, self, mbind, M_bind, get.
  cbn [result state emitted mret M_ret]. rewrite Hl, Hx.
  unfold self_update, modify. cbn [result state frames with_frames].
  split; [done|]. split.
  - unfold upd. by rewrite decide_True.
  - intros q Hq. unfold upd. by rewrite decide_False.
Qed.

(** X7: a click on an "X" tile, or where the strip has no tile, changes
    nothing at all. *)
Theorem X7_on_toggle_ignores_hidden_cards (a : BridgeApp) (pl : player)
    (sc : suit) (i : nat) :
  match card_strips (frames a pl) sc !! i with
  | Some l => ch_eqb (tile_text l) "X" = true
  | None => True
  end ->
  on_toggle pl sc i a = Build_outcome (Ok tt) a [].
Proof.
  intros H. unfold on_toggle, self, mbind, M_bind, get.
  cbn [result state emitted mret M_ret].
  destruct (card_strips (frames a pl) sc !! i) as [l|]; [|done].
  by rewrite H.
Qed.

Lemma X7_on_toggle_ignores_hidden_cards_witness :
  match card_strips (frames shown_form North) Spades !! 2%nat with
  | Some l => ch_eqb (tile_text l) "X" = true
  | None => True
  end
  /\ on_toggle North Spades 2 shown_form = Build_outcome (Ok tt) shown_form [].
Proof.
  split; [by vm_compute|].
  apply (X7_on_toggle_ignores_hidden_cards shown_form North Spades 2).
  by vm_compute.
Defined.

(** X8: a click on a tile of a rank other than "X" flips that tile between
    played (green) and not played (white); the rank's played count goes up by
    one when the tile becomes played and down by one, but not below zero,
    when it stops being played; no other tile or count changes. *)
Theorem X8_on_toggle_flips_one_tile (a : BridgeApp) (pl : player) (sc : suit)
    (i : nat) (l : tile) :
  card_strips (frames a pl) sc !! i = Some l ->
  ch_eqb (tile_text l) "X" = false ->
  toggle_spec a pl sc i l.
Proof.
  intros Hl Hx. unfold toggle_spec. cbv zeta.
  destruct (on_toggle_frame a pl sc i l Hl Hx) as (Hres & Hf & Hother).
  split; [done|]. rewrite Hf. cbn [card_strips played_counts with_played_counts
    with_card_strips]. unfold upd. rewrite !decide_True by done.
  assert (Hi : (i < length (card_strips (frames a pl) sc))%nat).
  { by apply lookup_lt_Some in Hl. }
  split; [by apply list_lookup_insert_eq|].
  split; [intros j Hj; by apply list_lookup_insert_ne|].
  split; [|split].
  - unfold toggled_count. destruct (negb (tile_played l)).
    + rewrite dd_get_insert. by rewrite decide_True.
    + destruct (0 <? _); [|done]. rewrite dd_get_insert. by rewrite decide_True.
  - intros r' Hr'. destruct (negb (tile_played l)).
    + rewrite dd_get_insert. by rewrite decide_False.
    + destruct (0 <? _); [|done]. rewrite dd_get_insert. by rewrite decide_False.
  - intros q sc' Hne. destruct (decide (q = pl)) as [->|Hq].
    + rewrite Hf. cbn [card_strips played_counts with_played_counts with_card_strips].
      unfold upd. rewrite !decide_False by tauto. done.
    + by rewrite (Hother q Hq).
Qed.

Lemma X8_on_toggle_flips_one_tile_witness :
  card_strips (frames shown_form North) Spades !! 0%nat
  = Some {| tile_text := "A"; tile_played := false; tile_bg := WHITE |}
  /\ ch_eqb "A" "X" = false
  /\ toggle_spec shown_form North Spades 0
       {| tile_text := "A"; tile_played := false; tile_bg := WHITE |}.
Proof.
  split; [by vm_compute|]. split; [reflexivity|].
  apply (X8_on_toggle_flips_one_tile shown_form North Spades 0); by vm_compute.
Defined.

(** X9: two clicks in a row on a tile of a rank other than "X" put its
    played mark and every played count back, provided the rank's count is
    not negative for a tile that starts unplayed and is positive for a tile
    that starts played. *)
Theorem X9_on_toggle_twice_restores (a : BridgeApp) (pl : player) (sc : suit)
    (i : nat) (l : tile) :
  card_strips (frames a pl) sc !! i = Some l ->
  ch_eqb (tile_text l) "X" = false ->
  (if tile_played l
   then 0 < dd_get (played_counts (frames a pl) sc) (tile_text l)
   else 0 <= dd_get (played_counts (frames a pl) sc) (tile_text l)) ->
  toggle_twice_spec a pl sc i l.
Proof.
  intros Hl Hx Hcount. unfold toggle_twice_spec. cbv zeta.
  destruct (on_toggle_frame a pl sc i l Hl Hx) as (_ & Hf1 & _).
  set (a1 := exec (on_toggle pl sc i) a) in *.
  set (l1 := {| tile_text := tile_text l; tile_played := negb (tile_played l);
                tile_bg := if negb (tile_played l) then GREEN else WHITE |}).
  assert (Hi : (i < length (card_strips (frames a pl) sc))%nat).
  { by apply lookup_lt_Some in Hl. }
  assert (Hl1 : card_strips (frames a1 pl) sc !! i = Some l1).
  { rewrite Hf1. cbn [card_strips with_played_counts with_card_strips].
    unfold upd. rewrite decide_True by done. by apply list_lookup_insert_eq. }
  destruct (on_toggle_frame a1 pl sc i l1 Hl1 Hx) as (_ & Hf2 & _).
  rewrite Hf2. cbn [card_strips played_counts with_played_counts with_card_strips].
  unfold upd. rewrite !decide_True by done. split.
  - rewrite list_lookup_insert_eq.
    + cbn [tile_text tile_played l1]. by rewrite negb_involutive.
    + rewrite Hf1. cbn [card_strips with_played_counts with_card_strips].
      unfold upd. rewrite decide_True by done. by rewrite length_insert.
  - intros r. rewrite Hf1.
    cbn [card_strips played_counts with_played_counts with_card_strips tile_text
         tile_played l1].
    unfold upd. rewrite !decide_True by done.
    destruct (tile_played l); cbn [negb].
    + assert ((0 <? dd_get (played_counts (frames a pl) sc) (tile_text l)) = true)
        as -> by (by apply Z.ltb_lt).
      rewrite !dd_get_insert.
      rewrite (decide_True (P := tile_text l = tile_text l)) by done.
      destruct (decide (r = tile_text l)) as [->|]; lia.
    + rewrite (dd_get_insert _ _ (tile_text l)).
      rewrite (decide_True (P := tile_text l = tile_text l)) by done.
      assert ((0 <? dd_get (played_counts (frames a pl) sc) (tile_text l) + 1) = true)
        as -> by (apply Z.ltb_lt; lia).
      rewrite !dd_get_insert.
      rewrite ?(decide_True (P := tile_text l = tile_text l)) by done.
      destruct (decide (r = tile_text l)) as [->|]; lia.
Qed.

Lemma X9_on_toggle_twice_restores_witness :
  card_strips (frames shown_form North) Spades !! 1%nat
  = Some {| tile_text := "K"; tile_played := true; tile_bg := GREEN |}
  /\ ch_eqb "K" "X" = false
  /\ 0 < dd_get (played_counts (frames shown_form North) Spades) "K"
  /\ toggle_twice_spec shown_form North Spades 1
       {| tile_text := "K"; tile_played := true; tile_bg := GREEN |}.
Proof.
  split; [by vm_compute|]. split; [reflexivity|]. split; [by vm_compute|].
  apply (X9_on_toggle_twice_restores shown_form North Spades 1); by vm_compute.
Defined.

(** *** What every callback keeps *)

Lemma preserves_bind {A B : Type} (I : BridgeApp -> Prop) (m : M A) (f : A -> M B) :
  preserves I m -> (forall x, preserves I (f x)) -> preserves I (m ≫= f).
Proof.
  intros Hm Hf a Ha. rewrite bind_state.
  destruct (result (m a)); [apply Hf|]; by apply Hm.
Qed.

Lemma preserves_ret {A : Type} (I : BridgeApp -> Prop) (x : A) : preserves I (mret x).
Proof. by intros a Ha. Qed.

Lemma preserves_get (I : BridgeApp -> Prop) : preserves I get.
Proof. by intros a Ha. Qed.

Lemma preserves_emit (I : BridgeApp -> Prop) (e : event) : preserves I (emit e).
Proof. by intros a Ha. Qed.


Lemma preserves_self (I : BridgeApp -> Prop) (pl : player) : preserves I (self pl).
Proof. by intros a Ha. Qed.

Lemma preserves_for_each {X : Type} (I : BridgeApp -> Prop) (l : list X)
    (body : X -> M unit) :
  (forall x, preserves I (body x)) -> preserves I (for_each l body).
Proof.
  intros Hb. induction l as [|x l IH]; simpl; [apply preserves_ret|].
  apply preserves_bind; [apply Hb|]. intros _. apply IH.
Qed.

Lemma preserves_mapM {X Y : Type} (I : BridgeApp -> Prop) (f : X -> M Y) (l : list X) :
  (forall x, preserves I (f x)) -> preserves I (M_mapM f l).
Proof.
  intros Hf. induction l as [|x l IH]; simpl; [apply preserves_ret|].
  apply preserves_bind; [apply Hf|]. intros y.
  apply preserves_bind; [apply IH|]. intros ys. apply preserves_ret.
Qed.

Lemma preserves_self_update (J : HandFrame -> Prop) (pl : player)
    (f : HandFrame -> HandFrame) :
  (forall hf, J hf -> J (f hf)) -> preserves (every_frame J) (self_update pl f).
Proof.
  intros Hf a Ha q. simpl. unfold upd.
  destruct (decide (q = pl)) as [->|]; [apply Hf|]; apply Ha.
Qed.

Lemma preserves_app_only (J : HandFrame -> Prop) (g : BridgeApp -> BridgeApp) :
  (forall a, frames (g a) = frames a) -> preserves (every_frame J) (modify g).
Proof. intros Hg a Ha q. simpl. rewrite Hg. apply Ha. Qed.

Lemma preserves_bind_lift {A B : Type} (I : BridgeApp -> Prop) (r : res A)
    (f : A -> M B) :
  (forall x, r = Ok x -> preserves I (f x)) -> preserves I (lift r ≫= f).
Proof.
  intros Hf a Ha. rewrite bind_state. simpl.
  destruct r as [x|e]; [|done]. by apply (Hf x).
Qed.

Lemma read_only_preserves {A : Type} (I : BridgeApp -> Prop) (m : M A) :
  read_only m -> preserves I m.
Proof. intros Hm a Ha. by rewrite Hm. Qed.

Lemma validate_all_read_only : read_only validate_all.
Proof.
  unfold validate_all. apply read_only_bind; [apply read_only_get|]. intros a.
  apply read_only_bind; [apply read_only_lift|]. intros msgs.
  destruct msgs; apply read_only_emit.
Qed.

Lemma normal_form_idem (s : str) : normal_form (normal_form s) = normal_form s.
Proof.
  rewrite (normal_form_core s), normal_form_core.
  rewrite rank_tokens_upper_fixed by apply rank_sort_all_ranks.
  apply rank_sort_idem.
Qed.

Section Callbacks.
Variable I : BridgeApp -> Prop.
Hypothesis I_summary : forall s, preserves I (modify (with_summary_var s)).
Hypothesis I_focus : forall v, preserves I (modify (with_focus v)).
Hypothesis I_plain : forall pl f, plain_update f -> preserves I (self_update pl f).
Hypothesis I_last : forall pl sc v, normal_form v = v ->
  preserves I (self_update pl (fun hf => with_last_cards (upd (last_cards hf) sc v) hf)).
Hypothesis I_mark : forall pl sc r,
  preserves I (self_update pl (fun hf =>
    with_played_counts
      (upd (played_counts hf) sc
         (<[r := dd_get (played_counts hf sc) r + 1]> (played_counts hf sc))) hf)).
Hypothesis I_clear : forall pl sc,
  preserves I (self_update pl (fun hf =>
    with_played_counts (upd (played_counts hf) sc ∅) hf)).
Hypothesis I_on_toggle : forall pl sc i, preserves I (on_toggle pl sc i).
Hypothesis I_tile : forall letter, preserves I (_toggle_table_letter letter).

Lemma keep_update_global_stats : preserves I update_global_stats.
Proof.
  unfold update_global_stats. apply preserves_bind; [apply preserves_get|].
  intros a. apply I_summary.
Qed.

Lemma keep_update_stats (pl : player) : preserves I (update_stats pl).
Proof.
  unfold update_stats. apply preserves_bind; [apply preserves_self|]. intros hf.
  destruct (fold_left _ SUITS _) as [total_hcp total_cards].
  apply preserves_bind; [by apply I_plain|]. intros _.
  apply preserves_bind; [by apply I_plain|]. intros _.
  apply keep_update_global_stats.
Qed.

Lemma keep_on_count_change (pl : player) (sc : suit) :
  preserves I (on_count_change pl sc).
Proof.
  unfold on_count_change. apply preserves_bind; [apply preserves_self|]. intros hf.
  destruct (Py.int _); [|apply preserves_ret].
  destruct (accepts_background hf); [|apply preserves_ret].
  by apply I_plain.
Qed.

Lemma keep_count_var_set (pl : player) (sc : suit) (v : str) :
  preserves I (count_var_set pl sc v).
Proof.
  unfold count_var_set. apply preserves_bind; [by apply I_plain|].
  intros _. apply keep_on_count_change.
Qed.

Lemma keep_card_var_set (pl : player) (sc : suit) (v : str) :
  preserves I (card_var_set pl sc v).
Proof. by apply I_plain. Qed.

Lemma keep_rebuild_card_strip (pl : player) (sc : suit) :
  preserves I (rebuild_card_strip pl sc).
Proof.
  unfold rebuild_card_strip. apply preserves_bind; [apply preserves_self|].
  intros hf. by apply I_plain.
Qed.

Lemma keep_on_cards_change (pl : player) (sc : suit) (evt : option str) :
  preserves I (on_cards_change pl sc evt).
Proof.
  unfold on_cards_change. apply preserves_bind; [apply preserves_self|]. intros hf.
  cbv zeta. apply preserves_bind_lift. intros new_norm Hnew.
  apply preserves_bind.
  { destruct (str_eqb _ _); [apply preserves_ret|apply keep_card_var_set]. }
  intros _. apply preserves_bind; [apply keep_count_var_set|].
  intros _. apply preserves_bind; [apply keep_update_stats|].
  intros _. apply preserves_bind_lift. intros old_norm Hold.
  apply preserves_bind.
  { destruct old_norm; [apply preserves_ret|].
    apply preserves_bind_lift. intros mark _.
    destruct mark; [apply I_mark|apply preserves_ret]. }
  intros _. apply preserves_bind.
  { apply I_last. rewrite normalize_cards_core, <- normal_form_core in Hnew.
    injection Hnew as <-. apply normal_form_idem. }
  intros _. apply preserves_bind; [apply keep_rebuild_card_strip|].
  intros _. destruct evt as [keysym|]; [|apply preserves_ret].
  destruct (_ || _); [|apply preserves_ret].
  apply preserves_bind; [apply I_focus|]. intros _. apply preserves_ret.
Qed.

Lemma keep_sort_all (pl : player) : preserves I (sort_all pl).
Proof.
  unfold sort_all. apply preserves_bind; [|intros _; apply keep_update_stats].
  apply preserves_for_each. intros sc.
  apply preserves_bind; [apply preserves_self|]. intros hf.
  apply preserves_bind_lift. intros norm Hnorm.
  apply preserves_bind; [apply keep_card_var_set|]. intros _.
  apply preserves_bind; [apply keep_count_var_set|]. intros _.
  apply preserves_bind; [|intros _; apply keep_rebuild_card_strip].
  apply I_last. rewrite normalize_cards_core, <- normal_form_core in Hnorm.
  injection Hnorm as <-. apply normal_form_idem.
Qed.

Lemma keep_clear_all (pl : player) : preserves I (clear_all pl).
Proof.
  unfold clear_all. apply preserves_bind; [by apply I_plain|]. intros _.
  apply preserves_bind; [|intros _; apply keep_update_stats].
  apply preserves_for_each. intros sc.
  apply preserves_bind; [apply keep_card_var_set|]. intros _.
  apply preserves_bind; [apply keep_count_var_set|]. intros _.
  apply preserves_bind; [by apply I_last|]. intros _.
  apply preserves_bind; [apply I_clear|]. intros _.
  apply keep_rebuild_card_strip.
Qed.

Lemma keep_perform_form (act : action) :
  match act with ClickTile _ => False | _ => True end ->
  preserves I (perform act).
Proof.
  intros Hact. destruct act; simpl in *;
    [ apply keep_card_var_set
    | apply keep_count_var_set
    | by apply I_plain
    | apply preserves_bind; [apply keep_on_cards_change|]; intros _; apply preserves_ret
    | apply I_on_toggle
    | apply keep_sort_all
    | apply keep_clear_all
    | apply preserves_for_each, keep_sort_all
    | apply preserves_for_each, keep_clear_all
    | apply read_only_preserves, validate_all_read_only
    | apply read_only_preserves, dump_state_read_only
    | destruct Hact ].
Qed.

Lemma keep_perform (act : action) : preserves I (perform act).
Proof.
  destruct act; try (by apply keep_perform_form). apply I_tile.
Qed.

Lemma keep_actions (acts : list action) (a : BridgeApp) :
  I a -> I (fold_left (fun a act => exec (perform act) a) acts a).
Proof.
  revert a. induction acts as [|act acts IH]; intros a Ha; [done|].
  simpl. apply IH. by apply keep_perform.
Qed.
End Callbacks.

Lemma on_toggle_idle_state (a : BridgeApp) (pl : player) (sc : suit) (i : nat) :
  match card_strips (frames a pl) sc !! i with
  | Some l => ch_eqb (tile_text l) "X" = true
  | None => True
  end ->
  state (on_toggle pl sc i a) = a.
Proof.
  intros H. unfold on_toggle, self, mbind, M_bind, get.
  cbn [result state emitted mret M_ret].
  destruct (card_strips (frames a pl) sc !! i) as [l|]; [|done].
  by rewrite H.
Qed.

Lemma dd_get_empty_nonneg (r : ascii) : 0 <= dd_get ∅ r.
Proof. by rewrite dd_get_empty. Qed.

Lemma frame_ok_plain (pl : player) (f : HandFrame -> HandFrame) :
  plain_update f -> preserves (every_frame frame_ok) (self_update pl f).
Proof.
  intros Hf. apply preserves_self_update. intros hf (H1 & H2 & H3).
  destruct (Hf hf) as (E1 & E2 & E3). unfold frame_ok. by rewrite E1, E2, E3.
Qed.

Lemma frame_ok_last (pl : player) (sc : suit) (v : str) :
  normal_form v = v ->
  preserves (every_frame frame_ok)
    (self_update pl (fun hf => with_last_cards (upd (last_cards hf) sc v) hf)).
Proof.
  intros Hv. apply preserves_self_update. intros hf (H1 & H2 & H3).
  split; [done|]. split; [done|]. intros sc'. simpl. unfold upd.
  destruct (decide (sc' = sc)); [done|apply H3].
Qed.

Lemma frame_ok_mark (pl : player) (sc : suit) (r : ascii) :
  preserves (every_frame frame_ok)
    (self_update pl (fun hf =>
       with_played_counts
         (upd (played_counts hf) sc
            (<[r := dd_get (played_counts hf sc) r + 1]> (played_counts hf sc))) hf)).
Proof.
  apply preserves_self_update. intros hf (H1 & H2 & H3).
  split; [done|]. split; [|done]. intros sc' r'. simpl. unfold upd.
  destruct (decide (sc' = sc)) as [->|]; [|apply H2].
  rewrite dd_get_insert. destruct (decide (r' = r)); [|apply H2].
  specialize (H2 sc r). lia.
Qed.

Lemma frame_ok_clear (pl : player) (sc : suit) :
  preserves (every_frame frame_ok)
    (self_update pl (fun hf =>
       with_played_counts (upd (played_counts hf) sc ∅) hf)).
Proof.
  apply preserves_self_update. intros hf (H1 & H2 & H3).
  split; [done|]. split; [|done]. intros sc' r'. simpl. unfold upd.
  destruct (decide (sc' = sc)); [|apply H2]. by rewrite dd_get_empty.
Qed.

Lemma frame_ok_on_toggle (pl : player) (sc : suit) (i : nat) :
  preserves (every_frame frame_ok) (on_toggle pl sc i).
Proof.
  intros a Ha.
  destruct (card_strips (frames a pl) sc !! i) as [l|] eqn:Hl.
  2:{ rewrite on_toggle_idle_state; [done|by rewrite Hl]. }
  destruct (ch_eqb (tile_text l) "X") eqn:Hx.
  { rewrite on_toggle_idle_state; [done|by rewrite Hl]. }
  destruct (on_toggle_frame a pl sc i l Hl Hx) as (_ & Hf & Hother).
  intros q. destruct (decide (q = pl)) as [->|Hq].
  2:{ unfold exec in Hother. rewrite (Hother q Hq). apply Ha. }
  unfold exec in Hf. rewrite Hf. destruct (Ha pl) as (H1 & H2 & H3).
  split; [done|]. split; [|done]. intros sc' r'.
  cbn [played_counts with_played_counts with_card_strips]. unfold upd.
  destruct (decide (sc' = sc)) as [->|]; [|apply H2].
  pose proof (H2 sc (tile_text l)) as Hr.
  destruct (negb (tile_played l)).
  - rewrite dd_get_insert. destruct (decide _); [lia|apply H2].
  - destruct (0 <? _) eqn:Hpos; [|apply H2].
    apply Z.ltb_lt in Hpos.
    rewrite dd_get_insert. destruct (decide _); [lia|apply H2].
Qed.

Lemma frame_ok_tile (letter : player) :
  preserves (every_frame frame_ok) (_toggle_table_letter letter).
Proof.
  intros a Ha q. destruct (toggle_outcome letter a) as (_ & _ & _ & _ & Hf & _).
  unfold exec in Hf. rewrite Hf. apply Ha.
Qed.

Lemma init_frames (theme_bg : bool) :
  frames (BridgeApp_init theme_bg) = fun _ => new_HandFrame theme_bg.
Proof. reflexivity. Qed.

Lemma init_frames_ok (theme_bg : bool) : every_frame frame_ok (BridgeApp_init theme_bg).
Proof.
  intros pl. rewrite init_frames. split; [done|]. split.
  - intros sc r. apply dd_get_empty_nonneg.
  - intros sc. by vm_compute.
Qed.

Lemma session_frames_ok (theme_bg : bool) (acts : list action) :
  every_frame frame_ok (session theme_bg acts).
Proof.
  unfold session. apply keep_actions; [..|apply init_frames_ok].
  - intros s. by apply preserves_app_only.
  - intros v. by apply preserves_app_only.
  - apply frame_ok_plain.
  - apply frame_ok_last.
  - apply frame_ok_mark.
  - apply frame_ok_clear.
  - apply frame_ok_on_toggle.
  - apply frame_ok_tile.
Qed.

(** X10: whatever the user does, no played count is ever negative. *)
Theorem X10_played_counts_never_negative (theme_bg : bool) (acts : list action)
    (pl : player) (sc : suit) (r : ascii) :
  0 <= dd_get (played_counts (frames (session theme_bg acts) pl) sc) r.
Proof.
  destruct (session_frames_ok theme_bg acts pl) as (_ & H & _). apply H.
Qed.

Lemma bind_raise {A B : Type} (m : M A) (f : A -> M B) (a : BridgeApp) (e : exn) :
  result (m a) = Raise e ->
  result ((m ≫= f) a) = Raise e /\ emitted ((m ≫= f) a) = emitted (m a).
Proof. intros H. unfold mbind, M_bind. by rewrite H. Qed.

Lemma get_state_raises (a : BridgeApp) (pl : player) :
  player_label (frames a pl) = None ->
  result (get_state pl a)
  = Raise (AttributeError "'HandFrame' object has no attribute 'player_label'")
  /\ emitted (get_state pl a) = [].
Proof.
  intros Hlabel. unfold get_state, get_player_label, self, get, lift, mbind, M_bind.
  cbn [result state emitted mret M_ret]. by rewrite Hlabel.
Qed.

Lemma dump_state_raises (a : BridgeApp) :
  player_label (frames a North) = None ->
  result (dump_state a)
  = Raise (AttributeError "'HandFrame' object has no attribute 'player_label'")
  /\ emitted (dump_state a) = [].
Proof.
  intros Hlabel. destruct (get_state_raises a North Hlabel) as [Hr He].
  unfold dump_state.
  set (snap := fun pl => s ← get_state pl; mret (pl, s)).
  assert (H1 : result (snap North a)
               = Raise (AttributeError "'HandFrame' object has no attribute 'player_label'")
               /\ emitted (snap North a) = []).
  { destruct (bind_raise (get_state North) (fun s => mret (North, s)) a _ Hr) as [H H'].
    split; [exact H|]. by rewrite <- He. }
  destruct H1 as [H1 H1'].
  assert (H2 : result (M_mapM snap [North; East; South; West] a)
               = Raise (AttributeError "'HandFrame' object has no attribute 'player_label'")
               /\ emitted (M_mapM snap [North; East; South; West] a) = []).
  { cbn [M_mapM].
    destruct (bind_raise (snap North)
                (fun y => ys ← M_mapM snap [East; South; West]; mret (y :: ys))
                a _ H1) as [H H'].
    split; [exact H|]. by rewrite <- H1'. }
  destruct H2 as [H2 H2'].
  destruct (bind_raise (M_mapM snap [North; East; South; West])
              (fun st => emit (print_json st);;
                         emit (showinfo (lit "Dumped")
                                 (lit "Current state printed to console.")))
              a _ H2) as [H H'].
  split; [exact H|]. by rewrite <- H2'.
Qed.

(** X11: no callback ever sets the attribute [player_label] that [get_state]
    reads, so Dump State raises AttributeError in every state the form can
    reach: nothing is printed and no pop-up is shown. *)
Theorem X11_dump_state_always_raises (theme_bg : bool) (acts : list action) :
  result (dump_state (session theme_bg acts))
  = Raise (AttributeError "'HandFrame' object has no attribute 'player_label'")
  /\ emitted (dump_state (session theme_bg acts)) = []
  /\ state (dump_state (session theme_bg acts)) = session theme_bg acts.
Proof.
  destruct (session_frames_ok theme_bg acts North) as (Hlabel & _).
  destruct (dump_state_raises _ Hlabel) as [Hr He].
  split; [done|]. split; [done|]. apply dump_state_read_only.
Qed.

(** X12: the card string remembered for a suit is always in normal form:
    normalizing it again, as [on_cards_change] does, gives it back. *)
Theorem X12_last_cards_stay_normalized (theme_bg : bool) (acts : list action)
    (pl : player) (sc : suit) :
  let old := last_cards (frames (session theme_bg acts) pl) sc in
  normalize_cards (Some old) = Ok old.
Proof.
  intros old.
  destruct (session_frames_ok theme_bg acts pl) as (_ & _ & H).
  rewrite normalize_cards_core, <- normal_form_core. f_equal. apply H.
Qed.

(** *** The table tiles over a whole session *)

Lemma table_is_self_update (c fl : player -> str) (pl : player)
    (f : HandFrame -> HandFrame) :
  preserves (table_is c fl) (self_update pl f).
Proof. by intros a Ha. Qed.

Lemma table_is_on_toggle (c fl : player -> str) (pl : player) (sc : suit) (i : nat) :
  preserves (table_is c fl) (on_toggle pl sc i).
Proof.
  unfold on_toggle. apply preserves_bind; [apply preserves_self|]. intros hf.
  destruct (card_strips hf sc !! i) as [l|]; [|apply preserves_ret].
  destruct (ch_eqb (tile_text l) "X"); [apply preserves_ret|].
  apply table_is_self_update.
Qed.

Lemma table_is_form_action (c fl : player -> str) (act : action) :
  match act with ClickTile _ => False | _ => True end ->
  preserves (table_is c fl) (perform act).
Proof.
  apply keep_perform_form.
  - by intros s a Ha.
  - by intros v a Ha.
  - intros pl f _. apply table_is_self_update.
  - intros pl sc v _. apply table_is_self_update.
  - intros pl sc r. apply table_is_self_update.
  - intros pl sc. apply table_is_self_update.
  - apply table_is_on_toggle.
Qed.

Lemma flip_color_after (n : nat) : flip_color (color_after n) = color_after (S n).
Proof.
  unfold color_after. rewrite Nat.even_succ, <- Nat.negb_even.
  by destruct (Nat.even n).
Qed.

Lemma in_pair_same (L P letter : player) :
  in_pair L P = true -> in_pair letter L = in_pair letter P.
Proof. destruct L, P, letter; by vm_compute. Qed.

Lemma in_pair_refl (L : player) : in_pair L L = true.
Proof. by destruct L. Qed.

Lemma pair_clicks_same (L P : player) (acts : list action) :
  in_pair L P = true -> pair_clicks L acts = pair_clicks P acts.
Proof.
  intros H. unfold pair_clicks. induction acts as [|act acts IH]; [done|].
  cbn [List.filter]. destruct act; try apply IH.
  rewrite (in_pair_same L P letter H).
  destruct (in_pair letter P); cbn [length]; by rewrite ?IH.
Qed.

Lemma pair_clicks_snoc (P : player) (pre : list action) (act : action) :
  pair_clicks P (pre ++ [act])
  = (pair_clicks P pre
     + match act with
       | ClickTile letter => if in_pair letter P then 1 else 0
       | _ => 0
       end)%nat.
Proof.
  unfold pair_clicks. rewrite List.filter_app, length_app. f_equal.
  destruct act; try done. simpl. by destruct (in_pair letter P).
Qed.

Lemma table_after_actions (acts pre : list action) (a : BridgeApp) :
  (forall P, table_colors a P = color_after (pair_clicks P pre)
             /\ table_fill a P = color_after (pair_clicks P pre)) ->
  forall P,
    let a' := fold_left (fun a act => exec (perform act) a) acts a in
    table_colors a' P = color_after (pair_clicks P (pre ++ acts))
    /\ table_fill a' P = color_after (pair_clicks P (pre ++ acts)).
Proof.
  revert pre a. induction acts as [|act acts IH]; intros pre a Ha P.
  { cbv zeta. simpl. rewrite app_nil_r. apply Ha. }
  cbv zeta. cbn [fold_left].
  replace (pre ++ act :: acts) with ((pre ++ [act]) ++ acts)
    by (by rewrite <- app_assoc).
  apply IH. clear P. intros P. rewrite pair_clicks_snoc.
  destruct act as [| | | | | | | | | | |letter];
    try (rewrite Nat.add_0_r;
         match goal with
         | |- context [perform ?act] =>
             destruct (table_is_form_action (table_colors a) (table_fill a) act I a
                         (conj eq_refl eq_refl)) as [Hc Hf]
         end;
         unfold exec; rewrite Hc, Hf; apply Ha).
  destruct (toggle_outcome letter a) as (_ & _ & Hc & Hf & _).
  cbn [perform]. rewrite Hc, Hf.
  destruct (in_pair letter P) eqn:Hin.
  - destruct (Ha letter) as [-> _]. rewrite flip_color_after.
    rewrite (pair_clicks_same letter P pre Hin).
    by rewrite Nat.add_1_r.
  - rewrite Nat.add_0_r. apply Ha.
Qed.

(** X13: over a whole session the color of a table tile depends only on how
    often the tiles of its pair were clicked: green after an even number of
    clicks on the pair, red after an odd number, whatever else was done; the
    canvas shows the same color. *)
Theorem X13_table_color_is_click_parity (theme_bg : bool) (acts : list action)
    (P : player) :
  table_colors (session theme_bg acts) P = color_after (pair_clicks P acts)
  /\ table_fill (session theme_bg acts) P = color_after (pair_clicks P acts).
Proof.
  unfold session.
  apply (table_after_actions acts [] (BridgeApp_init theme_bg)).
  intros Q. split; reflexivity.
Qed.

(** *** Callbacks of one hand as functions on its frame *)

Lemma upd_same {K V : Type} `{EqDecision K} (f : K -> V) (k : K) (v : V) :
  upd f k v k = v.
Proof. unfold upd. by rewrite decide_True. Qed.

Lemma upd_other {K V : Type} `{EqDecision K} (f : K -> V) (k k' : K) (v : V) :
  k' <> k -> upd f k v k' = f k'.
Proof. intros H. unfold upd. by rewrite decide_False. Qed.

Lemma step_then {A B : Type} (pl : player) (m : M A) (f : A -> M B)
    (a : BridgeApp) (x : A) (y : B) (hf1 hf2 : HandFrame)
    (fo1 fo2 : option (player * suit)) :
  hand_step pl m a x hf1 fo1 ->
  (forall a1, frames a1 pl = hf1 -> focus a1 = fo1 ->
              hand_step pl (f x) a1 y hf2 fo2) ->
  hand_step pl (m ≫= f) a y hf2 fo2.
Proof.
  intros (Hr & Hf & Ho & Hfo & Htc & Htf) Hnext.
  destruct (Hnext _ Hf Hfo) as (Hr' & Hf' & Ho' & Hfo' & Htc' & Htf').
  unfold hand_step, mbind, M_bind. rewrite Hr. cbn [result state].
  split; [done|]. split; [done|]. split; [|split; [|split]].
  - intros q Hq. by rewrite Ho', Ho.
  - done.
  - by rewrite Htc'.
  - by rewrite Htf'.
Qed.

Section Steps.
Context (pl : player) (a : BridgeApp) (hf : HandFrame) (fo : option (player * suit)).
Hypothesis Hframe : frames a pl = hf.
Hypothesis Hfocus : focus a = fo.

Lemma step_ret {A : Type} (x : A) : hand_step pl (mret x) a x hf fo.
Proof. by repeat split. Qed.

Lemma step_lift_ok {A : Type} (x : A) : hand_step pl (lift (Ok x)) a x hf fo.
Proof. by repeat split. Qed.

Lemma step_self : hand_step pl (self pl) a hf hf fo.
Proof. unfold hand_step. rewrite <- Hframe. by repeat split. Qed.

Lemma step_self_update (f : HandFrame -> HandFrame) :
  hand_step pl (self_update pl f) a tt (f hf) fo.
Proof.
  rewrite <- Hframe. split; [done|]. split; [apply upd_same|].
  split; [|by repeat split]. intros q Hq. by apply upd_other.
Qed.

Lemma step_update_global_stats : hand_step pl update_global_stats a tt hf fo.
Proof. unfold hand_step. rewrite update_global_stats_outcome. by repeat split. Qed.

Lemma step_focus_next_suit (sc : suit) :
  hand_step pl (focus_next_suit pl sc) a tt hf (Some (pl, next_suit sc)).
Proof. by repeat split. Qed.
End Steps.

Ltac step_with lem :=
  eapply step_then; [apply lem; eassumption | intros ? ? ?].

Ltac step_update :=
  match goal with
  | |- hand_step ?pl (self_update _ ?F) ?a _ _ _ =>
      exact (step_self_update pl a _ _ ltac:(eassumption) ltac:(eassumption) F)
  end.

Section MoreSteps.
Context (pl : player) (a : BridgeApp) (hf : HandFrame) (fo : option (player * suit)).
Hypothesis Hframe : frames a pl = hf.
Hypothesis Hfocus : focus a = fo.

Lemma step_update_stats : hand_step pl (update_stats pl) a tt (frame_stats hf) fo.
Proof.
  unfold update_stats. step_with step_self.
  unfold SUITS. cbn [fold_left].
  step_with step_self_update. step_with step_self_update.
  by apply step_update_global_stats.
Qed.

Lemma step_on_count_change (sc : suit) :
  hand_step pl (on_count_change pl sc) a tt (frame_count_changed sc hf) fo.
Proof.
  unfold on_count_change, frame_count_changed. step_with step_self.
  destruct (Py.int _); [|by apply step_ret].
  destruct (accepts_background hf); [|by apply step_ret].
  step_update.
Qed.

Lemma step_card_var_set (sc : suit) (v : str) :
  hand_step pl (card_var_set pl sc v) a tt
    (with_suit_card_vars (upd (suit_card_vars hf) sc v) hf) fo.
Proof. unfold card_var_set. step_update. Qed.

Lemma step_rebuild_card_strip (sc : suit) :
  hand_step pl (rebuild_card_strip pl sc) a tt (frame_rebuild sc hf) fo.
Proof.
  unfold rebuild_card_strip, frame_rebuild. step_with step_self. step_update.
Qed.
End MoreSteps.

Lemma step_count_var_set (pl : player) (sc : suit) (v : str) (a : BridgeApp)
    (hf : HandFrame) (fo : option (player * suit)) :
  frames a pl = hf -> focus a = fo ->
  hand_step pl (count_var_set pl sc v) a tt (frame_count_set sc v hf) fo.
Proof.
  intros E F. unfold count_var_set, frame_count_set. step_with step_self_update.
  by apply step_on_count_change.
Qed.

Lemma step_on_cards_change (a : BridgeApp) (pl : player) (sc : suit) (evt : option str) :
  hand_step pl (on_cards_change pl sc evt) a
    (if is_jump_key evt then Some (lit "break") else None)
    (frame_cards_changed sc (frames a pl))
    (if is_jump_key evt then Some (pl, next_suit sc) else focus a).
Proof.
  assert (E : frames a pl = frames a pl) by done.
  assert (F : focus a = focus a) by done.
  revert E F. generalize (frames a pl) at 2 3 as hf0.
  generalize (focus a) at 2 3 as fo. intros fo hf0 E F.
  unfold on_cards_change, frame_cards_changed. step_with step_self. cbv zeta.
  rewrite !normalize_cards_core, <- !normal_form_core.
  step_with @step_lift_ok.
  eapply step_then.
  { instantiate (2 := if str_eqb (normal_form (suit_card_vars hf0 sc))
                           (Py.upper (suit_card_vars hf0 sc))
                      then hf0
                      else with_suit_card_vars
                             (upd (suit_card_vars hf0) sc
                                (normal_form (suit_card_vars hf0 sc))) hf0).
    destruct (str_eqb _ _); [by apply step_ret|by apply step_card_var_set]. }
  intros ? ? ?. step_with step_count_var_set. step_with step_update_stats.
  step_with @step_lift_ok.
  eapply step_then.
  { instantiate (2 := frame_marked sc
       (inferred_mark (normal_form (last_cards hf0 sc))
          (normal_form (suit_card_vars hf0 sc))) _).
    unfold inferred_mark.
    destruct (normal_form (last_cards hf0 sc)) as [|c rest] eqn:Hold;
      [by apply step_ret|].
    destruct (auto_mark_total (c :: rest) (normal_form (suit_card_vars hf0 sc)))
      as [mark ->].
    step_with @step_lift_ok.
    destruct mark as [r|]; [|by apply step_ret].
    unfold frame_marked. step_update. }
  intros ? ? ?. step_with step_self_update. step_with step_rebuild_card_strip.
  destruct evt as [keysym|]; cbn [is_jump_key]; [|by apply step_ret].
  destruct (_ || _); [|by apply step_ret].
  step_with step_focus_next_suit. by apply step_ret.
Qed.

Lemma frame_count_changed_fields (sc : suit) (hf : HandFrame) :
  same_but_background hf (frame_count_changed sc hf).
Proof.
  unfold frame_count_changed. destruct (Py.int _); [|by repeat split].
  destruct (accepts_background hf) eqn:E; by repeat split.
Qed.

Lemma frame_count_set_fields (sc : suit) (v : str) (hf : HandFrame) :
  player_label (frame_count_set sc v hf) = player_label hf
  /\ last_cards (frame_count_set sc v hf) = last_cards hf
  /\ played_counts (frame_count_set sc v hf) = played_counts hf
  /\ card_strips (frame_count_set sc v hf) = card_strips hf
  /\ points_min (frame_count_set sc v hf) = points_min hf
  /\ points_max (frame_count_set sc v hf) = points_max hf
  /\ hcp_var (frame_count_set sc v hf) = hcp_var hf
  /\ cards_total_var (frame_count_set sc v hf) = cards_total_var hf
  /\ suit_count_vars (frame_count_set sc v hf) = upd (suit_count_vars hf) sc v
  /\ suit_card_vars (frame_count_set sc v hf) = suit_card_vars hf.
Proof.
  unfold frame_count_set.
  destruct (frame_count_changed_fields sc
              (with_suit_count_vars (upd (suit_count_vars hf) sc v) hf))
    as (H1 & H2 & H3 & H4 & H5 & H6 & H7 & H8 & H9 & H10 & _).
  by rewrite H1, H2, H3, H4, H5, H6, H7, H8, H9, H10.
Qed.

Lemma frame_marked_fields (sc : suit) (mark : option ascii) (hf : HandFrame) :
  last_cards (frame_marked sc mark hf) = last_cards hf
  /\ card_strips (frame_marked sc mark hf) = card_strips hf
  /\ hcp_var (frame_marked sc mark hf) = hcp_var hf
  /\ cards_total_var (frame_marked sc mark hf) = cards_total_var hf
  /\ suit_count_vars (frame_marked sc mark hf) = suit_count_vars hf
  /\ suit_card_vars (frame_marked sc mark hf) = suit_card_vars hf
  /\ (forall sc', sc' <> sc ->
        played_counts (frame_marked sc mark hf) sc' = played_counts hf sc').
Proof.
  destruct mark; simpl; repeat split; try done.
  intros sc' Hne. by apply upd_other.
Qed.

Lemma frame_totals_ext (hf hf' : HandFrame) :
  suit_card_vars hf' = suit_card_vars hf ->
  frame_hcp hf' = frame_hcp hf /\ frame_cards hf' = frame_cards hf.
Proof. intros H. unfold frame_hcp, frame_cards. by rewrite H. Qed.

(** The fields of the frame [on_cards_change] leaves. *)
Lemma frame_cards_changed_fields (sc : suit) (hf0 : HandFrame) :
  let hf := frame_cards_changed sc hf0 in
  let nf := normal_form (suit_card_vars hf0 sc) in
  last_cards hf = upd (last_cards hf0) sc nf
  /\ suit_count_vars hf = upd (suit_count_vars hf0) sc (Py.str_of_int (len nf))
  /\ suit_card_vars hf sc = cards_kept (suit_card_vars hf0 sc)
  /\ (forall sc', sc' <> sc -> suit_card_vars hf sc' = suit_card_vars hf0 sc')
  /\ card_strips hf
     = upd (card_strips hf0) sc
         (build_strip (played_counts hf sc) ∅ (cards_kept (suit_card_vars hf0 sc)))
  /\ hcp_var hf = Py.str_of_int (frame_hcp hf)
  /\ cards_total_var hf = Py.str_of_int (frame_cards hf)
  /\ played_counts hf
     = played_counts
         (frame_marked sc
            (inferred_mark (normal_form (last_cards hf0 sc)) nf) hf0).
Proof.
  cbv zeta. unfold frame_cards_changed, cards_kept.
  set (nf := normal_form (suit_card_vars hf0 sc)).
  set (hf1 := if str_eqb nf (Py.upper (suit_card_vars hf0 sc)) then hf0
              else with_suit_card_vars (upd (suit_card_vars hf0) sc nf) hf0).
  set (mark := inferred_mark (normal_form (last_cards hf0 sc)) nf).
  set (hfc := frame_count_set sc (Py.str_of_int (len nf)) hf1).
  set (hf3 := frame_marked sc mark (frame_stats hfc)).
  set (hf := frame_rebuild sc (with_last_cards (upd (last_cards hf3) sc nf) hf3)).
  destruct (frame_count_set_fields sc (Py.str_of_int (len nf)) hf1)
    as (C1 & C2 & C3 & C4 & C5 & C6 & C7 & C8 & C9 & C10).
  fold hfc in C1, C2, C3, C4, C5, C6, C7, C8, C9, C10.
  destruct (frame_marked_fields sc mark (frame_stats hfc))
    as (M1 & M2 & M3 & M4 & M5 & M6 & M7).
  fold hf3 in M1, M2, M3, M4, M5, M6, M7.
  assert (H1 : last_cards hf1 = last_cards hf0
               /\ suit_count_vars hf1 = suit_count_vars hf0
               /\ card_strips hf1 = card_strips hf0
               /\ played_counts hf1 = played_counts hf0).
  { unfold hf1. by destruct (str_eqb _ _). }
  destruct H1 as (L1 & L2 & L3 & L4).
  assert (Hkept : suit_card_vars hf1 sc
                  = if str_eqb nf (Py.upper (suit_card_vars hf0 sc))
                    then suit_card_vars hf0 sc else nf).
  { unfold hf1. destruct (str_eqb _ _); [done|]. simpl. apply upd_same. }
  assert (Hleft : forall sc', sc' <> sc -> suit_card_vars hf1 sc' = suit_card_vars hf0 sc').
  { intros sc' Hne. unfold hf1. destruct (str_eqb _ _); [done|]. simpl.
    by apply upd_other. }
  assert (Hcards : suit_card_vars hf = suit_card_vars hf1).
  { unfold hf. cbn [frame_rebuild suit_card_vars with_card_strips with_last_cards].
    rewrite M6. cbn [frame_stats suit_card_vars with_cards_total_var with_hcp_var].
    exact C10. }
  assert (Hplayed : played_counts hf = played_counts hf3).
  { reflexivity. }
  destruct (frame_totals_ext hfc hf) as [Hh Hc]; [by rewrite Hcards, C10|].
  split; [|split; [|split; [|split; [|split; [|split; [|split]]]]]].
  - unfold hf. cbn [frame_rebuild last_cards with_card_strips with_last_cards].
    rewrite M1. cbn [frame_stats last_cards with_cards_total_var with_hcp_var].
    by rewrite C2, L1.
  - unfold hf. cbn [frame_rebuild suit_count_vars with_card_strips with_last_cards].
    rewrite M5. cbn [frame_stats suit_count_vars with_cards_total_var with_hcp_var].
    by rewrite C9, L2.
  - by rewrite Hcards, Hkept.
  - intros sc' Hne. rewrite Hcards. by apply Hleft.
  - unfold hf at 1. cbn [frame_rebuild card_strips with_card_strips with_last_cards
                         played_counts suit_card_vars].
    rewrite M2, M6.
    cbn [frame_stats card_strips suit_card_vars with_cards_total_var with_hcp_var].
    rewrite C4, C10, L3, Hkept. reflexivity.
  - unfold hf at 1. cbn [frame_rebuild hcp_var with_card_strips with_last_cards].
    rewrite M3. cbn [frame_stats hcp_var with_cards_total_var with_hcp_var].
    by rewrite Hh.
  - unfold hf at 1. cbn [frame_rebuild cards_total_var with_card_strips with_last_cards].
    rewrite M4. cbn [frame_stats cards_total_var with_cards_total_var with_hcp_var].
    by rewrite Hc.
  - rewrite Hplayed. unfold hf3, frame_marked.
    destruct mark; cbn [played_counts with_played_counts frame_stats
                        with_cards_total_var with_hcp_var]; by rewrite C3, L4.
Qed.

Lemma upper_ranks (l : str) : forallb in_ranks l = true -> Py.upper l = l.
Proof.
  unfold Py.upper. induction l as [|c l IH]; [done|]. simpl.
  intros [Hc Hl]%andb_true_iff. rewrite (IH Hl). f_equal.
  revert Hc. each_char c; vm_compute; congruence.
Qed.

Lemma normal_form_all_ranks (s : str) : forallb in_ranks (normal_form s) = true.
Proof. rewrite normal_form_core. apply rank_sort_all_ranks. Qed.

Lemma upper_cards_kept (shown : str) :
  Py.upper (cards_kept shown) = normal_form shown.
Proof.
  unfold cards_kept, str_eqb. destruct (bool_decide _) eqn:E.
  - by apply bool_decide_eq_true in E.
  - apply upper_ranks, normal_form_all_ranks.
Qed.

Lemma normal_form_upper (s : str) : normal_form (Py.upper s) = normal_form s.
Proof.
  rewrite !normal_form_core. f_equal. f_equal.
  unfold Py.upper. rewrite map_map. apply map_ext.
  intros c. each_char c; reflexivity.
Qed.

Lemma normal_form_cards_kept (shown : str) :
  normal_form (cards_kept shown) = normal_form shown.
Proof.
  rewrite <- (normal_form_upper (cards_kept shown)), upper_cards_kept.
  apply normal_form_idem.
Qed.

Lemma inferred_mark_same (s : str) : inferred_mark s s = None.
Proof.
  unfold inferred_mark. destruct s as [|c s]; [done|].
  rewrite auto_mark_unfold. by rewrite Z.sub_diag.
Qed.

Lemma exec_hand_step {A : Type} (pl : player) (m : M A) (a : BridgeApp) (x : A)
    (hf : HandFrame) (fo : option (player * suit)) :
  hand_step pl m a x hf fo ->
  result (m a) = Ok x
  /\ frames (exec m a) pl = hf
  /\ (forall q, q <> pl -> frames (exec m a) q = frames a q)
  /\ focus (exec m a) = fo.
Proof. intros (H1 & H2 & H3 & H4 & _). by repeat split. Qed.



(** X16: a call of [on_cards_change] right after another, with nothing typed
    in between, as when Return moves the focus and the entry then reports
    FocusOut, marks no card and changes no string of the panel. *)
Theorem X16_on_cards_change_again_changes_nothing (a : BridgeApp) (pl : player)
    (sc : suit) (evt evt' : option str) (sc' : suit) :
  let a1 := exec (on_cards_change pl sc evt) a in
  let a2 := exec (on_cards_change pl sc evt') a1 in
  played_counts (frames a2 pl) sc' = played_counts (frames a1 pl) sc'
  /\ suit_card_vars (frames a2 pl) sc' = suit_card_vars (frames a1 pl) sc'
  /\ suit_count_vars (frames a2 pl) sc' = suit_count_vars (frames a1 pl) sc'
  /\ last_cards (frames a2 pl) sc' = last_cards (frames a1 pl) sc'
  /\ card_strips (frames a2 pl) sc' = card_strips (frames a1 pl) sc'
  /\ hcp_var (frames a2 pl) = hcp_var (frames a1 pl)
  /\ cards_total_var (frames a2 pl) = cards_total_var (frames a1 pl).
Proof.
  cbv zeta.
  destruct (exec_hand_step _ _ _ _ _ _ (step_on_cards_change a pl sc evt))
    as (_ & Hf1 & _).
  set (a1 := exec (on_cards_change pl sc evt) a) in *.
  destruct (exec_hand_step _ _ _ _ _ _ (step_on_cards_change a1 pl sc evt'))
    as (_ & Hf2 & _).
  rewrite Hf2.
  destruct (frame_cards_changed_fields sc (frames a pl))
    as (F1 & F2 & F3 & F4 & F5 & F6 & F7 & F8).
  cbv zeta in F1, F2, F3, F4, F5, F6, F7, F8. rewrite <- Hf1 in F1, F2, F3, F4, F5, F6, F7, F8.
  destruct (frame_cards_changed_fields sc (frames a1 pl))
    as (G1 & G2 & G3 & G4 & G5 & G6 & G7 & G8).
  cbv zeta in G1, G2, G3, G4, G5, G6, G7, G8.
  set (hf1 := frames a1 pl) in *. set (hf2 := frame_cards_changed sc hf1) in *.
  assert (Hnf : normal_form (suit_card_vars hf1 sc)
                = normal_form (suit_card_vars (frames a pl) sc)).
  { by rewrite F3, normal_form_cards_kept. }
  assert (Hlast : last_cards hf1 sc = normal_form (suit_card_vars (frames a pl) sc)).
  { by rewrite F1, upd_same. }
  assert (Hkept : cards_kept (suit_card_vars hf1 sc) = suit_card_vars hf1 sc).
  { unfold cards_kept. rewrite Hnf, F3, upper_cards_kept.
    unfold str_eqb. by rewrite bool_decide_true. }
  assert (Hplayed : played_counts hf2 = played_counts hf1).
  { rewrite G8, Hlast, Hnf, normal_form_idem, inferred_mark_same. done. }
  assert (Hcard : forall s, suit_card_vars hf2 s = suit_card_vars hf1 s).
  { intros s. destruct (decide (s = sc)) as [->|Hne]; [by rewrite G3|by apply G4]. }
  split; [by rewrite Hplayed|]. split; [apply Hcard|].
  split; [|split; [|split; [|split]]].
  - rewrite G2, Hnf. unfold upd. destruct (decide _) as [->|]; [|done].
    by rewrite F2, upd_same.
  - rewrite G1, Hnf. unfold upd. destruct (decide _) as [->|]; [|done]. done.
  - rewrite G5, Hkept, Hplayed. unfold upd. destruct (decide _) as [->|]; [|done].
    rewrite F5, upd_same. by rewrite F3.
  - rewrite G6, F6. f_equal. unfold frame_hcp. by rewrite !Hcard.
  - rewrite G7, F7. f_equal. unfold frame_cards. by rewrite !Hcard.
Qed.

(** X17: while nothing is remembered for a suit, as for the first text typed
    into its entry, [on_cards_change] marks no card: every played count stays
    as it was. *)
Theorem X17_on_cards_change_first_entry_marks_nothing (a : BridgeApp)
    (pl : player) (sc : suit) (evt : option str) (q : player) (sc' : suit) :
  normal_form (last_cards (frames a pl) sc) = [] ->
  played_counts (frames (exec (on_cards_change pl sc evt) a) q) sc'
  = played_counts (frames a q) sc'.
Proof.
  intros Hold.
  destruct (exec_hand_step _ _ _ _ _ _ (step_on_cards_change a pl sc evt))
    as (_ & Hf & Hother & _).
  destruct (decide (q = pl)) as [->|Hne]; [|by rewrite Hother].
  rewrite Hf.
  destruct (frame_cards_changed_fields sc (frames a pl)) as (_ & _ & _ & _ & _ & _ & _ & F8).
  cbv zeta in F8. by rewrite F8, Hold.
Qed.

Lemma X17_on_cards_change_first_entry_marks_nothing_witness :
  normal_form (last_cards (frames (BridgeApp_init true) North) Spades) = []
  /\ played_counts
       (frames (exec (on_cards_change North Spades None) (BridgeApp_init true)) North)
       Spades
     = played_counts (frames (BridgeApp_init true) North) Spades.
Proof.
  split; [by vm_compute|].
  apply (X17_on_cards_change_first_entry_marks_nothing
           (BridgeApp_init true) North Spades None North Spades).
  by vm_compute.
Defined.

(** *** Counts written by the program pass validation *)

Lemma plain_digit_isdigit (s : str) :
  s <> [] -> forallb plain_digit s = true -> Py.isdigit s = true.
Proof.
  intros Hne Hs. unfold Py.isdigit. destruct s as [|c s]; [done|].
  apply forallb_forall. intros x Hx. rewrite forallb_forall in Hs.
  specialize (Hs x Hx). unfold plain_digit in Hs.
  by apply andb_true_iff in Hs as [Hs _].
Qed.

Lemma plain_digit_nonspace (c : ascii) : plain_digit c = true -> Py.isspace c = false.
Proof. each_char c; vm_compute; congruence. Qed.

Lemma plain_digits_strip (s : str) : forallb plain_digit s = true -> Py.strip s = s.
Proof.
  intros Hs. apply (strip_nonspace Py.isspace).
  apply forallb_forall. intros c Hc. rewrite forallb_forall in Hs.
  by rewrite (plain_digit_nonspace c (Hs c Hc)).
Qed.

Lemma str_of_int_digits (n : Z) :
  0 <= n ->
  Py.str_of_int n <> []
  /\ forallb plain_digit (Py.str_of_int n) = true
  /\ decimal_value (Py.str_of_int n) = n.
Proof.
  intros Hn. destruct n as [|p|p]; [by vm_compute| |lia].
  unfold Py.str_of_int. simpl Z.to_int. unfold NilZero.string_of_int.
  rewrite nilzero_pos. split; [apply pos_chars_nonempty|].
  split; [apply uint_chars_plain|apply pos_chars_value].
Qed.

Lemma rank_upper_nonspace (c : ascii) :
  in_ranks (Py.upper_char c) = true -> Py.isspace c = false.
Proof. each_char c; vm_compute; congruence. Qed.

Lemma upper_ranks_strip (s : str) :
  forallb in_ranks (Py.upper s) = true -> Py.strip s = s.
Proof.
  intros Hs. apply (strip_nonspace Py.isspace).
  apply forallb_forall. intros c Hc. unfold Py.upper in Hs.
  rewrite forallb_forall in Hs.
  rewrite (rank_upper_nonspace c); [done|]. apply Hs. by apply in_map.
Qed.

(** A count entry that holds the length of the cards entry, written by the
    program, and a cards entry that is normal up to letter case. *)
Lemma synced_suit_matches (a : BridgeApp) (pl : player) (sc : suit) (nf : str) :
  suit_count_vars (frames a pl) sc = Py.str_of_int (len nf) ->
  Py.upper (suit_card_vars (frames a pl) sc) = nf ->
  forallb in_ranks nf = true ->
  count_mismatch a pl sc = false
  /\ forallb (fun c => (ord c <? 128)%N) (suit_count_vars (frames a pl) sc) = true.
Proof.
  intros Hcount Hup Hnf. unfold count_mismatch, count_text, cards_text.
  destruct (str_of_int_digits (len nf)) as (Hne & Hpl & Hval); [unfold len; lia|].
  rewrite Hcount, (plain_digits_strip _ Hpl).
  rewrite upper_ranks_strip by (by rewrite Hup).
  rewrite (plain_digit_isdigit _ Hne Hpl), Hval.
  assert (len (suit_card_vars (frames a pl) sc) = len nf) as ->.
  { rewrite <- Hup. unfold len, Py.upper. by rewrite length_map. }
  rewrite Z.eqb_refl. split; [done|].
  apply forallb_forall. intros c Hc. rewrite forallb_forall in Hpl.
  specialize (Hpl c Hc). unfold plain_digit in Hpl.
  by apply andb_true_iff in Hpl as [_ Hpl].
Qed.

(** X18: right after [on_cards_change] the suit passes the count check of
    Validate All: the count entry is a number and equals the length of the
    cards entry, whatever was typed into either before. *)
Theorem X18_on_cards_change_leaves_matching_count (a : BridgeApp) (pl : player)
    (sc : suit) (evt : option str) :
  let a' := exec (on_cards_change pl sc evt) a in
  count_mismatch a' pl sc = false
  /\ Py.int (count_text a' pl sc) = Ok (len (cards_text a' pl sc)).
Proof.
  cbv zeta.
  destruct (exec_hand_step _ _ _ _ _ _ (step_on_cards_change a pl sc evt))
    as (_ & Hf & _).
  destruct (frame_cards_changed_fields sc (frames a pl))
    as (_ & F2 & F3 & _).
  cbv zeta in F2, F3. rewrite <- Hf in F2, F3.
  set (a' := exec (on_cards_change pl sc evt) a) in *.
  set (nf := normal_form (suit_card_vars (frames a pl) sc)) in *.
  assert (Hcount : suit_count_vars (frames a' pl) sc = Py.str_of_int (len nf)).
  { by rewrite F2, upd_same. }
  assert (Hup : Py.upper (suit_card_vars (frames a' pl) sc) = nf).
  { by rewrite F3, upper_cards_kept. }
  destruct (synced_suit_matches a' pl sc nf Hcount Hup (normal_form_all_ranks _))
    as [Hm _].
  split; [done|].
  unfold count_text, cards_text. rewrite Hcount.
  destruct (str_of_int_digits (len nf)) as (_ & Hpl & _); [unfold len; lia|].
  rewrite (plain_digits_strip _ Hpl), int_str_of_int.
  rewrite upper_ranks_strip by (rewrite Hup; apply normal_form_all_ranks).
  f_equal. rewrite <- Hup. unfold len, Py.upper. by rewrite length_map.
Qed.

(** *** Sort & Sync *)

Lemma step_for_each {X : Type} (pl : player) (body : X -> M unit)
    (F : X -> HandFrame -> HandFrame) :
  (forall x a hf fo, frames a pl = hf -> focus a = fo ->
                     hand_step pl (body x) a tt (F x hf) fo) ->
  forall l a hf fo, frames a pl = hf -> focus a = fo ->
    hand_step pl (for_each l body) a tt (fold_left (fun hf x => F x hf) l hf) fo.
Proof.
  intros Hbody l. induction l as [|x l IH]; intros a hf fo Hf Hfo.
  - by apply step_ret.
  - cbn [for_each fold_left]. eapply step_then; [by apply Hbody|].
    intros a1 Hf1 Hfo1. by apply IH.
Qed.

Lemma step_sort_all (a : BridgeApp) (pl : player) :
  hand_step pl (sort_all pl) a tt (frame_sorted (frames a pl)) (focus a).
Proof.
  unfold sort_all, frame_sorted. eapply step_then.
  - apply (step_for_each pl _ frame_sorted_suit); [|reflexivity..].
    intros sc a0 hf fo Hf Hfo. unfold frame_sorted_suit.
    step_with step_self. rewrite normalize_cards_core, <- normal_form_core.
    step_with @step_lift_ok. step_with step_card_var_set.
    step_with step_count_var_set. step_with step_self_update.
    by apply step_rebuild_card_strip.
  - intros a1 Hf1 Hfo1. by apply step_update_stats.
Qed.

Lemma frame_sorted_suit_fields (sc : suit) (hf : HandFrame) :
  let nf := normal_form (suit_card_vars hf sc) in
  last_cards (frame_sorted_suit sc hf) = upd (last_cards hf) sc nf
  /\ played_counts (frame_sorted_suit sc hf) = played_counts hf
  /\ card_strips (frame_sorted_suit sc hf)
     = upd (card_strips hf) sc (build_strip (played_counts hf sc) ∅ nf)
  /\ points_min (frame_sorted_suit sc hf) = points_min hf
  /\ points_max (frame_sorted_suit sc hf) = points_max hf
  /\ suit_count_vars (frame_sorted_suit sc hf)
     = upd (suit_count_vars hf) sc (Py.str_of_int (len nf))
  /\ suit_card_vars (frame_sorted_suit sc hf) = upd (suit_card_vars hf) sc nf.
Proof.
  cbv zeta. unfold frame_sorted_suit. cbv zeta.
  set (nf := normal_form (suit_card_vars hf sc)).
  set (hf1 := with_suit_card_vars (upd (suit_card_vars hf) sc nf) hf).
  destruct (frame_count_set_fields sc (Py.str_of_int (len nf)) hf1)
    as (_ & H2 & H3 & H4 & H5 & H6 & _ & _ & H9 & H10).
  unfold frame_rebuild.
  cbn [last_cards played_counts card_strips points_min points_max
       suit_count_vars suit_card_vars with_card_strips with_last_cards].
  rewrite H2, H3, H4, H5, H6, H9, H10. subst hf1.
  cbn [last_cards played_counts card_strips points_min points_max
       suit_count_vars suit_card_vars with_suit_card_vars].
  by rewrite upd_same.
Qed.

Lemma frame_sorted_fields (hf : HandFrame) :
  let hf' := fold_left (fun hf sc => frame_sorted_suit sc hf) SUITS hf in
  played_counts hf' = played_counts hf
  /\ points_min hf' = points_min hf
  /\ points_max hf' = points_max hf
  /\ forall sc,
       let nf := normal_form (suit_card_vars hf sc) in
       last_cards hf' sc = nf
       /\ card_strips hf' sc = build_strip (played_counts hf sc) ∅ nf
       /\ suit_count_vars hf' sc = Py.str_of_int (len nf)
       /\ suit_card_vars hf' sc = nf.
Proof.
  cbv zeta. unfold SUITS. cbn [fold_left].
  repeat match goal with
  | |- context [frame_sorted_suit ?s ?h] =>
      let H := fresh in
      pose proof (frame_sorted_suit_fields s h) as H; cbv zeta in H;
      destruct H as (? & ? & ? & ? & ? & ? & ?);
      progress repeat match goal with
      | E : _ (frame_sorted_suit s h) = _ |- _ => rewrite !E; clear E
      end
  end.
  split; [done|]. split; [done|]. split; [done|].
  intros sc. unfold upd. by destruct sc.
Qed.


Lemma frame_stats_fields (hf : HandFrame) :
  played_counts (frame_stats hf) = played_counts hf
  /\ points_min (frame_stats hf) = points_min hf
  /\ points_max (frame_stats hf) = points_max hf
  /\ last_cards (frame_stats hf) = last_cards hf
  /\ card_strips (frame_stats hf) = card_strips hf
  /\ suit_count_vars (frame_stats hf) = suit_count_vars hf
  /\ suit_card_vars (frame_stats hf) = suit_card_vars hf
  /\ hcp_var (frame_stats hf) = Py.str_of_int (frame_hcp hf)
  /\ cards_total_var (frame_stats hf) = Py.str_of_int (frame_cards hf).
Proof. by repeat split. Qed.

(** The frame of [pl] after [sort_all], field by field. *)
Lemma sort_all_frame (a : BridgeApp) (pl : player) :
  let hf := frames a pl in
  let hf' := frames (exec (sort_all pl) a) pl in
  result (sort_all pl a) = Ok tt
  /\ played_counts hf' = played_counts hf
  /\ points_min hf' = points_min hf
  /\ points_max hf' = points_max hf
  /\ (forall sc,
        let nf := normal_form (suit_card_vars hf sc) in
        last_cards hf' sc = nf
        /\ card_strips hf' sc = build_strip (played_counts hf sc) ∅ nf
        /\ suit_count_vars hf' sc = Py.str_of_int (len nf)
        /\ suit_card_vars hf' sc = nf)
  /\ hcp_var hf'
     = Py.str_of_int
         (0 + hcp_from_cards (normal_form (suit_card_vars hf Spades))
          + hcp_from_cards (normal_form (suit_card_vars hf Hearts))
          + hcp_from_cards (normal_form (suit_card_vars hf Diamonds))
          + hcp_from_cards (normal_form (suit_card_vars hf Clubs)))
  /\ cards_total_var hf'
     = Py.str_of_int
         (0 + len (normal_form (suit_card_vars hf Spades))
          + len (normal_form (suit_card_vars hf Hearts))
          + len (normal_form (suit_card_vars hf Diamonds))
          + len (normal_form (suit_card_vars hf Clubs)))
  /\ (forall q, q <> pl -> frames (exec (sort_all pl) a) q = frames a q)
  /\ focus (exec (sort_all pl) a) = focus a.
Proof.
  cbv zeta.
  destruct (exec_hand_step _ _ _ _ _ _ (step_sort_all a pl)) as (Hr & Hf & Ho & Hfo).
  rewrite Hf. unfold frame_sorted.
  destruct (frame_stats_fields
              (fold_left (fun hf sc => frame_sorted_suit sc hf) SUITS (frames a pl)))
    as (G1 & G2 & G3 & G4 & G5 & G6 & G7 & G8 & G9).
  rewrite G1, G2, G3, G4, G5, G6, G7, G8, G9.
  destruct (frame_sorted_fields (frames a pl)) as (H1 & H2 & H3 & H4).
  cbv zeta in H4.
  destruct (H4 Spades) as (_ & _ & _ & HS), (H4 Hearts) as (_ & _ & _ & HH),
    (H4 Diamonds) as (_ & _ & _ & HD), (H4 Clubs) as (_ & _ & _ & HC).
  unfold frame_hcp, frame_cards. rewrite HS, HH, HD, HC.
  split; [exact Hr|]. split; [exact H1|]. split; [exact H2|]. split; [exact H3|].
  split; [exact H4|]. split; [reflexivity|]. split; [reflexivity|].
  split; [exact Ho|exact Hfo].
Qed.


(** X20: pressing Sort & Sync a second time changes nothing on the panel:
    every entry, counter, tile and played count of the hand is what the first
    press left. *)
Theorem X20_sort_all_twice_is_once (a : BridgeApp) (pl : player) :
  let a1 := exec (sort_all pl) a in
  let a2 := exec (sort_all pl) a1 in
  (forall sc,
     suit_card_vars (frames a2 pl) sc = suit_card_vars (frames a1 pl) sc
     /\ suit_count_vars (frames a2 pl) sc = suit_count_vars (frames a1 pl) sc
     /\ last_cards (frames a2 pl) sc = last_cards (frames a1 pl) sc
     /\ card_strips (frames a2 pl) sc = card_strips (frames a1 pl) sc
     /\ played_counts (frames a2 pl) sc = played_counts (frames a1 pl) sc)
  /\ hcp_var (frames a2 pl) = hcp_var (frames a1 pl)
  /\ cards_total_var (frames a2 pl) = cards_total_var (frames a1 pl)
  /\ points_min (frames a2 pl) = points_min (frames a1 pl)
  /\ points_max (frames a2 pl) = points_max (frames a1 pl)
  /\ (forall q, q <> pl -> frames a2 q = frames a1 q).
Proof.
  cbv zeta.
  destruct (sort_all_frame a pl) as (_ & Hp & _ & _ & Hs & Hh & Hc & _).
  destruct (sort_all_frame (exec (sort_all pl) a) pl)
    as (_ & Hp' & Hmin & Hmax & Hs' & Hh' & Hc' & Ho' & _).
  cbv zeta in Hs, Hs', Hh, Hh', Hc, Hc'.
  assert (Hnf : forall sc,
            normal_form (suit_card_vars (frames (exec (sort_all pl) a) pl) sc)
            = normal_form (suit_card_vars (frames a pl) sc)).
  { intros sc. destruct (Hs sc) as (_ & _ & _ & ->). apply normal_form_idem. }
  split; [|by rewrite Hh', Hc', !Hnf, Hh, Hc].
  intros sc. destruct (Hs sc) as (H1 & H2 & H3 & H4), (Hs' sc) as (H1' & H2' & H3' & H4').
  by rewrite H1', H2', H3', H4', Hp', Hnf, H1, H2, H3, H4, Hp.
Qed.

(** *** All four hands at once *)






(** *** Clear *)





(** *** The summary line *)






















(** *** The write trace of a count entry *)

(** X26: [on_count_change] never raises, whatever the count entry holds, and
    changes nothing but the background of the cards entry of its own suit.
    That background is set only when the count parses as an integer and the
    theme accepts a background: white when the integer is the number of
    characters in the cards entry, pale red otherwise. *)
Theorem X26_on_count_change_only_colours_the_entry (a : BridgeApp) (pl : player)
    (sc : suit) :
  let a' := exec (on_count_change pl sc) a in
  let hf := frames a pl in
  result (on_count_change pl sc a) = Ok tt
  /\ same_but_background hf (frames a' pl)
  /\ (forall sc', sc' <> sc ->
        entry_background (frames a' pl) sc' = entry_background hf sc')
  /\ entry_background (frames a' pl) sc
     = match Py.int (suit_count_vars hf sc) with
       | Ok n =>
           if accepts_background hf
           then if bool_decide (len (suit_card_vars hf sc) = n)
                then lit "white" else lit "#fff4f4"
           else entry_background hf sc
       | Raise _ => entry_background hf sc
       end
  /\ (forall q, q <> pl -> frames a' q = frames a q)
  /\ summary_var a' = summary_var a.
Proof.
  cbv zeta.
  assert (Hstep : hand_step pl (on_count_change pl sc) a tt
                    (frame_count_changed sc (frames a pl)) (focus a))
    by (by apply step_on_count_change).
  destruct (exec_hand_step _ _ _ _ _ _ Hstep) as (Hr & Hf & Ho & _).
  rewrite Hf.
  split; [exact Hr|]. split; [apply frame_count_changed_fields|].
  split; [|split; [|split; [exact Ho|]]].
  - intros sc' Hne. unfold frame_count_changed.
    destruct (Py.int _); [|done]. destruct (accepts_background _); [|done].
    cbn [entry_background with_entry_background]. by apply upd_other.
  - unfold frame_count_changed.
    destruct (Py.int _); [|done]. destruct (accepts_background _); [|done].
    cbn [entry_background with_entry_background]. apply upd_same.
  - unfold exec, on_count_change, self, mbind, M_bind, get.
    cbn [result state emitted mret M_ret].
    destruct (Py.int _); [|done]. by destruct (accepts_background _).
Qed.
